(** * ulak-api: the cache-aside read handlers and the scheduled digest batch

    A shallow embedding of [handlers/fetch-followings.ts],
    [handlers/fetch-contents.ts] and [handlers/send-emails.ts] (with the
    helpers of [utils/email-analytics.ts] they call), of
    [handlers/authorizer.ts] and of [handlers/get-email-analytics.ts],
    followed by the properties of the specification stated over it and by
    further properties of the code.

    Conventions.
    - Strings are Rocq strings (sequences of 8-bit characters): the ASCII
      range of JavaScript strings.
    - A JavaScript number is [JS.NaN] or an integer. The program compares
      the numbers it computes with integers by [===] only and counts; a
      number that is not an integer (a fraction, an infinity) is never equal
      to an integer, as [NaN] is, and is identified with [NaN].
    - External services (Redis, the search index, the platform scrapers, the
      preference store, the HTTP content endpoint, the mail service, the
      template renderer, the time-zone database) are oracles of an
      environment; a call may throw, which is a [JS.Throw] result.
    - One evaluation of the schedule reads the clock once: the
      [new Date()] of the helpers called by one [shouldSendNewsletter] are
      the same instant, and so are those of the evaluations of one batch
      run.
    - A response body is kept as the value handed to [JSON.stringify].
    - [console] output is not part of the model. *)

From Stdlib Require Import ZArith Lia Ascii.
From stdpp Require Import base gmap strings list.

Local Open Scope Z_scope.
Set Warnings "-register-all".

(* ===================================================================== *)
(** * Part I: the program                                                 *)
(* ===================================================================== *)

(** ** JavaScript built-ins used by the handlers *)
Module JS.

(** A thrown value: an [Error] with its message, or anything else. *)
Inductive exn :=
| Error (message : string)
| NonError.

(** The outcome of an evaluation that may throw. *)
Inductive Res (A : Type) :=
| Ok (a : A)
| Throw (e : exn).
Arguments Ok {A} a.
Arguments Throw {A} e.

Definition res_bind {A B} (r : Res A) (k : A -> Res B) : Res B :=
  match r with
  | Ok a => k a
  | Throw e => Throw e
  end.

(** [err instanceof Error ? err.message : "Unknown error"] *)
Definition message_of (e : exn) : string :=
  match e with
  | Error m => m
  | NonError => "Unknown error"
  end.

Inductive number :=
| NaN
| Int (z : Z).

(** [a === b] on numbers: [NaN] equals nothing. *)
Definition strict_eq (a b : number) : bool :=
  match a, b with
  | Int x, Int y => x =? y
  | _, _ => false
  end.

(** [a === b] where [b] may be [undefined] ([None]). *)
Definition strict_eq_undef (a : number) (b : option number) : bool :=
  match b with
  | Some y => strict_eq a y
  | None => false
  end.

(** Truthiness of a string, and [s || d]. *)
Definition truthy (s : string) : bool :=
  match s with
  | EmptyString => false
  | String _ _ => true
  end.

Definition or_default (s d : string) : string :=
  if truthy s then s else d.

(** White space (ASCII range): TAB, LF, VT, FF, CR, SP. *)
Definition is_ws (c : ascii) : bool := Ascii.is_space c.

Fixpoint trim_start (s : string) : string :=
  match s with
  | EmptyString => EmptyString
  | String c r => if is_ws c then trim_start r else s
  end.

Definition trim_end (s : string) : string :=
  String.rev (trim_start (String.rev s)).

(** [s.trim()] *)
Definition trim (s : string) : string := trim_end (trim_start s).

Fixpoint split_go (sep : ascii) (cur : string) (s : string) : list string :=
  match s with
  | EmptyString => [String.rev cur]
  | String c r =>
      if Ascii.eqb c sep then String.rev cur :: split_go sep EmptyString r
      else split_go sep (String c cur) r
  end.

(** [s.split(sep)] for a one-character separator: never the empty list. *)
Definition split (sep : ascii) (s : string) : list string :=
  split_go sep EmptyString s.

Definition dec_digit (c : ascii) : option Z :=
  let n := Z.of_N (N_of_ascii c) in
  if (48 <=? n) && (n <=? 57) then Some (n - 48) else None.

Definition hex_digit (c : ascii) : option Z :=
  let n := Z.of_N (N_of_ascii c) in
  if (48 <=? n) && (n <=? 57) then Some (n - 48)
  else if (65 <=? n) && (n <=? 70) then Some (n - 55)
  else if (97 <=? n) && (n <=? 102) then Some (n - 87)
  else None.

(** The value of the longest prefix of digits, [None] when there is none. *)
Fixpoint parse_prefix (digit : ascii -> option Z) (radix : Z)
  (acc : option Z) (s : string) : option Z :=
  match s with
  | EmptyString => acc
  | String c r =>
      match digit c with
      | Some d => parse_prefix digit radix (Some (radix * default 0 acc + d)) r
      | None => acc
      end
  end.

Definition signed (neg : bool) (v : Z) : Z := if neg then - v else v.

Definition parse_unsigned (s : string) : option Z :=
  match s with
  | String c (String x r) =>
      if Ascii.eqb c "0" && (Ascii.eqb x "x" || Ascii.eqb x "X")
      then parse_prefix hex_digit 16 None r
      else parse_prefix dec_digit 10 None s
  | _ => parse_prefix dec_digit 10 None s
  end.

(** [parseInt(s)] with no radix: leading white space, a sign, an optional
    [0x] prefix, then the longest prefix of digits; [NaN] when it is empty. *)
Definition parseInt (s : string) : number :=
  let s1 := trim_start s in
  let '(neg, s2) :=
    match s1 with
    | String c r =>
        if Ascii.eqb c "-" then (true, r)
        else if Ascii.eqb c "+" then (false, r)
        else (false, s1)
    | EmptyString => (false, s1)
    end in
  match parse_unsigned s2 with
  | Some v => Int (signed neg v)
  | None => NaN
  end.

Fixpoint all_digits (s : string) : bool :=
  match s with
  | EmptyString => true
  | String c r => match dec_digit c with Some _ => all_digits r | None => false end
  end.

Definition oct_digit (c : ascii) : option Z :=
  let n := Z.of_N (N_of_ascii c) in
  if (48 <=? n) && (n <=? 55) then Some (n - 48) else None.

Definition bin_digit (c : ascii) : option Z :=
  let n := Z.of_N (N_of_ascii c) in
  if (48 <=? n) && (n <=? 49) then Some (n - 48) else None.

(** The longest run of digits at the head of [s]: its value on top of
    [acc], its length on top of [n], and what follows it. *)
Fixpoint digit_run (digit : ascii -> option Z) (radix : Z) (acc : Z) (n : nat)
  (s : string) : Z * nat * string :=
  match s with
  | EmptyString => (acc, n, s)
  | String c r =>
      match digit c with
      | Some d => digit_run digit radix (radix * acc + d) (S n) r
      | None => (acc, n, s)
      end
  end.

(** What a string reads as under [StringToNumber]: not a numeric literal
    ([NaN]); a literal whose value is an integer of magnitude at most 2^53,
    which is its own [Number] value; or any other literal (a fraction, an
    infinity, a larger value), whose [Number] value is the double the
    runtime rounds it to. *)
Inductive Literal :=
| NotNumeric
| Exact (z : Z)
| Inexact.

Definition safe (v : Z) : Literal :=
  if v <=? 2 ^ 53 then Exact v else Inexact.

Definition negate (l : Literal) : Literal :=
  match l with
  | Exact z => Exact (- z)
  | _ => l
  end.

(** The digits of a [NonDecimalIntegerLiteral] after its prefix. *)
Definition radix_literal (digit : ascii -> option Z) (radix : Z) (s : string) : Literal :=
  match digit_run digit radix 0 0 s with
  | (v, S _, EmptyString) => safe v
  | _ => NotNumeric
  end.

(** [ExponentPart], when there is one: [None] when what follows the digits
    is something else. *)
Definition exponent_part (s : string) : option Z :=
  match s with
  | EmptyString => Some 0
  | String c r =>
      if Ascii.eqb c "e" || Ascii.eqb c "E" then
        let '(neg, r') :=
          match r with
          | String x r' =>
              if Ascii.eqb x "-" then (true, r')
              else if Ascii.eqb x "+" then (false, r')
              else (false, r)
          | EmptyString => (false, r)
          end in
        match digit_run dec_digit 10 0 0 r' with
        | (v, S _, EmptyString) => Some (signed neg v)
        | _ => None
        end
      else None
  end.

(** The literal of value [m * 10 ^ k], where [m] is written with [digits]
    digits. *)
Definition scaled (m : Z) (digits : nat) (k : Z) : Literal :=
  if m =? 0 then Exact 0
  else if 0 <=? k then (if k <=? 15 then safe (m * 10 ^ k) else Inexact)
  else if Z.of_nat digits <? - k then Inexact
  else if m mod 10 ^ (- k) =? 0 then safe (m / 10 ^ (- k))
  else Inexact.

(** [StrUnsignedDecimalLiteral]: [Infinity], or digits with an optional
    fraction and an optional exponent, at least one digit in all. *)
Definition unsigned_decimal (s : string) : Literal :=
  if String.eqb s "Infinity" then Inexact
  else
    let '(ip, n1, r1) := digit_run dec_digit 10 0 0 s in
    let '(m, n2, r2) :=
      match r1 with
      | String c r => if Ascii.eqb c "." then digit_run dec_digit 10 ip 0 r else (ip, O, r1)
      | EmptyString => (ip, O, r1)
      end in
    if (n1 + n2 =? 0)%nat then NotNumeric
    else
      match exponent_part r2 with
      | Some e => scaled m (n1 + n2) (e - Z.of_nat n2)
      | None => NotNumeric
      end.

(** [StrNumericLiteral]: a signed decimal literal, or an unsigned binary,
    octal or hexadecimal integer literal. *)
Definition numeric_literal (s : string) : Literal :=
  match s with
  | EmptyString => Exact 0
  | String c r =>
      if Ascii.eqb c "-" then negate (unsigned_decimal r)
      else if Ascii.eqb c "+" then unsigned_decimal r
      else
        match r with
        | String x r' =>
            if Ascii.eqb c "0" && (Ascii.eqb x "x" || Ascii.eqb x "X")
            then radix_literal hex_digit 16 r'
            else if Ascii.eqb c "0" && (Ascii.eqb x "o" || Ascii.eqb x "O")
            then radix_literal oct_digit 8 r'
            else if Ascii.eqb c "0" && (Ascii.eqb x "b" || Ascii.eqb x "B")
            then radix_literal bin_digit 2 r'
            else unsigned_decimal s
        | EmptyString => unsigned_decimal s
        end
  end.

(** [Number(s)]: surrounding white space is dropped, the empty string is 0,
    a string that is no numeric literal is [NaN], a literal whose value is
    an integer up to 2^53 is that integer. For every other literal the
    value is what the runtime rounds it to, [inexact] of the trimmed string
    (a number that is not an integer being [NaN] there, see the
    conventions). *)
Definition Number (inexact : string -> number) (s : string) : number :=
  match numeric_literal (trim s) with
  | NotNumeric => NaN
  | Exact z => Int z
  | Inexact => inexact (trim s)
  end.

Definition digit_char (d : nat) : ascii := ascii_of_nat (48 + d).

Fixpoint show_go (fuel n : nat) (acc : string) : string :=
  match fuel with
  | O => acc
  | S f =>
      let acc' := String (digit_char (n mod 10)) acc in
      if (n <? 10)%nat then acc' else show_go f (n / 10) acc'
  end.

(** Decimal rendering of a natural number, as [String(n)] gives it. *)
Definition show_nat (n : nat) : string := show_go (S n) n EmptyString.

(** [[...new Set(xs)]]: duplicates dropped, first occurrences kept in order. *)
Fixpoint uniq (seen xs : list string) : list string :=
  match xs with
  | [] => []
  | x :: r => if bool_decide (x ∈ seen) then uniq seen r else x :: uniq (x :: seen) r
  end.

End JS.

Notation "'let!' x := r 'in' k" := (JS.res_bind r (fun x => k))
  (at level 10, x pattern, r at level 100, k at level 200).

(** ** [Intl.DateTimeFormat("en-US", { timeZone, ... })] *)
Module Intl.

Inductive Weekday := Sun | Mon | Tue | Wed | Thu | Fri | Sat.

Global Instance Weekday_eq_dec : EqDecision Weekday.
Proof. solve_decision. Defined.

(** The civil time of an instant in a time zone, as far as the program
    looks at it. *)
Record Civil := {
  hour : nat;
  weekday : Weekday;
  dayOfMonth : nat
}.

(** The runtime: its time-zone database ([None]: not a time zone, the
    constructor throws a [RangeError]), the two renderings of
    [{ hour: "numeric", hour12: false }] that engines differ on: whether
    the hour is padded to two digits and whether midnight reads 24, and
    the double it rounds a numeric literal to when that is not the literal's
    own value (see [JS.Number]). *)
Record Host := {
  localTime : string -> Z -> option Civil;
  hour_two_digit : bool;
  midnight_as_24 : bool;
  inexact_number : string -> JS.number
}.

Definition resolve (host : Host) (timeZone : string) (now : Z) : JS.Res Civil :=
  match localTime host timeZone now with
  | Some c => JS.Ok c
  | None => JS.Throw (JS.Error ("Invalid time zone specified: " +:+ timeZone))
  end.

Definition rendered_hour (host : Host) (c : Civil) : nat :=
  if midnight_as_24 host && (hour c =? 0)%nat then 24%nat else hour c.

(** [{ hour: "numeric", hour12: false }] *)
Definition format_hour (host : Host) (c : Civil) : string :=
  let n := rendered_hour host c in
  if hour_two_digit host && (n <? 10)%nat then "0" +:+ JS.show_nat n
  else JS.show_nat n.

(** [{ weekday: "short" }] *)
Definition format_weekday (c : Civil) : string :=
  match weekday c with
  | Sun => "Sun" | Mon => "Mon" | Tue => "Tue" | Wed => "Wed"
  | Thu => "Thu" | Fri => "Fri" | Sat => "Sat"
  end.

(** [{ day: "numeric" }] *)
Definition format_day (c : Civil) : string := JS.show_nat (dayOfMonth c).

End Intl.

(** ** The schedule evaluator of [handlers/send-emails.ts] *)
Module Schedule.
Import JS.

(** The instant read by [new Date()] is the argument [now]. *)
Definition getCurrentHourInTimezone (host : Intl.Host) (now : Z)
  (timezone : string) : Res number :=
  let! c := Intl.resolve host timezone now in
  Ok (parseInt (Intl.format_hour host c)).

Definition dayMap : gmap string Z :=
  list_to_map [("Sun", 0); ("Mon", 1); ("Tue", 2); ("Wed", 3);
               ("Thu", 4); ("Fri", 5); ("Sat", 6)].

(** [dayMap[dayName]]: [None] is [undefined]. *)
Definition getCurrentDayInTimezone (host : Intl.Host) (now : Z)
  (timezone : string) : Res (option Z) :=
  let! c := Intl.resolve host timezone now in
  Ok (dayMap !! Intl.format_weekday c).

Definition getCurrentDayOfMonthInTimezone (host : Intl.Host) (now : Z)
  (timezone : string) : Res number :=
  let! c := Intl.resolve host timezone now in
  Ok (parseInt (Intl.format_day c)).

(** [const [sendHour] = sendTime.split(":").map(Number)] *)
Definition sendHour_of (host : Intl.Host) (sendTime : string) : option number :=
  head (map (Number (Intl.inexact_number host)) (split ":" sendTime)).

Definition shouldSendNewsletter (host : Intl.Host) (now : Z)
  (frequency sendTime timezone : string) : Res bool :=
  let sendHour := sendHour_of host sendTime in
  let! currentHour := getCurrentHourInTimezone host now timezone in
  if negb (strict_eq_undef currentHour sendHour) then Ok false
  else if bool_decide (frequency = "daily") then Ok true
  else if bool_decide (frequency = "weekly") then
    let! currentDay := getCurrentDayInTimezone host now timezone in
    Ok (bool_decide (currentDay = Some 1))
  else if bool_decide (frequency = "monthly") then
    let! currentDayOfMonth := getCurrentDayOfMonthInTimezone host now timezone in
    Ok (strict_eq currentDayOfMonth (Int 1))
  else Ok false.

End Schedule.

(** ** Computations over a world of services, which may throw

    A handler threads the state of the services it talks to; a throw keeps
    the effects made before it. *)
Module Eff.
Import JS.

Definition M (W A : Type) : Type := W -> Res A * W.

Definition ret {W A} (a : A) : M W A := fun w => (Ok a, w).

Definition throw {W A} (e : exn) : M W A := fun w => (Throw e, w).

Definition bind {W A B} (m : M W A) (k : A -> M W B) : M W B :=
  fun w =>
    match m w with
    | (Ok a, w') => k a w'
    | (Throw e, w') => (Throw e, w')
    end.

(** [try { body } catch (err) { handler(err) }] *)
Definition try_catch {W A} (body : M W A) (handler : exn -> M W A) : M W A :=
  fun w =>
    match body w with
    | (Ok a, w') => (Ok a, w')
    | (Throw e, w') => handler e w'
    end.

Definition lift {W A} (r : Res A) : M W A := fun w => (r, w).

Definition modify {W} (f : W -> W) : M W unit := fun w => (Ok tt, f w).

Definition gets {W A} (f : W -> A) : M W A := fun w => (Ok (f w), w).

(** The result of one promise under [Promise.allSettled]. *)
Inductive Settled (A : Type) :=
| Fulfilled (value : A)
| Rejected (reason : exn).
Arguments Fulfilled {A} value.
Arguments Rejected {A} reason.

Definition settle {W A} (task : M W A) : M W (Settled A) :=
  fun w =>
    match task w with
    | (Ok a, w') => (Ok (Fulfilled a), w')
    | (Throw e, w') => (Ok (Rejected e), w')
    end.

(** [await Promise.allSettled(tasks)]: every task runs to its end whatever
    the others do. The tasks are run in list order; the properties below
    count and look up results and do not depend on the interleaving. *)
Fixpoint allSettled {W A} (tasks : list (M W A)) : M W (list (Settled A)) :=
  match tasks with
  | [] => ret []
  | t :: ts =>
      bind (settle t) (fun r =>
      bind (allSettled ts) (fun rs =>
      ret (r :: rs)))
  end.

(** [.filter(r => r.status === "fulfilled").map(r => r.value)] *)
Fixpoint fulfilled_values {A} (rs : list (Settled A)) : list A :=
  match rs with
  | [] => []
  | Fulfilled v :: r => v :: fulfilled_values r
  | Rejected _ :: r => fulfilled_values r
  end.

(** [xs.filter(f)] for a callback with effects. *)
Fixpoint filterM {W A} (f : A -> M W bool) (xs : list A) : M W (list A) :=
  match xs with
  | [] => ret []
  | x :: r =>
      bind (f x) (fun keep =>
      bind (filterM f r) (fun r' =>
      ret (if keep then x :: r' else r')))
  end.

End Eff.

Notation "'let*' x := m 'in' k" := (Eff.bind m (fun x => k))
  (at level 10, x pattern, m at level 100, k at level 200).

(** A [Date]; it is stored in Redis as its ISO string. *)
Record Date := { epochMs : Z }.

(** A [Date] object, like the non-empty ISO string it is read back as, is
    truthy. *)
Definition truthy_Date (d : Date) : bool := true.

(** [z.enum(["MEDIUM", "X", "INSTAGRAM"])] *)
Definition platformEnum : list string := ["MEDIUM"; "X"; "INSTAGRAM"].

(** What [schema.safeParseAsync(event.pathParameters)] can object to. The
    values of an API Gateway parameter map are strings, so [z.string()]
    fails only on a missing key. *)
Inductive ZodIssue :=
| ExpectedObject
| InvalidPlatformName
| InvalidUsername.

Definition schema_issues (pathParameters : option (gmap string string)) : list ZodIssue :=
  match pathParameters with
  | None => [ExpectedObject]
  | Some m =>
      (match m !! "platformName" with
       | Some v => if bool_decide (v ∈ platformEnum) then [] else [InvalidPlatformName]
       | None => [InvalidPlatformName]
       end) ++
      (match m !! "username" with
       | Some _ => []
       | None => [InvalidUsername]
       end)
  end.

(** An [APIGatewayProxyEvent], as far as the handlers read it. *)
Record Event := {
  pathParameters : option (gmap string string);
  queryStringParameters : option (gmap string string)
}.

(** [event.pathParameters as { platformName, username }] *)
Definition path_param (event : Event) (name : string) : string :=
  default "" (pathParameters event ≫= (.!! name)).

(** ** [handlers/fetch-followings.ts] *)
Module FetchFollowings.
Import JS Eff.

Record FollowingUser := {
  fullName : string;
  username : string;
  profileUrl : string;
  profilePictureUrl : option string
}.

Record CachedFollowingsDTO := {
  followings : list FollowingUser;
  fetchedAt : Date
}.

Record FollowingDocument := {
  doc_fullName : string;
  doc_username : string;
  doc_profileUrl : string;
  doc_profilePictureUrl : string;
  platformName : string;
  parentUsername : string
}.

(** The filter language of the search service, as far as it is used. *)
Inductive Filter :=
| Equals (field value : string)
| AND (filters : list Filter).

Definition field_of (d : FollowingDocument) (field : string) : option string :=
  if bool_decide (field = "fullName") then Some (doc_fullName d)
  else if bool_decide (field = "username") then Some (doc_username d)
  else if bool_decide (field = "profileUrl") then Some (doc_profileUrl d)
  else if bool_decide (field = "profilePictureUrl") then Some (doc_profilePictureUrl d)
  else if bool_decide (field = "platformName") then Some (platformName d)
  else if bool_decide (field = "parentUsername") then Some (parentUsername d)
  else None.

Fixpoint eval_filter (f : Filter) (d : FollowingDocument) : bool :=
  match f with
  | Equals field value => bool_decide (field_of d field = Some value)
  | AND fs => forallb (fun g => eval_filter g d) fs
  end.

(** The calls that leave the handler. *)
Inductive Op :=
| RedisGet (key : string)
| RedisSet (key : string) (ex : Z)
| IndexUpsert (ids : list string)
| IndexSearch (query : string) (filter : Filter) (limit : nat)
| GetStrategy (platform : string)
| IsUserExists (platform user : string)
| GetFollowings (platform user : string).

(** The two capabilities of a [FollowingFetcherStrategy]. *)
Definition is_upstream (op : Op) : bool :=
  match op with
  | IsUserExists _ _ | GetFollowings _ _ => true
  | _ => false
  end.

(** The services: which calls throw, what the platform would answer, which
    documents the search service finds relevant to a query, and the clock.
    [FollowingFetcherStrategyFactory] and its strategies are not part of
    the handler: they are the oracles [fault (GetStrategy _)],
    [userExists] and [upstreamFollowings]. *)
Record Env := {
  fault : Op -> option exn;
  userExists : string -> string -> bool;
  upstreamFollowings : string -> string -> list FollowingUser;
  relevant : string -> FollowingDocument -> bool;
  clock : Date
}.

Record World := {
  redis : gmap string CachedFollowingsDTO;
  index : gmap string FollowingDocument;
  trace : list Op
}.

Definition log (op : Op) (w : World) : World :=
  {| redis := redis w; index := index w; trace := trace w ++ [op] |}.

Definition set_redis (key : string) (v : CachedFollowingsDTO) (w : World) : World :=
  {| redis := <[key := v]> (redis w); index := index w; trace := trace w |}.

Definition upsert_all (docs : list (string * FollowingDocument)) (w : World) : World :=
  {| redis := redis w;
     index := foldl (fun m d => <[d.1 := d.2]> m) (index w) docs;
     trace := trace w |}.

(** One call to a service: it is logged, then throws or takes effect. *)
Definition call {A} (env : Env) (op : Op) (effect : World -> A * World) : M World A :=
  fun w =>
    let w1 := log op w in
    match fault env op with
    | Some e => (Throw e, w1)
    | None => let '(a, w2) := effect w1 in (Ok a, w2)
    end.

Definition redis_get (env : Env) (key : string) : M World (option CachedFollowingsDTO) :=
  call env (RedisGet key) (fun w => (redis w !! key, w)).

Definition redis_set (env : Env) (key : string) (v : CachedFollowingsDTO) (ex : Z)
  : M World unit :=
  call env (RedisSet key ex) (fun w => (tt, set_redis key v w)).

Definition index_upsert (env : Env) (docs : list (string * FollowingDocument))
  : M World unit :=
  call env (IndexUpsert (map fst docs)) (fun w => (tt, upsert_all docs w)).

(** [index.search({ query, filter, limit })]: at most [limit] of the indexed
    documents that pass the filter and that the service finds relevant. *)
Definition index_search (env : Env) (query : string) (filter : Filter) (limit : nat)
  : M World (list FollowingDocument) :=
  call env (IndexSearch query filter limit) (fun w =>
    (take limit
       (List.filter (fun d => eval_filter filter d && relevant env query d)
          (map snd (map_to_list (index w)))), w)).

Definition FOLLOWINGS_KEY_PREFIX : string := "followings:".

Definition document_of (platformName username : string) (following : FollowingUser)
  : string * FollowingDocument :=
  (platformName +:+ ":" +:+ username +:+ ":" +:+ FetchFollowings.username following,
   {| doc_fullName := fullName following;
      doc_username := FetchFollowings.username following;
      doc_profileUrl := profileUrl following;
      doc_profilePictureUrl := default "" (profilePictureUrl following);
      platformName := platformName;
      parentUsername := username |}).

Definition storeFollowingsForSearch (env : Env) (platformName username : string)
  (followings : list FollowingUser) : M World unit :=
  let documents := map (document_of platformName username) followings in
  index_upsert env documents.

(** [doc.content.profilePictureUrl || undefined] *)
Definition user_of_document (doc : FollowingDocument) : FollowingUser :=
  {| fullName := doc_fullName doc;
     username := doc_username doc;
     profileUrl := doc_profileUrl doc;
     profilePictureUrl :=
       if truthy (doc_profilePictureUrl doc) then Some (doc_profilePictureUrl doc)
       else None |}.

Definition searchFilter (platformName username : string) : Filter :=
  AND [Equals "platformName" platformName; Equals "parentUsername" username].

Definition searchFollowings (env : Env) (platformName username searchQuery : string)
  : M World (list FollowingUser) :=
  let* results := index_search env searchQuery (searchFilter platformName username) 1000 in
  ret (map user_of_document results).

Inductive Body :=
| ValidationError (issues : list ZodIssue)
| ErrorBody (error : string)
| InternalError (message : string)
| FollowingsBody (followings : list FollowingUser) (fetchedAt : Date).

Record Response := {
  statusCode : Z;
  body : Body
}.

Definition internal_error (err : exn) : M World Response :=
  ret {| statusCode := 500; body := InternalError (message_of err) |}.

(** [event.queryStringParameters?.search?.trim()] *)
Definition searchQuery_of (event : Event) : option string :=
  trim <$> (queryStringParameters event ≫= (.!! "search")).

Definition handler (env : Env) (event : Event) : M World Response :=
  match schema_issues (pathParameters event) with
  | (_ :: _) as issues => ret {| statusCode := 400; body := ValidationError issues |}
  | [] =>
  let platformName := path_param event "platformName" in
  let username := path_param event "username" in
  let searchQuery := searchQuery_of event in
  let key := FOLLOWINGS_KEY_PREFIX +:+ platformName +:+ ":" +:+ username in
  let* fetchingStrategy := call env (GetStrategy platformName) (fun w => (tt, w)) in
  let* isUserExists :=
    call env (IsUserExists platformName username)
      (fun w => (userExists env platformName username, w)) in
  if negb isUserExists then
    ret {| statusCode := 404; body := ErrorBody "user not found" |}
  else
  match searchQuery with
  | Some (String _ _ as searchQuery) =>
      let* cachedFollowings := redis_get env key in
      let* early :=
        match cachedFollowings with
        | Some cached =>
            let* searchResults := searchFollowings env platformName username searchQuery in
            if (0 <? length searchResults)%nat || truthy_Date (fetchedAt cached) then
              ret (Some {| statusCode := 200;
                           body := FollowingsBody searchResults (fetchedAt cached) |})
            else ret None
        | None => ret None
        end in
      match early with
      | Some response => ret response
      | None =>
          try_catch
            (let* followings :=
               call env (GetFollowings platformName username)
                 (fun w => (upstreamFollowings env platformName username, w)) in
             let fetchedAt := clock env in
             let* _ := redis_set env key
                         {| followings := followings; fetchedAt := fetchedAt |}
                         (24 * 60 * 60) in
             let* _ := storeFollowingsForSearch env platformName username followings in
             let* searchResults := searchFollowings env platformName username searchQuery in
             ret {| statusCode := 200; body := FollowingsBody searchResults fetchedAt |})
            internal_error
      end
  | _ =>
      let* cachedFollowings := redis_get env key in
      match cachedFollowings with
      | Some cached =>
          ret {| statusCode := 200;
                 body := FollowingsBody (followings cached) (fetchedAt cached) |}
      | None =>
          try_catch
            (let* followings :=
               call env (GetFollowings platformName username)
                 (fun w => (upstreamFollowings env platformName username, w)) in
             let fetchedAt := clock env in
             let* _ := redis_set env key
                         {| followings := followings; fetchedAt := fetchedAt |}
                         (24 * 60 * 60) in
             let* _ := storeFollowingsForSearch env platformName username followings in
             ret {| statusCode := 200; body := FollowingsBody followings fetchedAt |})
            internal_error
      end
  end
  end.

End FetchFollowings.

(** ** [handlers/fetch-contents.ts] *)
Module FetchContents.
Import JS Eff.

Record ContentItem := {
  title : string;
  url : string;
  publishedAt : option string;
  imageUrl : option string;
  description : option string
}.

(** [{ contents: ContentItem[], fetchedAt: Date }] *)
Record CachedContents := {
  contents : list ContentItem;
  fetchedAt : Date
}.

Inductive Op :=
| RedisGet (key : string)
| RedisSet (key : string) (ex : Z)
| GetStrategy (platform : string)
| FetchContent (platform user since : string).

(** The capability of a [ContentFetcherStrategy]. *)
Definition is_upstream (op : Op) : bool :=
  match op with
  | FetchContent _ _ _ => true
  | _ => false
  end.

(** [ContentFetcherStrategyFactory] and its strategies are the oracles
    [fault (GetStrategy _)] and [upstreamContent]. *)
Record Env := {
  fault : Op -> option exn;
  upstreamContent : string -> string -> string -> list ContentItem;
  clock : Date
}.

Record World := {
  redis : gmap string CachedContents;
  trace : list Op
}.

Definition log (op : Op) (w : World) : World :=
  {| redis := redis w; trace := trace w ++ [op] |}.

Definition set_redis (key : string) (v : CachedContents) (w : World) : World :=
  {| redis := <[key := v]> (redis w); trace := trace w |}.

Definition call {A} (env : Env) (op : Op) (effect : World -> A * World) : M World A :=
  fun w =>
    let w1 := log op w in
    match fault env op with
    | Some e => (Throw e, w1)
    | None => let '(a, w2) := effect w1 in (Ok a, w2)
    end.

Definition redis_get (env : Env) (key : string) : M World (option CachedContents) :=
  call env (RedisGet key) (fun w => (redis w !! key, w)).

Definition redis_set (env : Env) (key : string) (v : CachedContents) (ex : Z)
  : M World unit :=
  call env (RedisSet key ex) (fun w => (tt, set_redis key v w)).

Inductive Body :=
| ValidationError (issues : list ZodIssue)
| ContentsBody (contents : list ContentItem) (fetchedAt : Date).

Record Response := {
  statusCode : Z;
  body : Body
}.

(** [event.queryStringParameters?.since as SinceDate || "all"] *)
Definition since_of (event : Event) : string :=
  match queryStringParameters event ≫= (.!! "since") with
  | Some since => or_default since "all"
  | None => "all"
  end.

Definition cache_key (platformName username since : string) : string :=
  "contents:" +:+ platformName +:+ ":" +:+ username +:+ ":" +:+ since.

Definition handler (env : Env) (event : Event) : M World Response :=
  match schema_issues (pathParameters event) with
  | (_ :: _) as issues => ret {| statusCode := 400; body := ValidationError issues |}
  | [] =>
  let platformName := path_param event "platformName" in
  let username := path_param event "username" in
  let since := since_of event in
  let* cachedContents := redis_get env (cache_key platformName username since) in
  match cachedContents with
  | Some cached =>
      ret {| statusCode := 200;
             body := ContentsBody (contents cached) (fetchedAt cached) |}
  | None =>
      let* fetchingStrategy := call env (GetStrategy platformName) (fun w => (tt, w)) in
      let* contents :=
        call env (FetchContent platformName username since)
          (fun w => (upstreamContent env platformName username since, w)) in
      let fetchedAt := clock env in
      let* _ := redis_set env (cache_key platformName username since)
                  {| contents := contents; fetchedAt := fetchedAt |}
                  (24 * 60 * 60) in
      ret {| statusCode := 200; body := ContentsBody contents fetchedAt |}
  end
  end.

End FetchContents.

(** ** [handlers/send-emails.ts] and [utils/email-analytics.ts] *)
Module SendEmails.
Import JS Eff.

(** [NewsletterPreferencesViewDTO]. The declared unions of [platform] and
    [frequency] are not enforced at run time: both are strings. *)
Module Pref.
Record t := {
  newsletter_preference_id : string;
  profile_id : string;
  user_id : string;
  email : string;
  username : string;
  timezone : string;
  language : string;
  platform : string;
  followings : list string;
  newsletter_enabled : bool;
  frequency : string;
  send_time : string
}.
End Pref.

Inductive Status := sent | failed | skipped.

(** [EmailAnalytics] *)
Module Analytics.
Record t := {
  email : string;
  user_id : option string;
  status : Status;
  error_message : option string;
  followings_count : nat;
  total_contents_count : number;
  platforms : list string;
  frequency : string;
  timezone : string;
  send_time : string;
  sent_at : Date;
  processing_time_ms : option Z
}.
End Analytics.

(** A truthy body of the content endpoint, as far as the handler tells
    values apart (it is typed [any]): an array of content items, which is
    what the handler takes it for, or the object [{ contents, fetchedAt }],
    which is what the contents endpoint of this repository answers. *)
Inductive Contents :=
| ContentList (items : list FetchContents.ContentItem)
| ContentsAnswer (answer : FetchContents.CachedContents).

(** [contents.length]: [None] is [undefined], the object has no such
    property. *)
Definition length_of (contents : Contents) : option nat :=
  match contents with
  | ContentList items => Some (length items)
  | ContentsAnswer _ => None
  end.

(** [{ username, platform, contents }]: what one preference contributes to
    a digest. *)
Module FollowingContent.
Record t := {
  username : string;
  platform : string;
  contents : Contents
}.
End FollowingContent.

Record URL := {
  base : string;
  pathname : string;
  searchParams : list (string * string)
}.

(** A [Response] of [fetch]; [json] is what [resp.json()] gives, [None]
    being a falsy body ([null]). *)
Record HttpResponse := {
  ok : bool;
  json : Res (option Contents)
}.

Record SendEmailCommand := {
  Source : string;
  ToAddresses : list string;
  Subject : string;
  Html : string
}.

(** What [supabase.from("email_analytics").insert(rows)] does. *)
Inductive InsertOutcome :=
| Inserted
| InsertError (error : string)
| InsertThrows (e : exn).

(** The services and the clock of one run. [now] is the instant the
    schedule evaluator reads; each analytics record is stamped with its own
    [new Date()]: [skipped_at] when the filter rejects a preference,
    [recorded_at] when the send task of a recipient ends ([elapsed] is what
    that task measures between its two [Date.now()]). [render] is the
    [render] of [@react-email/components], applied to the element tree of
    a digest. *)
Record Env := {
  host : Intl.Host;
  now : Z;
  newsletter_preferences_view : list Pref.t;
  select_error : option string;
  fetch : URL -> Res HttpResponse;
  render : string -> list FollowingContent.t -> Res string;
  ses_send : SendEmailCommand -> Res unit;
  insert : list Analytics.t -> InsertOutcome;
  elapsed : string -> Z;
  skipped_at : Pref.t -> Date;
  recorded_at : string -> Date;
  BASE_URL : string;
  SES_FROM_EMAIL : string
}.

(** The array [analyticsData] the closures of the handler push to, the
    commands handed to [ses.send], the batches handed to
    [trackBatchEmailAnalytics] and the rows of [email_analytics]. *)
Record World := {
  analyticsData : list Analytics.t;
  outbox : list SendEmailCommand;
  tracked : list (list Analytics.t);
  email_analytics : list Analytics.t
}.

Definition set_analyticsData (f : list Analytics.t -> list Analytics.t) (w : World) : World :=
  {| analyticsData := f (analyticsData w); outbox := outbox w;
     tracked := tracked w; email_analytics := email_analytics w |}.

Definition push_analytics (a : Analytics.t) : M World unit :=
  modify (set_analyticsData (fun l => l ++ [a])).

Definition send (env : Env) (command : SendEmailCommand) : M World unit :=
  fun w =>
    (ses_send env command,
     {| analyticsData := analyticsData w; outbox := outbox w ++ [command];
        tracked := tracked w; email_analytics := email_analytics w |}).

(** [trackBatchEmailAnalytics]: an insert error is logged, a throw is
    caught; nothing reaches the caller. *)
Definition trackBatchEmailAnalytics (env : Env) (analyticsBatch : list Analytics.t)
  : M World unit :=
  fun w =>
    (Ok tt,
     {| analyticsData := analyticsData w; outbox := outbox w;
        tracked := tracked w ++ [analyticsBatch];
        email_analytics :=
          match insert env analyticsBatch with
          | Inserted => email_analytics w ++ analyticsBatch
          | InsertError _ | InsertThrows _ => email_analytics w
          end |}).

Definition getContentsByPlatformAndUsername (env : Env) (platform username : string)
  : M World (option Contents) :=
  let requestUrl :=
    {| base := BASE_URL env;
       pathname := "/contents/platforms/" +:+ platform +:+ "/users/" +:+ username;
       searchParams := [("since", "today")] |} in
  let* resp := lift (fetch env requestUrl) in
  if negb (ok resp) then throw (Error "failed to get contents")
  else lift (json resp).

(** A [Map<string, V>]: entries in insertion order, one per key. *)
Fixpoint map_get {V} (m : list (string * V)) (k : string) : option V :=
  match m with
  | [] => None
  | (k', v) :: r => if bool_decide (k' = k) then Some v else map_get r k
  end.

Fixpoint map_set {V} (m : list (string * V)) (k : string) (v : V) : list (string * V) :=
  match m with
  | [] => [(k, v)]
  | (k', v') :: r =>
      if bool_decide (k' = k) then (k, v) :: r else (k', v') :: map_set r k v
  end.

Definition groupByEmail (preferencesToSend : list Pref.t) : list (string * list Pref.t) :=
  foldl (fun groupedByUser pref =>
           let existing := default [] (map_get groupedByUser (Pref.email pref)) in
           map_set groupedByUser (Pref.email pref) (existing ++ [pref]))
        [] preferencesToSend.

Definition skipped_record (env : Env) (pref : Pref.t) : Analytics.t :=
  {| Analytics.email := Pref.email pref;
     Analytics.user_id := Some (Pref.user_id pref);
     Analytics.status := skipped;
     Analytics.error_message := None;
     Analytics.followings_count := 0;
     Analytics.total_contents_count := Int 0;
     Analytics.platforms := [Pref.platform pref];
     Analytics.frequency := Pref.frequency pref;
     Analytics.timezone := Pref.timezone pref;
     Analytics.send_time := Pref.send_time pref;
     Analytics.sent_at := skipped_at env pref;
     Analytics.processing_time_ms := None |}.

(** The callback of [newsletterPreferences.filter]. *)
Definition due_or_skip (env : Env) (pref : Pref.t) : M World bool :=
  let* shouldSend :=
    lift (Schedule.shouldSendNewsletter (host env) (now env)
            (Pref.frequency pref) (Pref.send_time pref) (Pref.timezone pref)) in
  let* _ := if negb shouldSend then push_analytics (skipped_record env pref) else ret tt in
  ret shouldSend.

(** The callback of [preferences.map] inside one recipient. *)
Definition fetch_following (env : Env) (pref : Pref.t) : M World FollowingContent.t :=
  try_catch
    (let* contents :=
       getContentsByPlatformAndUsername env (Pref.platform pref) (Pref.username pref) in
     ret {| FollowingContent.username := Pref.username pref;
            FollowingContent.platform := Pref.platform pref;
            FollowingContent.contents := default (ContentList []) contents |})
    (fun error =>
     ret {| FollowingContent.username := Pref.username pref;
            FollowingContent.platform := Pref.platform pref;
            FollowingContent.contents := ContentList [] |}).

(** The callback of [Array.from(groupedByUser.entries()).map]. *)
Definition fetch_user (env : Env) (entry : string * list Pref.t)
  : M World (string * list FollowingContent.t) :=
  let '(email, preferences) := entry in
  let* followingsResults := allSettled (map (fetch_following env) preferences) in
  let followings := fulfilled_values followingsResults in
  ret (email, followings).

(** [emails/newsletter.tsx]: the component [NewsletterEmail], as far as
    building its element tree can throw. For every entry it evaluates
    [following.contents.length === 0 ? ... : following.contents.map(...)]:
    on an object [contents.length] is [undefined], which is not [0], and
    [contents.map], [undefined] as well, is called: a [TypeError] (the
    message is the one V8 gives). *)
Definition NewsletterEmail (followings : list FollowingContent.t) : Res unit :=
  if existsb (fun following =>
                match length_of (FollowingContent.contents following) with
                | Some _ => false
                | None => true
                end) followings
  then Throw (Error "following.contents.map is not a function")
  else Ok tt.

(** [emails/render-email.ts]: [render(NewsletterEmail({ userEmail,
    followings }))]; the component is called before [render] is. *)
Definition renderNewsletterEmail (env : Env) (email : string)
  (followings : list FollowingContent.t) : Res string :=
  let! _ := NewsletterEmail followings in
  render env email followings.

(** [sum + length]: adding [undefined], or adding to [NaN], gives [NaN]. *)
Definition add_length (sum : number) (length : option nat) : number :=
  match sum, length with
  | Int z, Some n => Int (z + Z.of_nat n)
  | _, _ => NaN
  end.

(** [followings.reduce((sum, f) => sum + f.contents.length, 0)] *)
Definition totalContents_of (followings : list FollowingContent.t) : number :=
  foldl (fun sum f => add_length sum (length_of (FollowingContent.contents f)))
        (Int 0) followings.

(** [totalContents > 0 ? `...` : "Your Content Digest"]: [NaN > 0] is
    false. *)
Definition subject_of (totalContents : number) : string :=
  match totalContents with
  | Int z =>
      if 0 <? z then
        "Your Content Digest: " +:+ show_nat (Z.to_nat z) +:+ " new " +:+
        (if z =? 1 then "update" else "updates")
      else "Your Content Digest"
  | NaN => "Your Content Digest"
  end.

Record SendResult := {
  result_email : string;
  success : bool;
  error : option string
}.

Definition outcome_record (env : Env) (email : string) (userPref : option Pref.t)
  (status : Status) (error_message : option string)
  (followings : list FollowingContent.t) : Analytics.t :=
  {| Analytics.email := email;
     Analytics.user_id := Pref.user_id <$> userPref;
     Analytics.status := status;
     Analytics.error_message := error_message;
     Analytics.followings_count := length followings;
     Analytics.total_contents_count := totalContents_of followings;
     Analytics.platforms := uniq [] (map FollowingContent.platform followings);
     Analytics.frequency := or_default (default "" (Pref.frequency <$> userPref)) "daily";
     Analytics.timezone := or_default (default "" (Pref.timezone <$> userPref)) "UTC";
     Analytics.send_time := or_default (default "" (Pref.send_time <$> userPref)) "00:00";
     Analytics.sent_at := recorded_at env email;
     Analytics.processing_time_ms := Some (elapsed env email) |}.

(** The callback of [emailData.map]. *)
Definition send_one (env : Env) (groupedByUser : list (string * list Pref.t))
  (item : string * list FollowingContent.t) : M World SendResult :=
  let '(email, followings) := item in
  let userPreferences := default [] (map_get groupedByUser email) in
  let userPref := head userPreferences in
  try_catch
    (let* html := lift (renderNewsletterEmail env email followings) in
     let totalContents := totalContents_of followings in
     let subject := subject_of totalContents in
     let command :=
       {| Source := SES_FROM_EMAIL env; ToAddresses := [email];
          Subject := subject; Html := html |} in
     let* _ := send env command in
     let* _ := push_analytics (outcome_record env email userPref sent None followings) in
     ret {| result_email := email; success := true; error := None |})
    (fun error =>
     let errorMessage := message_of error in
     let* _ := push_analytics
                 (outcome_record env email userPref failed (Some errorMessage) followings) in
     ret {| result_email := email; success := false; error := Some errorMessage |}).

(** An entry of [errors]: the message of a failed send, or the reason of a
    rejected promise. *)
Inductive ErrorValue :=
| Message (m : string)
| Reason (e : exn).

(** The callback of [sendResults.forEach], on [(successCount, errors)]. *)
Definition tally (acc : nat * list (string * ErrorValue)) (result : Settled SendResult)
  : nat * list (string * ErrorValue) :=
  let '(successCount, errors) := acc in
  match result with
  | Fulfilled value =>
      if success value then (S successCount, errors)
      else (successCount,
            errors ++ [(result_email value,
                        Message (or_default (default "" (error value)) "Unknown error"))])
  | Rejected reason => (successCount, errors ++ [("unknown", Reason reason)])
  end.

Inductive Body :=
| ErrorBody (error : string)
| MessageBody (message : string)
| Summary (message : string) (successCount failureCount : nat)
    (errors : option (list (string * ErrorValue))).

Record Response := {
  statusCode : Z;
  body : Body
}.

(** [.select("*").eq("newsletter_enabled", true)]: [(data, error)]. *)
Definition select_enabled (env : Env) : option (list Pref.t) * option string :=
  match select_error env with
  | Some e => (None, Some e)
  | None => (Some (List.filter Pref.newsletter_enabled (newsletter_preferences_view env)), None)
  end.

Definition handler (env : Env) : M World Response :=
  let '(newsletterPreferences, getNewsletterPreferencesError) := select_enabled env in
  match getNewsletterPreferencesError with
  | Some _ =>
      ret {| statusCode := 500; body := ErrorBody "Failed to fetch newsletter preferences" |}
  | None =>
  match newsletterPreferences with
  | None | Some [] =>
      ret {| statusCode := 200; body := MessageBody "No newsletters to send" |}
  | Some newsletterPreferences =>
  let* _ := modify (set_analyticsData (fun _ => [])) in
  let* preferencesToSend := filterM (due_or_skip env) newsletterPreferences in
  if (length preferencesToSend =? 0)%nat then
    ret {| statusCode := 200; body := MessageBody "No newsletters scheduled for this time" |}
  else
  let groupedByUser := groupByEmail preferencesToSend in
  let* usersWithContents := allSettled (map (fetch_user env) groupedByUser) in
  let emailData := fulfilled_values usersWithContents in
  if (length emailData =? 0)%nat then
    ret {| statusCode := 200; body := MessageBody "No valid newsletters to send" |}
  else
  let* sendResults := allSettled (map (send_one env groupedByUser) emailData) in
  let '(successCount, errors) := foldl tally (0%nat, []) sendResults in
  let failureCount := length errors in
  let* analyticsData := gets analyticsData in
  let* _ :=
    if (0 <? length analyticsData)%nat then trackBatchEmailAnalytics env analyticsData
    else ret tt in
  ret {| statusCode := if (0 <? length errors)%nat then 207 else 200;
         body := Summary ("Processed " +:+ show_nat (length emailData) +:+ " newsletters")
                   successCount failureCount
                   (if (0 <? length errors)%nat then Some errors else None) |}
  end
  end.

End SendEmails.


(** ** [String.prototype.replace] with a string pattern *)
Module JSString.

(** [s] without its prefix [p], when it starts with [p]. *)
Fixpoint strip_prefix (p s : string) : option string :=
  match p, s with
  | EmptyString, _ => Some s
  | String a p', String b s' => if Ascii.eqb a b then strip_prefix p' s' else None
  | String _ _, EmptyString => None
  end.

(** [s.replace(pattern, replacement)] for a string [pattern]: the first
    occurrence only. The [replacement] is taken literally (the program
    passes strings without [$]). *)
Fixpoint replace_first (pattern replacement s : string) : string :=
  match strip_prefix pattern s with
  | Some rest => replacement +:+ rest
  | None =>
      match s with
      | EmptyString => EmptyString
      | String c r => String c (replace_first pattern replacement r)
      end
  end.

End JSString.

(** ** [handlers/authorizer.ts]: the API Gateway token authorizer *)
Module Authorizer.
Import JS.

(** An [APIGatewayAuthorizerEvent], as far as the handler reads it. *)
Record Event := {
  type : string;
  authorizationToken : option string;
  methodArn : string
}.

Inductive Effect := Allow | Deny.

Record Statement := {
  Action : string;
  statementEffect : Effect;
  Resource : string
}.

Record Policy := {
  principalId : string;
  Version : string;
  Statements : list Statement
}.

(** The claims of a verified token, as far as the handler reads them. *)
Record JWTPayload := {
  sub : option string
}.

(** [jwtVerify(token, PROJECT_JWKS, { audience: "authenticated" })] is an
    oracle: it throws on a token it does not accept. *)
Record Env := {
  jwtVerify : string -> Res JWTPayload
}.

Definition generatePolicy (principalId : string) (effect : Effect) (resource : string)
  : Policy :=
  {| principalId := principalId;
     Version := "2012-10-17";
     Statements := [{| Action := "execute-api:Invoke";
                       statementEffect := effect;
                       Resource := resource |}] |}.

Definition handler (env : Env) (event : Event) : Policy :=
  let attempt : Res Policy :=
    if negb (bool_decide (type event = "TOKEN")) then
      Ok (generatePolicy "anonymous" Deny (methodArn event))
    else
      match JSString.replace_first "Bearer " "" <$> authorizationToken event with
      | Some (String _ _ as token) =>
          let! payload := jwtVerify env token in
          match sub payload with
          | Some (String _ _ as userId) =>
              Ok (generatePolicy userId Allow (methodArn event))
          | _ => Ok (generatePolicy "anonymous" Deny (methodArn event))
          end
      | _ => Ok (generatePolicy "anonymous" Deny (methodArn event))
      end in
  match attempt with
  | Ok policy => policy
  | Throw _ => generatePolicy "anonymous" Deny (methodArn event)
  end.

End Authorizer.

(** ** [utils/email-analytics.ts]: the statistics over the tracked outcomes

    The rows of [email_analytics] are the records the batch run inserts.
    The three averages of the statistics ([success_rate],
    [average_contents_per_email], [average_processing_time_ms]) are
    floating-point quotients and are left out; the counts are kept. *)
Module EmailAnalytics.
Import JS SendEmails.

(** What [supabase.from("email_analytics").select("*").gte(..).lte(..)]
    does. *)
Inductive SelectOutcome :=
| Selected
| SelectedNull
| SelectError (error : string)
| SelectThrows (e : exn).

(** [trackEmailAnalytics]: one row; an insert error is logged, a throw is
    caught. *)
Definition trackEmailAnalytics (env : Env) (analytics : Analytics.t) : Eff.M World unit :=
  fun w =>
    (Ok tt,
     {| analyticsData := analyticsData w; outbox := outbox w;
        tracked := tracked w;
        email_analytics :=
          match insert env [analytics] with
          | Inserted => email_analytics w ++ [analytics]
          | InsertError _ | InsertThrows _ => email_analytics w
          end |}).

(** [{ sent, failed, skipped }] *)
Record Counts := {
  sent_count : nat;
  failed_count : nat;
  skipped_count : nat
}.

Record EmailAnalyticsStats := {
  total_emails_sent : nat;
  total_emails_failed : nat;
  total_emails_skipped : nat;
  daily : Counts;
  weekly : Counts;
  monthly : Counts;
  breakdown_by_platform : gmap string (nat * nat)
}.

(** [d.status === s] *)
Definition status_is (s : Status) (d : Analytics.t) : bool :=
  match s, Analytics.status d with
  | sent, sent | failed, failed | skipped, skipped => true
  | _, _ => false
  end.

(** [d.frequency === f] *)
Definition frequency_is (f : string) (d : Analytics.t) : bool :=
  bool_decide (Analytics.frequency d = f).

(** [data.filter(d => d.frequency === f && d.status === s).length] *)
Definition count_of (f : string) (s : Status) (data : list Analytics.t) : nat :=
  length (List.filter (fun d => frequency_is f d && status_is s d) data).

Definition counts_of (f : string) (data : list Analytics.t) : Counts :=
  {| sent_count := count_of f sent data;
     failed_count := count_of f failed data;
     skipped_count := count_of f skipped data |}.

(** [d.platforms.includes(platform) && d.status === s] (the rows hold
    arrays, so the [Array.isArray] guards pass). *)
Definition lists_platform (platform : string) (s : Status) (d : Analytics.t) : bool :=
  bool_decide (platform ∈ Analytics.platforms d) && status_is s d.

(** The platforms met in [data], each once, in order of first occurrence. *)
Definition platformSet (data : list Analytics.t) : list string :=
  uniq [] (concat (map Analytics.platforms data)).

(** [breakdownByPlatform[platform] = { sent, failed }] on a plain object:
    at the key ["__proto__"] the assignment sets the prototype of the
    object and adds no property to it. *)
Definition assign {V} (key : string) (value : V) (object : gmap string V) : gmap string V :=
  if bool_decide (key = "__proto__") then object else <[key := value]> object.

Definition breakdownByPlatform (data : list Analytics.t) : gmap string (nat * nat) :=
  foldl (fun breakdown platform =>
           assign platform
             (length (List.filter (lists_platform platform sent) data),
              length (List.filter (lists_platform platform failed) data))
             breakdown)
        ∅ (platformSet data).

Definition no_counts : Counts :=
  {| sent_count := 0; failed_count := 0; skipped_count := 0 |}.

Definition no_stats : EmailAnalyticsStats :=
  {| total_emails_sent := 0; total_emails_failed := 0; total_emails_skipped := 0;
     daily := no_counts; weekly := no_counts; monthly := no_counts;
     breakdown_by_platform := ∅ |}.

(** [.gte("sent_at", startDate).lte("sent_at", endDate)] *)
Definition in_range (startDate endDate : Date) (d : Analytics.t) : bool :=
  (epochMs startDate <=? epochMs (Analytics.sent_at d))
  && (epochMs (Analytics.sent_at d) <=? epochMs endDate).

(** [getEmailAnalyticsStats]: [None] is [null]. *)
Definition getEmailAnalyticsStats (select : SelectOutcome) (table : list Analytics.t)
  (startDate endDate : Date) : option EmailAnalyticsStats :=
  match select with
  | SelectThrows _ => None
  | SelectError _ => None
  | SelectedNull => Some no_stats
  | Selected =>
      match List.filter (in_range startDate endDate) table with
      | [] => Some no_stats
      | data =>
          Some {| total_emails_sent := length (List.filter (status_is sent) data);
                  total_emails_failed := length (List.filter (status_is failed) data);
                  total_emails_skipped := length (List.filter (status_is skipped) data);
                  daily := counts_of "daily" data;
                  weekly := counts_of "weekly" data;
                  monthly := counts_of "monthly" data;
                  breakdown_by_platform := breakdownByPlatform data |}
      end
  end.

End EmailAnalytics.

(** ** [handlers/get-email-analytics.ts]: the statistics endpoint *)
Module GetEmailAnalytics.
Import JS.

(** The [Date] operations of the runtime that [getPeriodDates] uses, in the
    local time zone of the process, and the parser of [new Date(string)]
    ([None]: an invalid date). [today] is the instant the [new Date()] of one
    request read. *)
Record DateHost := {
  today : Date;
  parse : string -> option Date;
  getDate : Date -> Z;
  setDate : Date -> Z -> Date;
  setHours : Date -> Z -> Z -> Z -> Z -> Date
}.

Definition periodEnum : list string :=
  ["today"; "yesterday"; "last_7_days"; "last_30_days"; "last_90_days"; "all_time"].

Definition days_back (host : DateHost) (n : Z) : Date :=
  setHours host (setDate host (today host) (getDate host (today host) - n)) 0 0 0 0.

(** [getPeriodDates]: [(startDate, endDate)]. *)
Definition getPeriodDates (host : DateHost) (period : string) : Date * Date :=
  let now := today host in
  if bool_decide (period = "today") then (setHours host now 0 0 0 0, now)
  else if bool_decide (period = "yesterday") then
    (setHours host (setDate host now (getDate host now - 1)) 0 0 0 0,
     setHours host (setDate host now (getDate host now - 1)) 23 59 59 999)
  else if bool_decide (period = "last_7_days") then (days_back host 7, now)
  else if bool_decide (period = "last_30_days") then (days_back host 30, now)
  else if bool_decide (period = "last_90_days") then (days_back host 90, now)
  else if bool_decide (period = "all_time") then ({| epochMs := 0 |}, now)
  else (days_back host 7, now).

(** The parsed query: [z.string().optional()] twice and an optional enum. *)
Record Query := {
  startDate : option string;
  endDate : option string;
  period : option string
}.

Inductive QueryIssue := InvalidPeriod.

(** [querySchema.parse(event.queryStringParameters || {})]: the issues of a
    [ZodError], or the parsed query. *)
Definition parseQuery (queryStringParameters : option (gmap string string))
  : list QueryIssue + Query :=
  let q := default ∅ queryStringParameters in
  match q !! "period" with
  | Some p =>
      if bool_decide (p ∈ periodEnum) then
        inr {| startDate := q !! "startDate"; endDate := q !! "endDate"; period := Some p |}
      else inl [InvalidPeriod]
  | None =>
      inr {| startDate := q !! "startDate"; endDate := q !! "endDate"; period := None |}
  end.

Record Env := {
  host : DateHost;
  select : EmailAnalytics.SelectOutcome;
  email_analytics : list SendEmails.Analytics.t
}.

Inductive Body :=
| InvalidDateFormat
| InvalidQueryParameters (details : list QueryIssue)
| FailedToRetrieve
| StatsBody (startDate endDate : Date) (stats : EmailAnalytics.EmailAnalyticsStats).

Record Response := {
  statusCode : Z;
  body : Body
}.

(** [s && ...]: a present, non-empty string. *)
Definition given (s : option string) : option string :=
  match s with
  | Some (String _ _ as v) => Some v
  | _ => None
  end.

Definition respond (env : Env) (startDate endDate : Date) : Response :=
  match EmailAnalytics.getEmailAnalyticsStats (select env) (email_analytics env)
          startDate endDate with
  | None => {| statusCode := 500; body := FailedToRetrieve |}
  | Some stats => {| statusCode := 200; body := StatsBody startDate endDate stats |}
  end.

Definition handler (env : Env) (queryStringParameters : option (gmap string string))
  : Response :=
  match parseQuery queryStringParameters with
  | inl issues => {| statusCode := 400; body := InvalidQueryParameters issues |}
  | inr queryParams =>
      match given (startDate queryParams), given (endDate queryParams) with
      | Some s, Some e =>
          match parse (host env) s, parse (host env) e with
          | Some startDate, Some endDate => respond env startDate endDate
          | _, _ => {| statusCode := 400; body := InvalidDateFormat |}
          end
      | _, _ =>
          let dates :=
            getPeriodDates (host env) (or_default (default "" (period queryParams))
                                         "last_7_days") in
          respond env dates.1 dates.2
      end
  end.

End GetEmailAnalytics.
(* ===================================================================== *)
(** * Descriptions used in the statements                                  *)
(* ===================================================================== *)

(** ** The schedule evaluator on a resolved civil time *)
Module ScheduleSpec.
Import JS Schedule.

Definition weekday_number (d : Intl.Weekday) : Z :=
  match d with
  | Intl.Sun => 0 | Intl.Mon => 1 | Intl.Tue => 2 | Intl.Wed => 3
  | Intl.Thu => 4 | Intl.Fri => 5 | Intl.Sat => 6
  end.

(** The evaluator, once the zone is resolved, as a decision on the civil
    time. *)
Definition due_at (host : Intl.Host) (c : Intl.Civil) (frequency sendTime : string) : bool :=
  strict_eq_undef (Int (Z.of_nat (Intl.rendered_hour host c))) (sendHour_of host sendTime) &&
  (bool_decide (frequency = "daily")
   || bool_decide (frequency = "weekly") && bool_decide (Intl.weekday c = Intl.Mon)
   || bool_decide (frequency = "monthly") && bool_decide (Intl.dayOfMonth c = 1%nat)).




End ScheduleSpec.

(** ** Concrete runs *)
Module Examples.
Import JS.

Definition civil (h : nat) (d : Intl.Weekday) (dom : nat) : Intl.Civil :=
  {| Intl.hour := h; Intl.weekday := d; Intl.dayOfMonth := dom |}.

(** A runtime that knows the zone UTC only, where it is [c] now. *)
Definition utc_host (c : Intl.Civil) : Intl.Host :=
  {| Intl.localTime := fun tz _ => if bool_decide (tz = "UTC") then Some c else None;
     Intl.hour_two_digit := true;
     Intl.midnight_as_24 := true;
     Intl.inexact_number := fun _ => NaN |}.

Definition request (platformName username : string) (query : list (string * string)) : Event :=
  {| pathParameters :=
       Some (list_to_map [("platformName", platformName); ("username", username)]);
     queryStringParameters := Some (list_to_map query) |}.

End Examples.

(** ** The calls a contents request can make, in order *)
Module FetchContentsSpec.
Import FetchContents.

Definition calls (platformName username since : string) : list Op :=
  [RedisGet (cache_key platformName username since);
   GetStrategy platformName;
   FetchContent platformName username since;
   RedisSet (cache_key platformName username since) (24 * 60 * 60)].

End FetchContentsSpec.

Module ExamplesContents.
Import JS FetchContents.

Definition item (t : string) : ContentItem :=
  {| title := t; url := "https://medium.com/@bob/" +:+ t;
     publishedAt := None; imageUrl := None; description := None |}.

Definition no_fault : Op -> option exn := fun _ => None.

Definition redis_set_down : Op -> option exn := fun op =>
  match op with
  | RedisSet _ _ => Some (Error "redis unavailable")
  | _ => None
  end.

Definition env (fault : Op -> option exn) : Env :=
  {| FetchContents.fault := fault;
     upstreamContent := fun _ _ _ => [item "fresh"];
     clock := {| epochMs := 2000 |} |}.

Definition cached : CachedContents :=
  {| contents := [item "old"]; fetchedAt := {| epochMs := 1000 |} |}.

Definition empty : World := {| redis := ∅; trace := [] |}.

Definition warm (key : string) : World :=
  {| redis := {[ key := cached ]}; trace := [] |}.

End ExamplesContents.

(** ** The followings handler: vocabulary of the statements *)
Module FetchFollowingsSpec.
Import FetchFollowings.

Definition cache_key (platformName username : string) : string :=
  FOLLOWINGS_KEY_PREFIX +:+ platformName +:+ ":" +:+ username.

(** No search query: the parameter is absent, or blank once trimmed. *)
Definition no_search (event : Event) : Prop :=
  forall q, searchQuery_of event = Some q -> q = "".

Definition logs (ops : list Op) (w : World) : World :=
  {| redis := redis w; index := index w; trace := trace w ++ ops |}.

(** The documents a search can return: indexed, of the requested platform
    and parent user. *)
Definition indexed_under (w : World) (platformName username : string)
  (d : FollowingDocument) : Prop :=
  (exists id, index w !! id = Some d) /\
  FetchFollowings.platformName d = platformName /\
  FetchFollowings.parentUsername d = username.

(** What [index.search] returns on an index. *)
Definition search_results (env : Env) (idx : gmap string FollowingDocument)
  (platformName username searchQuery : string) : list FollowingDocument :=
  take 1000
    (List.filter
       (fun d => eval_filter (searchFilter platformName username) d
                 && relevant env searchQuery d)
       (map snd (map_to_list idx))).

(** The cache entry and the documents written after a live fetch. *)
Definition fresh_entry (env : Env) (platformName username : string) : CachedFollowingsDTO :=
  {| followings := upstreamFollowings env platformName username;
     fetchedAt := clock env |}.

Definition fresh_documents (env : Env) (platformName username : string)
  : list (string * FollowingDocument) :=
  map (document_of platformName username) (upstreamFollowings env platformName username).

(** The answer of the [catch] blocks. *)
Definition internal (e : JS.exn) : Response :=
  {| statusCode := 500; body := InternalError (JS.message_of e) |}.

Definition search_op (platformName username searchQuery : string) : Op :=
  IndexSearch searchQuery (searchFilter platformName username) 1000.

End FetchFollowingsSpec.

Module ExamplesFollowings.
Import JS FetchFollowings.

Definition bob : FollowingUser :=
  {| fullName := "Bob"; username := "bob";
     profileUrl := "https://medium.com/@bob"; profilePictureUrl := None |}.

Definition dave : FollowingUser :=
  {| fullName := "Dave"; username := "dave";
     profileUrl := "https://medium.com/@dave"; profilePictureUrl := None |}.

Definition no_fault : Op -> option exn := fun _ => None.

Definition redis_set_down : Op -> option exn := fun op =>
  match op with
  | RedisSet _ _ => Some (Error "redis unavailable")
  | _ => None
  end.

Definition upsert_down : Op -> option exn := fun op =>
  match op with
  | IndexUpsert _ => Some (Error "search unavailable")
  | _ => None
  end.

(** A platform on which every user exists or none does, and everybody
    follows bob; a search service that finds every document relevant. *)
Definition env (fault : Op -> option exn) (everyone_exists : bool) : Env :=
  {| FetchFollowings.fault := fault;
     userExists := fun _ _ => everyone_exists;
     upstreamFollowings := fun _ _ => [bob];
     relevant := fun _ _ => true;
     clock := {| epochMs := 2000 |} |}.

Definition cached : CachedFollowingsDTO :=
  {| followings := [dave]; fetchedAt := {| epochMs := 1000 |} |}.

Definition empty : World := {| redis := ∅; index := ∅; trace := [] |}.

(** alice was fetched before; the index also holds a document of carol. *)
Definition warm : World :=
  {| redis := {[ "followings:MEDIUM:alice" := cached ]};
     index := list_to_map [document_of "MEDIUM" "alice" dave;
                           document_of "MEDIUM" "carol" bob];
     trace := [] |}.

Definition alice (query : list (string * string)) : Event :=
  Examples.request "MEDIUM" "alice" query.

End ExamplesFollowings.

(** ** The batch run: what each stage computes *)
Module SendEmailsSpec.
Import JS Eff SendEmails.

(** The enabled preferences the query returns. *)
Definition enabled (env : Env) : list Pref.t :=
  List.filter Pref.newsletter_enabled (newsletter_preferences_view env).

(** The preference names a time zone the runtime knows. *)
Definition resolves (env : Env) (pref : Pref.t) : Prop :=
  is_Some (Intl.localTime (host env) (Pref.timezone pref) (now env)).

(** The schedule evaluator accepts the preference. *)
Definition due (env : Env) (pref : Pref.t) : bool :=
  match Schedule.shouldSendNewsletter (host env) (now env)
          (Pref.frequency pref) (Pref.send_time pref) (Pref.timezone pref) with
  | Ok b => b
  | Throw _ => false
  end.

Definition rejected (env : Env) (pref : Pref.t) : bool := negb (due env pref).

Definition duePreferences (env : Env) : list Pref.t := List.filter (due env) (enabled env).

Definition skippedRecords (env : Env) : list Analytics.t :=
  map (skipped_record env) (List.filter (rejected env) (enabled env)).

(** The preferences of a recipient, in order. *)
Definition members (prefs : list Pref.t) (email : string) : list Pref.t :=
  List.filter (fun p => bool_decide (Pref.email p = email)) prefs.

(** The group of a recipient: its due preferences, in table order. *)
Definition group_of (env : Env) (email : string) : list Pref.t :=
  members (duePreferences env) email.

(** What one content retrieval yields. *)
Definition retrieval (env : Env) (pref : Pref.t)
  : Res (option Contents) :=
  match fetch env
          {| base := BASE_URL env;
             pathname := "/contents/platforms/" +:+ Pref.platform pref
                         +:+ "/users/" +:+ Pref.username pref;
             searchParams := [("since", "today")] |} with
  | Ok resp => if ok resp then json resp else Throw (Error "failed to get contents")
  | Throw e => Throw e
  end.

Definition following_of (env : Env) (pref : Pref.t) : FollowingContent.t :=
  {| FollowingContent.username := Pref.username pref;
     FollowingContent.platform := Pref.platform pref;
     FollowingContent.contents :=
       match retrieval env pref with
       | Ok payload => default (ContentList []) payload
       | Throw _ => ContentList []
       end |}.

Definition digest_of (env : Env) (entry : string * list Pref.t)
  : string * list FollowingContent.t :=
  (entry.1, map (following_of env) entry.2).

(** One entry per recipient with a due preference. *)
Definition emailData (env : Env) : list (string * list FollowingContent.t) :=
  map (digest_of env) (groupByEmail (duePreferences env)).

Definition command_of (env : Env) (email : string) (followings : list FollowingContent.t)
  (html : string) : SendEmailCommand :=
  {| Source := SES_FROM_EMAIL env; ToAddresses := [email];
     Subject := subject_of (totalContents_of followings); Html := html |}.

(** Rendering then sending the digest of one recipient. *)
Definition delivery (env : Env) (item : string * list FollowingContent.t) : Res unit :=
  let! html := renderNewsletterEmail env item.1 item.2 in
  ses_send env (command_of env item.1 item.2 html).

Definition delivery_fails (env : Env) (item : string * list FollowingContent.t) : bool :=
  match delivery env item with
  | Ok _ => false
  | Throw _ => true
  end.

(** The two ways a delivery fails: the digest does not render, or it
    renders and the mail service refuses the message. *)
Definition render_fails (env : Env) (item : string * list FollowingContent.t) : bool :=
  match renderNewsletterEmail env item.1 item.2 with
  | Ok _ => false
  | Throw _ => true
  end.

Definition send_fails (env : Env) (item : string * list FollowingContent.t) : bool :=
  match renderNewsletterEmail env item.1 item.2 with
  | Ok html =>
      match ses_send env (command_of env item.1 item.2 html) with
      | Ok _ => false
      | Throw _ => true
      end
  | Throw _ => false
  end.

(** The commands handed to the mail service for one recipient. *)
Definition commands_of (env : Env) (item : string * list FollowingContent.t)
  : list SendEmailCommand :=
  match renderNewsletterEmail env item.1 item.2 with
  | Ok html => [command_of env item.1 item.2 html]
  | Throw _ => []
  end.

Definition outcome_of (env : Env) (groupedByUser : list (string * list Pref.t))
  (item : string * list FollowingContent.t) : Analytics.t :=
  let userPref := head (default [] (map_get groupedByUser item.1)) in
  match delivery env item with
  | Ok _ => outcome_record env item.1 userPref sent None item.2
  | Throw e => outcome_record env item.1 userPref failed (Some (message_of e)) item.2
  end.

(** The state after the send task of one recipient. *)
Definition after_send (env : Env) (groupedByUser : list (string * list Pref.t))
  (item : string * list FollowingContent.t) (w : World) : World :=
  {| analyticsData := analyticsData w ++ [outcome_of env groupedByUser item];
     outbox := outbox w ++ commands_of env item;
     tracked := tracked w;
     email_analytics := email_analytics w |}.

Definition result_of (env : Env) (item : string * list FollowingContent.t) : SendResult :=
  match delivery env item with
  | Ok _ => {| result_email := item.1; success := true; error := None |}
  | Throw e => {| result_email := item.1; success := false;
                  error := Some (message_of e) |}
  end.

Definition error_entry (env : Env) (item : string * list FollowingContent.t)
  : string * ErrorValue :=
  (item.1,
   Message (or_default (default "" (error (result_of env item))) "Unknown error")).

(** The records of the sent-or-failed outcomes. *)
Definition outcomes (env : Env) : list Analytics.t :=
  map (outcome_of env (groupByEmail (duePreferences env))) (emailData env).

(** N and K. *)
Definition recipients (env : Env) : nat := length (emailData env).

Definition failures (env : Env) : nat :=
  length (List.filter (delivery_fails env) (emailData env)).

Definition is_dispatch (a : Analytics.t) : bool :=
  match Analytics.status a with
  | sent | failed => true
  | skipped => false
  end.

Definition has_status (s : Status) (a : Analytics.t) : bool :=
  match s, Analytics.status a with
  | sent, sent | failed, failed | skipped, skipped => true
  | _, _ => false
  end.

(** The world after a run that reached the send stage. *)
Definition dispatched (env : Env) (w : World) : World :=
  let batch := skippedRecords env ++ outcomes env in
  {| analyticsData := batch;
     outbox := outbox w ++ concat (map (commands_of env) (emailData env));
     tracked := tracked w ++ [batch];
     email_analytics :=
       match insert env batch with
       | Inserted => email_analytics w ++ batch
       | InsertError _ | InsertThrows _ => email_analytics w
       end |}.

Definition summary (env : Env) : Response :=
  let errors := map (error_entry env) (List.filter (delivery_fails env) (emailData env)) in
  {| statusCode := if (0 <? length errors)%nat then 207 else 200;
     body := Summary ("Processed " +:+ show_nat (recipients env) +:+ " newsletters")
               (recipients env - failures env) (failures env)
               (if (0 <? length errors)%nat then Some errors else None) |}.

End SendEmailsSpec.

Module SendEmailsRuns.
Import JS SendEmails SendEmailsSpec.

(** The world after a run in which no preference was due: the rejected
    preferences sit in [analyticsData], nothing else has changed. *)
Definition nothing_due (env : Env) (w : World) : World :=
  {| analyticsData := skippedRecords env;
     outbox := outbox w;
     tracked := tracked w;
     email_analytics := email_analytics w |}.

Definition nothing_scheduled : Response :=
  {| statusCode := 200; body := MessageBody "No newsletters scheduled for this time" |}.

End SendEmailsRuns.

Module ExamplesBatch.
Import JS SendEmails.

Definition pref (email username platform frequency send_time : string) : Pref.t :=
  {| Pref.newsletter_preference_id := "np-" +:+ username;
     Pref.profile_id := "p-" +:+ email;
     Pref.user_id := "u-" +:+ email;
     Pref.email := email;
     Pref.username := username;
     Pref.timezone := "UTC";
     Pref.language := "en";
     Pref.platform := platform;
     Pref.followings := [];
     Pref.newsletter_enabled := true;
     Pref.frequency := frequency;
     Pref.send_time := send_time |}.

Definition post (t : string) : FetchContents.ContentItem :=
  {| FetchContents.title := t; FetchContents.url := "https://example.org/" +:+ t;
     FetchContents.publishedAt := None; FetchContents.imageUrl := None;
     FetchContents.description := None |}.

(** The content endpoint answers for carol and fails for everybody else. *)
Definition fetch_carol_only (u : URL) : Res HttpResponse :=
  if bool_decide (pathname u = "/contents/platforms/medium/users/carol") then
    Ok {| ok := true; json := Ok (Some (ContentList [post "one"; post "two"])) |}
  else Ok {| ok := false; json := Throw NonError |}.

(** The mail service refuses the messages to [b@example.org]. *)
Definition ses_refuses_b (c : SendEmailCommand) : Res unit :=
  if bool_decide (ToAddresses c = ["b@example.org"]) then Throw (Error "rejected")
  else Ok tt.

Definition env (table : list Pref.t) (local : Intl.Civil) : Env :=
  {| host := Examples.utc_host local;
     now := 0;
     newsletter_preferences_view := table;
     select_error := None;
     fetch := fetch_carol_only;
     render := fun _ _ => Ok "<html/>";
     ses_send := ses_refuses_b;
     insert := fun _ => Inserted;
     elapsed := fun _ => 5;
     skipped_at := fun _ => {| epochMs := 1 |};
     recorded_at := fun _ => {| epochMs := 7 |};
     BASE_URL := "https://api.example.org";
     SES_FROM_EMAIL := "digest@example.org" |}.

Definition start : World :=
  {| analyticsData := []; outbox := []; tracked := []; email_analytics := [] |}.

(** Tuesday the 9th, 10 o'clock: a daily preference for 9 is not due. *)
Definition idle : Env :=
  env [pref "a@example.org" "carol" "medium" "daily" "09:00"]
      (Examples.civil 10 Intl.Tue 9).

(** Monday the 8th, 9 o'clock: a has a daily and a weekly preference due and
    a monthly one that is not; b has a daily preference due. *)
Definition busy : Env :=
  env [pref "a@example.org" "carol" "medium" "daily" "09:00";
       pref "b@example.org" "erin" "x" "daily" "09:30";
       pref "a@example.org" "frank" "x" "weekly" "09:15";
       pref "a@example.org" "grace" "instagram" "monthly" "09:00"]
      (Examples.civil 9 Intl.Mon 8).

End ExamplesBatch.

(** ** Fixtures for the authorizer and the statistics *)
Module ExamplesMore.
Import JS.

(** A verifier that accepts the token ["good"] for the subject ["user-1"]. *)
Definition verifier : Authorizer.Env :=
  {| Authorizer.jwtVerify := fun token =>
       if bool_decide (token = "good")
       then Ok {| Authorizer.sub := Some "user-1" |}
       else Throw (Error "signature verification failed") |}.

Definition token_event (header : string) : Authorizer.Event :=
  {| Authorizer.type := "TOKEN";
     Authorizer.authorizationToken := Some header;
     Authorizer.methodArn := "arn:aws:execute-api:eu-west-1:1:api/dev/GET/x" |}.

(** Dates are written as numbers; only well-formed numbers parse. *)
Definition date_host : GetEmailAnalytics.DateHost :=
  {| GetEmailAnalytics.today := {| epochMs := 1000 |};
     GetEmailAnalytics.parse := fun s =>
       match parseInt s with
       | Int z => Some {| epochMs := z |}
       | NaN => None
       end;
     GetEmailAnalytics.getDate := fun d => epochMs d / 100;
     GetEmailAnalytics.setDate := fun d n => {| epochMs := n * 100 + epochMs d mod 100 |};
     GetEmailAnalytics.setHours := fun d h m s ms =>
       {| epochMs := epochMs d / 100 * 100 + h |} |}.

Definition analytics_env (table : list SendEmails.Analytics.t) : GetEmailAnalytics.Env :=
  {| GetEmailAnalytics.host := date_host;
     GetEmailAnalytics.select := EmailAnalytics.Selected;
     GetEmailAnalytics.email_analytics := table |}.

(** A preference whose time zone no runtime knows. *)
Definition lost : SendEmails.Pref.t :=
  {| SendEmails.Pref.newsletter_preference_id := "np-lost";
     SendEmails.Pref.profile_id := "p-lost";
     SendEmails.Pref.user_id := "u-lost";
     SendEmails.Pref.email := "lost@example.org";
     SendEmails.Pref.username := "heidi";
     SendEmails.Pref.timezone := "Mars/Olympus";
     SendEmails.Pref.language := "en";
     SendEmails.Pref.platform := "x";
     SendEmails.Pref.followings := [];
     SendEmails.Pref.newsletter_enabled := true;
     SendEmails.Pref.frequency := "daily";
     SendEmails.Pref.send_time := "09:00" |}.

(** Monday the 8th, 9 o'clock: a is due, then comes the preference with the
    unknown zone, then b, due as well. *)
Definition stuck : SendEmails.Env :=
  ExamplesBatch.env
    [ExamplesBatch.pref "a@example.org" "carol" "medium" "daily" "09:00";
     lost;
     ExamplesBatch.pref "b@example.org" "erin" "x" "daily" "09:30"]
    (Examples.civil 9 Intl.Mon 8).

(** The batch of [ExamplesBatch.busy] when the preference query fails. *)
Definition query_fails : SendEmails.Env :=
  {| SendEmails.host := SendEmails.host ExamplesBatch.busy;
     SendEmails.now := 0;
     SendEmails.newsletter_preferences_view :=
       SendEmails.newsletter_preferences_view ExamplesBatch.busy;
     SendEmails.select_error := Some "connection refused";
     SendEmails.fetch := ExamplesBatch.fetch_carol_only;
     SendEmails.render := fun _ _ => Ok "<html/>";
     SendEmails.ses_send := ExamplesBatch.ses_refuses_b;
     SendEmails.insert := fun _ => SendEmails.Inserted;
     SendEmails.elapsed := fun _ => 5;
     SendEmails.skipped_at := fun _ => {| epochMs := 1 |};
     SendEmails.recorded_at := fun _ => {| epochMs := 7 |};
     SendEmails.BASE_URL := "https://api.example.org";
     SendEmails.SES_FROM_EMAIL := "digest@example.org" |}.

(** The batch of [ExamplesBatch.busy] with a mail service that accepts every
    message and a template that throws on the digest of a. *)
Definition unrendered : SendEmails.Env :=
  {| SendEmails.host := SendEmails.host ExamplesBatch.busy;
     SendEmails.now := 0;
     SendEmails.newsletter_preferences_view :=
       SendEmails.newsletter_preferences_view ExamplesBatch.busy;
     SendEmails.select_error := None;
     SendEmails.fetch := ExamplesBatch.fetch_carol_only;
     SendEmails.render := fun email _ =>
       if bool_decide (email = "a@example.org") then Throw (Error "render failed")
       else Ok "<html/>";
     SendEmails.ses_send := fun _ => Ok tt;
     SendEmails.insert := fun _ => SendEmails.Inserted;
     SendEmails.elapsed := fun _ => 5;
     SendEmails.skipped_at := fun _ => {| epochMs := 1 |};
     SendEmails.recorded_at := fun _ => {| epochMs := 7 |};
     SendEmails.BASE_URL := "https://api.example.org";
     SendEmails.SES_FROM_EMAIL := "digest@example.org" |}.




(** The platform cannot be asked for followings. *)
Definition followings_down : FetchFollowings.Op -> option exn := fun op =>
  match op with
  | FetchFollowings.GetFollowings _ _ => Some (Error "blocked")
  | _ => None
  end.

End ExamplesMore.

(** ** The batch run and the analytics sink *)
Module Delivery.
Import SendEmails.

(** [env] with another outcome of the inserts into [email_analytics]. *)
Definition with_insert (insert : list Analytics.t -> InsertOutcome) (env : Env) : Env :=
  {| host := host env;
     now := now env;
     newsletter_preferences_view := newsletter_preferences_view env;
     select_error := select_error env;
     fetch := fetch env;
     render := render env;
     ses_send := ses_send env;
     insert := insert;
     elapsed := elapsed env;
     skipped_at := skipped_at env;
     recorded_at := recorded_at env;
     BASE_URL := BASE_URL env;
     SES_FROM_EMAIL := SES_FROM_EMAIL env |}.

(** Two runs agree on what they return and on everything but the rows of
    [email_analytics]. *)
Definition same_delivery {A} (run run' : JS.Res A * World) : Prop :=
  run'.1 = run.1 /\
  outbox run'.2 = outbox run.2 /\
  analyticsData run'.2 = analyticsData run.2 /\
  tracked run'.2 = tracked run.2.

End Delivery.

(** ** Send times *)
Module SendTime.

(** The string holds no colon. *)
Fixpoint no_colon (s : string) : bool :=
  match s with
  | EmptyString => true
  | String c r => negb (Ascii.eqb c ":") && no_colon r
  end.

End SendTime.

(** ** The statistics: vocabulary of the statements *)
Module EmailAnalyticsSpec.
Import SendEmails EmailAnalytics.

(** The count of one status in a [{ sent, failed, skipped }] triple. *)
Definition count_in (s : Status) (c : Counts) : nat :=
  match s with
  | sent => sent_count c
  | failed => failed_count c
  | skipped => skipped_count c
  end.

(** The total of one status. *)
Definition total_in (s : Status) (stats : EmailAnalyticsStats) : nat :=
  match s with
  | sent => total_emails_sent stats
  | failed => total_emails_failed stats
  | skipped => total_emails_skipped stats
  end.

(** The frequency of the row is one of the three the breakdown knows. *)
Definition known_frequency (d : Analytics.t) : bool :=
  frequency_is "daily" d || frequency_is "weekly" d || frequency_is "monthly" d.

(** The rows the query returns. *)
Definition rows (table : list Analytics.t) (startDate endDate : Date) : list Analytics.t :=
  List.filter (in_range startDate endDate) table.

End EmailAnalyticsSpec.

(** ** Cache discipline of the read handlers *)
Module CacheDiscipline.

(** A call of the followings handler that touches the cache does so at
    [key], and writes with the expiry of 24 hours. *)
Definition followings_call (key : string) (op : FetchFollowings.Op) : Prop :=
  match op with
  | FetchFollowings.RedisGet k => k = key
  | FetchFollowings.RedisSet k ex => k = key /\ ex = 86400
  | _ => True
  end.

Definition contents_call (key : string) (op : FetchContents.Op) : Prop :=
  match op with
  | FetchContents.RedisGet k => k = key
  | FetchContents.RedisSet k ex => k = key /\ ex = 86400
  | _ => True
  end.

(** What a followings request may have done to the world. *)
Definition followings_kept (env : FetchFollowings.Env) (event : Event)
  (w w' : FetchFollowings.World) : Prop :=
  let platformName := path_param event "platformName" in
  let username := path_param event "username" in
  let key := FetchFollowingsSpec.cache_key platformName username in
  (exists ops, FetchFollowings.trace w' = FetchFollowings.trace w ++ ops /\
               Forall (followings_call key) ops) /\
  (FetchFollowings.redis w' = FetchFollowings.redis w \/
   FetchFollowings.redis w'
   = <[key := FetchFollowingsSpec.fresh_entry env platformName username]>
       (FetchFollowings.redis w)) /\
  (FetchFollowings.index w' = FetchFollowings.index w \/
   FetchFollowings.index w'
   = foldl (fun m d => <[d.1 := d.2]> m) (FetchFollowings.index w)
       (FetchFollowingsSpec.fresh_documents env platformName username)).

(** What a contents request may have done to the world. *)
Definition contents_kept (env : FetchContents.Env) (event : Event)
  (w w' : FetchContents.World) : Prop :=
  let platformName := path_param event "platformName" in
  let username := path_param event "username" in
  let since := FetchContents.since_of event in
  let key := FetchContents.cache_key platformName username since in
  (exists ops, FetchContents.trace w' = FetchContents.trace w ++ ops /\
               Forall (contents_call key) ops) /\
  (FetchContents.redis w' = FetchContents.redis w \/
   FetchContents.redis w'
   = <[key := {| FetchContents.contents :=
                   FetchContents.upstreamContent env platformName username since;
                 FetchContents.fetchedAt := FetchContents.clock env |}]>
       (FetchContents.redis w)).

End CacheDiscipline.
(* ===================================================================== *)
(** * Part II: properties                                                 *)
(* ===================================================================== *)

(** ** Decimal rendering read back by [parseInt] *)
Section Decimal.
Import JS.

Lemma dec_digit_char (d : nat) :
  (d < 10)%nat -> dec_digit (digit_char d) = Some (Z.of_nat d).
Proof.
  intros H. do 10 (destruct d as [|d]; [reflexivity|]). lia.
Qed.

Lemma dec_digit_plain (c : ascii) (d : Z) :
  dec_digit c = Some d ->
  is_ws c = false /\ Ascii.eqb c "-" = false /\ Ascii.eqb c "+" = false /\
  Ascii.eqb c "x" = false /\ Ascii.eqb c "X" = false.
Proof.
  destruct c as [[] [] [] [] [] [] [] []]; vm_compute; intros; try discriminate; auto.
Qed.

Lemma parse_show_go (f : nat) :
  forall (n : nat) (rest : string) (acc : option Z),
    (n < f)%nat -> default 0 acc = 0 ->
    parse_prefix dec_digit 10 acc (show_go f n rest) =
    parse_prefix dec_digit 10 (Some (Z.of_nat n)) rest.
Proof.
  induction f as [|f IH]; intros n rest acc Hn Hacc; [lia|].
  cbn [show_go].
  assert (Hd : dec_digit (digit_char (n mod 10)) = Some (Z.of_nat (n mod 10))).
  { apply dec_digit_char. apply Nat.mod_upper_bound. lia. }
  destruct (n <? 10)%nat eqn:Hlt.
  - apply Nat.ltb_lt in Hlt. cbn [parse_prefix]. rewrite Hd, Hacc.
    rewrite Nat.mod_small by lia. repeat f_equal; lia.
  - apply Nat.ltb_ge in Hlt.
    rewrite IH; [|apply Nat.Div0.div_lt_upper_bound; lia | assumption].
    cbn [parse_prefix]. rewrite Hd. cbn [from_option]. unfold id.
    replace (10 * Z.of_nat (n / 10) + Z.of_nat (n mod 10)) with (Z.of_nat n);
      [reflexivity|].
    pose proof (Nat.div_mod_eq n 10). lia.
Qed.

Lemma all_digits_show_go (f : nat) :
  forall (n : nat) (rest : string),
    all_digits rest = true -> all_digits (show_go f n rest) = true.
Proof.
  induction f as [|f IH]; intros n rest Hrest; [exact Hrest|].
  cbn [show_go].
  assert (Hall : all_digits (String (digit_char (n mod 10)) rest) = true).
  { cbn [all_digits]. rewrite dec_digit_char; [exact Hrest|].
    apply Nat.mod_upper_bound. lia. }
  destruct (n <? 10)%nat; [exact Hall | apply IH, Hall].
Qed.

Lemma show_go_nonempty (f n : nat) (rest : string) :
  show_go (S f) n rest <> EmptyString.
Proof.
  revert n rest. induction f as [|f IH]; intros n rest;
    change (show_go (S ?g) n rest) with
      (if (n <? 10)%nat then String (digit_char (n mod 10)) rest
       else show_go g (n / 10) (String (digit_char (n mod 10)) rest));
    destruct (n <? 10)%nat; try (intros H; discriminate H).
  apply IH.
Qed.

(** On a non-empty run of decimal digits [parseInt] reads the decimal value. *)
Lemma parseInt_digits (s : string) :
  s <> EmptyString -> all_digits s = true ->
  parseInt s = match parse_prefix dec_digit 10 None s with
               | Some v => Int v
               | None => NaN
               end.
Proof.
  intros Hne Hall. destruct s as [|c r]; [congruence|].
  cbn [all_digits] in Hall. destruct (dec_digit c) as [d|] eqn:Hc; [|discriminate].
  destruct (dec_digit_plain c d Hc) as (Hws & Hm & Hp & _).
  unfold parseInt. cbn [trim_start]. rewrite Hws, Hm, Hp.
  assert (Hu : parse_unsigned (String c r) = parse_prefix dec_digit 10 None (String c r)).
  { unfold parse_unsigned. destruct r as [|x r']; [reflexivity|].
    cbn [all_digits] in Hall. destruct (dec_digit x) as [dx|] eqn:Hx; [|discriminate].
    destruct (dec_digit_plain x dx Hx) as (_ & _ & _ & Hx1 & Hx2).
    rewrite Hx1, Hx2, andb_false_r. reflexivity. }
  rewrite Hu. destruct (parse_prefix dec_digit 10 None (String c r)); reflexivity.
Qed.

Lemma parseInt_show_nat (n : nat) : parseInt (show_nat n) = Int (Z.of_nat n).
Proof.
  rewrite parseInt_digits.
  - unfold show_nat. rewrite parse_show_go by (cbn; lia). reflexivity.
  - apply show_go_nonempty.
  - apply all_digits_show_go. reflexivity.
Qed.

Lemma parseInt_padded_show_nat (n : nat) :
  parseInt ("0" +:+ show_nat n) = Int (Z.of_nat n).
Proof.
  rewrite parseInt_digits.
  - change ("0" +:+ show_nat n) with (String "0" (show_nat n)).
    cbn [parse_prefix]. change (dec_digit "0") with (Some 0).
    unfold show_nat. rewrite parse_show_go by (cbn; lia). reflexivity.
  - discriminate.
  - change ("0" +:+ show_nat n) with (String "0" (show_nat n)).
    cbn [all_digits]. change (dec_digit "0") with (Some 0).
    apply all_digits_show_go. reflexivity.
Qed.












End Decimal.

(** ** The schedule evaluator *)
Section ScheduleEvaluator.
Import JS Schedule ScheduleSpec.

Variable host : Intl.Host.
Variable now : Z.

Lemma hour_in_timezone (tz : string) (c : Intl.Civil) :
  Intl.localTime host tz now = Some c ->
  getCurrentHourInTimezone host now tz = Ok (Int (Z.of_nat (Intl.rendered_hour host c))).
Proof.
  intros Hc. unfold getCurrentHourInTimezone, Intl.resolve. rewrite Hc. cbn [res_bind].
  unfold Intl.format_hour.
  destruct (Intl.hour_two_digit host && (Intl.rendered_hour host c <? 10)%nat).
  - now rewrite parseInt_padded_show_nat.
  - now rewrite parseInt_show_nat.
Qed.

Lemma day_in_timezone (tz : string) (c : Intl.Civil) :
  Intl.localTime host tz now = Some c ->
  getCurrentDayInTimezone host now tz = Ok (Some (weekday_number (Intl.weekday c))).
Proof.
  intros Hc. unfold getCurrentDayInTimezone, Intl.resolve. rewrite Hc. cbn [res_bind].
  unfold Intl.format_weekday. destruct (Intl.weekday c); vm_compute; reflexivity.
Qed.

Lemma dayOfMonth_in_timezone (tz : string) (c : Intl.Civil) :
  Intl.localTime host tz now = Some c ->
  getCurrentDayOfMonthInTimezone host now tz = Ok (Int (Z.of_nat (Intl.dayOfMonth c))).
Proof.
  intros Hc. unfold getCurrentDayOfMonthInTimezone, Intl.resolve. rewrite Hc.
  cbn [res_bind]. unfold Intl.format_day. now rewrite parseInt_show_nat.
Qed.

(** With a string that names no time zone the evaluator throws. *)
Lemma shouldSend_unknown_zone (frequency sendTime tz : string) :
  Intl.localTime host tz now = None ->
  exists e, shouldSendNewsletter host now frequency sendTime tz = Throw e.
Proof.
  intros Hc. unfold shouldSendNewsletter, getCurrentHourInTimezone, Intl.resolve.
  rewrite Hc. cbn [res_bind]. eauto.
Qed.

Lemma shouldSend_resolved (frequency sendTime tz : string) (c : Intl.Civil) :
  Intl.localTime host tz now = Some c ->
  shouldSendNewsletter host now frequency sendTime tz = Ok (due_at host c frequency sendTime).
Proof.
  intros Hc. unfold shouldSendNewsletter, due_at.
  rewrite (hour_in_timezone tz c Hc). cbn [res_bind].
  destruct (strict_eq_undef _ (sendHour_of host sendTime)); cbn [negb andb];
    [|reflexivity].
  destruct (bool_decide (frequency = "daily")) eqn:Hd; [reflexivity|].
  destruct (bool_decide (frequency = "weekly")) eqn:Hw.
  - rewrite (day_in_timezone tz c Hc). cbn [res_bind orb andb]. f_equal.
    apply bool_decide_eq_true in Hw. subst frequency.
    destruct (Intl.weekday c); reflexivity.
  - destruct (bool_decide (frequency = "monthly")) eqn:Hm; [|reflexivity].
    rewrite (dayOfMonth_in_timezone tz c Hc). cbn [res_bind orb andb strict_eq].
    f_equal. destruct (decide (Intl.dayOfMonth c = 1%nat)) as [E|E].
    + rewrite E. rewrite bool_decide_eq_true_2 by reflexivity. reflexivity.
    + rewrite bool_decide_eq_false_2 by assumption. apply Z.eqb_neq. lia.
Qed.

End ScheduleEvaluator.

(** C6. For every time zone and instant, the evaluator on frequency
    [weekly] and send time ["09:00"] answers due exactly when the local hour
    in the zone is 9 and the local weekday is Monday; on a Tuesday at 9 it
    answers not due. *)
Theorem weekly_0900_due_iff_monday_hour_9
  (host : Intl.Host) (now : Z) (tz : string) (c : Intl.Civil) :
  Intl.localTime host tz now = Some c ->
  Schedule.shouldSendNewsletter host now "weekly" "09:00" tz
  = JS.Ok (bool_decide (Intl.hour c = 9%nat /\ Intl.weekday c = Intl.Mon))
  /\ (Intl.hour c = 9%nat -> Intl.weekday c = Intl.Tue ->
      Schedule.shouldSendNewsletter host now "weekly" "09:00" tz = JS.Ok false).
Proof.
  intros Hc. rewrite (shouldSend_resolved host now "weekly" "09:00" tz c Hc).
  assert (E : ScheduleSpec.due_at host c "weekly" "09:00"
              = bool_decide (Intl.hour c = 9%nat /\ Intl.weekday c = Intl.Mon)).
  { unfold ScheduleSpec.due_at. change (Schedule.sendHour_of host "09:00") with (Some (JS.Int 9)).
    cbn [JS.strict_eq_undef JS.strict_eq].
    change (bool_decide ("weekly" = "daily")) with false.
    change (bool_decide ("weekly" = "weekly")) with true.
    cbn [orb andb]. rewrite orb_false_r.
    assert (Hh : (Z.of_nat (Intl.rendered_hour host c) =? 9)
                 = bool_decide (Intl.hour c = 9%nat)).
    { unfold Intl.rendered_hour.
      destruct (decide (Intl.hour c = 9%nat)) as [E|E].
      - rewrite E, andb_false_r. now rewrite bool_decide_eq_true_2.
      - rewrite bool_decide_eq_false_2 by assumption. apply Z.eqb_neq.
        destruct (Intl.midnight_as_24 host && (Intl.hour c =? 0)%nat); lia. }
    rewrite Hh.
    destruct (decide (Intl.hour c = 9%nat)), (decide (Intl.weekday c = Intl.Mon));
      repeat first [rewrite bool_decide_eq_true_2 by tauto
                   | rewrite bool_decide_eq_false_2 by tauto]; reflexivity. }
  split; [now rewrite E|].
  intros H9 Htue. rewrite E. f_equal. apply bool_decide_eq_false_2.
  rewrite Htue. intros [_ H]. discriminate H.
Qed.



(** The evaluator on concrete civil times. *)
Lemma weekly_0900_due_iff_monday_hour_9_witness :
  Schedule.shouldSendNewsletter
    (Examples.utc_host (Examples.civil 9 Intl.Mon 8)) 0 "weekly" "09:00" "UTC"
  = JS.Ok true
  /\ Schedule.shouldSendNewsletter
       (Examples.utc_host (Examples.civil 9 Intl.Tue 9)) 0 "weekly" "09:00" "UTC"
     = JS.Ok false.
Proof.
  split.
  - apply (weekly_0900_due_iff_monday_hour_9
             (Examples.utc_host (Examples.civil 9 Intl.Mon 8)) 0 "UTC"
             (Examples.civil 9 Intl.Mon 8)).
    reflexivity.
  - apply (weekly_0900_due_iff_monday_hour_9
             (Examples.utc_host (Examples.civil 9 Intl.Tue 9)) 0 "UTC"
             (Examples.civil 9 Intl.Tue 9)); reflexivity.
Defined.



(** ** The contents handler *)
Section FetchContentsHandler.
Import JS Eff FetchContents FetchContentsSpec.

Variable env : Env.

Lemma contents_call_ok {A} (op : Op) (effect : World -> A * World) (w : World) :
  fault env op = None ->
  call env op effect w = (Ok (effect (log op w)).1, (effect (log op w)).2).
Proof. intros H. unfold call. rewrite H. now destruct (effect (log op w)). Qed.


Lemma contents_invalid (event : Event) (w : World) :
  schema_issues (pathParameters event) <> [] ->
  handler env event w
  = (Ok {| statusCode := 400;
           body := ValidationError (schema_issues (pathParameters event)) |}, w).
Proof.
  intros H. unfold handler. destruct (schema_issues (pathParameters event)); [congruence|].
  reflexivity.
Qed.

(** A valid request whose key is cached: one cache read, nothing else. *)
Lemma contents_hit (event : Event) (w : World) (cached : CachedContents) :
  let key := cache_key (path_param event "platformName") (path_param event "username")
               (since_of event) in
  schema_issues (pathParameters event) = [] ->
  fault env (RedisGet key) = None ->
  redis w !! key = Some cached ->
  handler env event w
  = (Ok {| statusCode := 200; body := ContentsBody (contents cached) (fetchedAt cached) |},
     log (RedisGet key) w).
Proof.
  intros key Hs Hf Hc. unfold handler. rewrite Hs.
  unfold bind, redis_get. rewrite (contents_call_ok _ _ _ Hf). cbn [fst snd log redis].
  fold key. rewrite Hc. reflexivity.
Qed.

(** A valid request whose key is not cached, step by step. *)
Lemma contents_miss (event : Event) (w : World) :
  let platformName := path_param event "platformName" in
  let username := path_param event "username" in
  let since := since_of event in
  let key := cache_key platformName username since in
  let fresh := {| contents := upstreamContent env platformName username since;
                  fetchedAt := clock env |} in
  let w1 := log (RedisGet key) w in
  let w2 := log (GetStrategy platformName) w1 in
  let w3 := log (FetchContent platformName username since) w2 in
  let w4 := log (RedisSet key (24 * 60 * 60)) w3 in
  schema_issues (pathParameters event) = [] ->
  fault env (RedisGet key) = None ->
  redis w !! key = None ->
  handler env event w =
  match fault env (GetStrategy platformName) with
  | Some e => (Throw e, w2)
  | None =>
    match fault env (FetchContent platformName username since) with
    | Some e => (Throw e, w3)
    | None =>
      match fault env (RedisSet key (24 * 60 * 60)) with
      | Some e => (Throw e, w4)
      | None =>
          (Ok {| statusCode := 200;
                 body := ContentsBody (contents fresh) (fetchedAt fresh) |},
           set_redis key fresh w4)
      end
    end
  end.
Proof.
  intros platformName username since key fresh w1 w2 w3 w4 Hs Hf Hc.
  unfold handler. rewrite Hs. fold platformName username since key.
  unfold bind at 1. unfold redis_get. rewrite (contents_call_ok _ _ _ Hf).
  cbn [fst snd log redis]. rewrite Hc.
  unfold bind, redis_set, call.
  destruct (fault env (GetStrategy platformName)); [reflexivity|].
  destruct (fault env (FetchContent platformName username since)); [reflexivity|].
  destruct (fault env (RedisSet key (24 * 60 * 60))); reflexivity.
Qed.

End FetchContentsHandler.



(** ** The followings handler *)
Section FetchFollowingsHandler.
Import JS Eff FetchFollowings FetchFollowingsSpec.

Variable env : Env.

Lemma followings_invalid (event : Event) (w : World) :
  schema_issues (pathParameters event) <> [] ->
  handler env event w
  = (Ok {| statusCode := 400;
           body := ValidationError (schema_issues (pathParameters event)) |}, w).
Proof.
  intros H. unfold handler. destruct (schema_issues (pathParameters event)); [congruence|].
  reflexivity.
Qed.

(** Case analysis on every call that may throw. *)
Ltac case_faults :=
  repeat match goal with
         | |- context [fault env ?op] => destruct (fault env op); try reflexivity
         end.

Lemma logs_log (op : Op) (ops : list Op) (w : World) :
  log op (logs ops w) = logs (ops ++ [op]) w.
Proof. unfold log, logs. cbn. now rewrite app_assoc. Qed.

Lemma log_logs (op : Op) (w : World) : log op w = logs [op] w.
Proof. reflexivity. Qed.

(** Without a search query, up to the cache lookup. *)
Lemma followings_plain (event : Event) (w : World) :
  let platformName := path_param event "platformName" in
  let username := path_param event "username" in
  let key := cache_key platformName username in
  let w3 := logs [GetStrategy platformName; IsUserExists platformName username;
                  RedisGet key] w in
  schema_issues (pathParameters event) = [] ->
  no_search event ->
  fault env (GetStrategy platformName) = None ->
  fault env (IsUserExists platformName username) = None ->
  fault env (RedisGet key) = None ->
  handler env event w =
  if userExists env platformName username then
    match redis w !! key with
    | Some cached =>
        (Ok {| statusCode := 200;
               body := FollowingsBody (followings cached) (fetchedAt cached) |}, w3)
    | None =>
        try_catch
          (let* followings :=
             call env (GetFollowings platformName username)
               (fun w => (upstreamFollowings env platformName username, w)) in
           let* _ := redis_set env key
                       {| followings := followings; fetchedAt := clock env |}
                       (24 * 60 * 60) in
           let* _ := storeFollowingsForSearch env platformName username followings in
           ret {| statusCode := 200; body := FollowingsBody followings (clock env) |})
          internal_error w3
    end
  else
    (Ok {| statusCode := 404; body := ErrorBody "user not found" |},
     logs [GetStrategy platformName; IsUserExists platformName username] w).
Proof.
  intros platformName username key w3 Hs Hq Hf1 Hf2 Hf3.
  unfold handler. rewrite Hs. fold platformName username. fold (cache_key platformName username).
  fold key. unfold bind at 1. unfold call at 1. rewrite Hf1.
  unfold bind at 1. unfold call at 1. rewrite Hf2.
  rewrite (log_logs (GetStrategy platformName) w), logs_log.
  destruct (userExists env platformName username); [|reflexivity]. cbn [negb].
  destruct (searchQuery_of event) as [[|c r]|] eqn:E;
    try (specialize (Hq _ E); discriminate Hq);
    unfold bind at 1; unfold redis_get, call at 1; rewrite Hf3;
    rewrite logs_log; cbn [logs redis app]; fold w3;
    destruct (redis w !! key); reflexivity.
Qed.


(** The live fetch of the plain path, step by step. *)
Lemma followings_refetch (platformName username key : string) (w : World) :
  let entry := fresh_entry env platformName username in
  let docs := fresh_documents env platformName username in
  let w1 := log (GetFollowings platformName username) w in
  let w2 := log (RedisSet key (24 * 60 * 60)) w1 in
  let w3 := log (IndexUpsert (map fst docs)) (set_redis key entry w2) in
  try_catch
    (let* followings :=
       call env (GetFollowings platformName username)
         (fun w => (upstreamFollowings env platformName username, w)) in
     let* _ := redis_set env key
                 {| followings := followings; fetchedAt := clock env |}
                 (24 * 60 * 60) in
     let* _ := storeFollowingsForSearch env platformName username followings in
     ret {| statusCode := 200; body := FollowingsBody followings (clock env) |})
    internal_error w =
  match fault env (GetFollowings platformName username) with
  | Some e => (Ok (internal e), w1)
  | None =>
    match fault env (RedisSet key (24 * 60 * 60)) with
    | Some e => (Ok (internal e), w2)
    | None =>
      match fault env (IndexUpsert (map fst docs)) with
      | Some e => (Ok (internal e), w3)
      | None =>
          (Ok {| statusCode := 200;
                 body := FollowingsBody (followings entry) (fetchedAt entry) |},
           upsert_all docs w3)
      end
    end
  end.
Proof.
  intros entry docs w1 w2 w3. subst entry docs w1 w2 w3.
  unfold fresh_entry, fresh_documents, try_catch, bind, redis_set,
    storeFollowingsForSearch, index_upsert, call, internal_error, ret, internal.
  case_faults.
Qed.

Lemma searchFollowings_run (platformName username searchQuery : string) (w : World) :
  searchFollowings env platformName username searchQuery w =
  match fault env (search_op platformName username searchQuery) with
  | Some e => (Throw e, log (search_op platformName username searchQuery) w)
  | None =>
      (Ok (map user_of_document
             (search_results env (index w) platformName username searchQuery)),
       log (search_op platformName username searchQuery) w)
  end.
Proof.
  unfold searchFollowings, bind, index_search, call, search_op.
  destruct (fault env _); reflexivity.
Qed.

(** The live fetch of the search path, step by step. *)
Lemma followings_refetch_search (platformName username key searchQuery : string)
  (w : World) :
  let entry := fresh_entry env platformName username in
  let docs := fresh_documents env platformName username in
  let w1 := log (GetFollowings platformName username) w in
  let w2 := log (RedisSet key (24 * 60 * 60)) w1 in
  let w3 := log (IndexUpsert (map fst docs)) (set_redis key entry w2) in
  let w4 := log (search_op platformName username searchQuery) (upsert_all docs w3) in
  try_catch
    (let* followings :=
       call env (GetFollowings platformName username)
         (fun w => (upstreamFollowings env platformName username, w)) in
     let* _ := redis_set env key
                 {| followings := followings; fetchedAt := clock env |}
                 (24 * 60 * 60) in
     let* _ := storeFollowingsForSearch env platformName username followings in
     let* searchResults := searchFollowings env platformName username searchQuery in
     ret {| statusCode := 200; body := FollowingsBody searchResults (clock env) |})
    internal_error w =
  match fault env (GetFollowings platformName username) with
  | Some e => (Ok (internal e), w1)
  | None =>
    match fault env (RedisSet key (24 * 60 * 60)) with
    | Some e => (Ok (internal e), w2)
    | None =>
      match fault env (IndexUpsert (map fst docs)) with
      | Some e => (Ok (internal e), w3)
      | None =>
        match fault env (search_op platformName username searchQuery) with
        | Some e => (Ok (internal e), w4)
        | None =>
            (Ok {| statusCode := 200;
                   body := FollowingsBody
                             (map user_of_document
                                (search_results env (index w4)
                                   platformName username searchQuery))
                             (clock env) |}, w4)
        end
      end
    end
  end.
Proof.
  intros entry docs w1 w2 w3 w4. subst entry docs w1 w2 w3 w4.
  unfold fresh_entry, fresh_documents, try_catch, bind, redis_set,
    storeFollowingsForSearch, index_upsert, searchFollowings, index_search, call,
    internal_error, ret, internal, search_op, search_results.
  case_faults.
Qed.

(** With a search query, step by step. *)
Lemma followings_search (event : Event) (w : World) (searchQuery : string) :
  let platformName := path_param event "platformName" in
  let username := path_param event "username" in
  let key := cache_key platformName username in
  let w1 := log (GetStrategy platformName) w in
  let w2 := log (IsUserExists platformName username) w1 in
  let w3 := log (RedisGet key) w2 in
  let w4 := log (search_op platformName username searchQuery) w3 in
  schema_issues (pathParameters event) = [] ->
  searchQuery_of event = Some searchQuery -> searchQuery <> "" ->
  handler env event w =
  match fault env (GetStrategy platformName) with
  | Some e => (Throw e, w1)
  | None =>
    match fault env (IsUserExists platformName username) with
    | Some e => (Throw e, w2)
    | None =>
      if userExists env platformName username then
        match fault env (RedisGet key) with
        | Some e => (Throw e, w3)
        | None =>
          match redis w !! key with
          | Some cached =>
            match fault env (search_op platformName username searchQuery) with
            | Some e => (Throw e, w4)
            | None =>
                (Ok {| statusCode := 200;
                       body := FollowingsBody
                                 (map user_of_document
                                    (search_results env (index w)
                                       platformName username searchQuery))
                                 (fetchedAt cached) |}, w4)
            end
          | None =>
              try_catch
                (let* followings :=
                   call env (GetFollowings platformName username)
                     (fun w => (upstreamFollowings env platformName username, w)) in
                 let* _ := redis_set env key
                             {| followings := followings; fetchedAt := clock env |}
                             (24 * 60 * 60) in
                 let* _ := storeFollowingsForSearch env platformName username
                             followings in
                 let* searchResults :=
                   searchFollowings env platformName username searchQuery in
                 ret {| statusCode := 200;
                        body := FollowingsBody searchResults (clock env) |})
                internal_error w3
          end
        end
      else (Ok {| statusCode := 404; body := ErrorBody "user not found" |}, w2)
    end
  end.
Proof.
  intros platformName username key w1 w2 w3 w4 Hs Hq Hne.
  unfold handler. rewrite Hs, Hq. fold platformName username.
  fold (cache_key platformName username). fold key.
  destruct searchQuery as [|c r]; [congruence|].
  unfold bind at 1. unfold call at 1. fold w1.
  destruct (fault env (GetStrategy platformName)); [reflexivity|].
  unfold bind at 1. unfold call at 1. fold w2.
  destruct (fault env (IsUserExists platformName username)); [reflexivity|].
  destruct (userExists env platformName username); [|reflexivity]. cbn [negb].
  unfold bind at 1. unfold redis_get, call at 1. fold w3.
  destruct (fault env (RedisGet key)); [reflexivity|].
  change (redis w3) with (redis w).
  destruct (redis w !! key) as [cached|]; [|reflexivity].
  unfold bind. rewrite searchFollowings_run. fold w4.
  destruct (fault env (search_op platformName username (String c r))); [reflexivity|].
  unfold truthy_Date. rewrite orb_true_r. reflexivity.
Qed.

End FetchFollowingsHandler.

Lemma search_results_indexed (env : FetchFollowings.Env)
  (idx : gmap string FetchFollowings.FollowingDocument)
  (platformName username searchQuery : string) (d : FetchFollowings.FollowingDocument) :
  In d (FetchFollowingsSpec.search_results env idx platformName username searchQuery) ->
  (exists id, idx !! id = Some d) /\
  FetchFollowings.platformName d = platformName /\
  FetchFollowings.parentUsername d = username.
Proof.
  unfold FetchFollowingsSpec.search_results. intros Hin.
  apply list_elem_of_In, elem_of_take in Hin as (i & Hi & _).
  apply list_elem_of_lookup_2, list_elem_of_In, filter_In in Hi as [Hin Hf].
  apply in_map_iff in Hin as ([id d'] & <- & Hin).
  apply list_elem_of_In, elem_of_map_to_list in Hin. split; [eauto|].
  apply andb_true_iff in Hf as [Hf _].
  unfold FetchFollowings.searchFilter in Hf. cbn [FetchFollowings.eval_filter forallb] in Hf.
  apply andb_true_iff in Hf as [Hp Hf]. apply andb_true_iff in Hf as [Hu _].
  apply bool_decide_eq_true in Hp, Hu.
  cbn [snd] in *.
  change (FetchFollowings.field_of d' "platformName")
    with (Some (FetchFollowings.platformName d')) in Hp.
  change (FetchFollowings.field_of d' "parentUsername")
    with (Some (FetchFollowings.parentUsername d')) in Hu.
  split; congruence.
Qed.

(** What the cache holds for a key is what was last written there. *)
Lemma contents_last_write (env : FetchContents.Env) (key : string)
  (v : FetchContents.CachedContents) (ex : Z) (w : FetchContents.World) :
  FetchContents.fault env (FetchContents.RedisSet key ex) = None ->
  FetchContents.redis (FetchContents.redis_set env key v ex w).2 !! key = Some v.
Proof.
  intros Hf. unfold FetchContents.redis_set. rewrite (contents_call_ok env _ _ _ Hf).
  cbn. apply lookup_insert_eq.
Qed.

Lemma followings_last_write (env : FetchFollowings.Env) (key : string)
  (v : FetchFollowings.CachedFollowingsDTO) (ex : Z) (w : FetchFollowings.World) :
  FetchFollowings.fault env (FetchFollowings.RedisSet key ex) = None ->
  FetchFollowings.redis (FetchFollowings.redis_set env key v ex w).2 !! key = Some v.
Proof.
  intros Hf. unfold FetchFollowings.redis_set, FetchFollowings.call. rewrite Hf.
  cbn. apply lookup_insert_eq.
Qed.

(** C1, as stated, fails for followings: with the entry of alice in the
    cache and no search query, the handler still asks the platform whether
    alice exists before it looks at the cache; when the platform says she
    does not, the cached value is not returned at all. *)
Lemma cache_hit_followings_asks_upstream :
  let hit := FetchFollowings.handler
               (ExamplesFollowings.env ExamplesFollowings.no_fault true)
               (ExamplesFollowings.alice []) ExamplesFollowings.warm in
  let gone := FetchFollowings.handler
                (ExamplesFollowings.env ExamplesFollowings.no_fault false)
                (ExamplesFollowings.alice []) ExamplesFollowings.warm in
  FetchFollowings.redis ExamplesFollowings.warm !! "followings:MEDIUM:alice"
  = Some ExamplesFollowings.cached
  /\ hit.1 = JS.Ok {| FetchFollowings.statusCode := 200;
                      FetchFollowings.body :=
                        FetchFollowings.FollowingsBody [ExamplesFollowings.dave]
                          {| epochMs := 1000 |} |}
  /\ FetchFollowings.trace hit.2
     = [FetchFollowings.GetStrategy "MEDIUM";
        FetchFollowings.IsUserExists "MEDIUM" "alice";
        FetchFollowings.RedisGet "followings:MEDIUM:alice"]
  /\ existsb FetchFollowings.is_upstream (FetchFollowings.trace hit.2) = true
  /\ gone.1 = JS.Ok {| FetchFollowings.statusCode := 404;
                       FetchFollowings.body := FetchFollowings.ErrorBody "user not found" |}.
Proof. vm_compute. repeat split. Qed.

(** C1 (amended). A contents request whose key is cached is answered with
    the cached contents and [fetchedAt] after one cache read and no other
    call. A followings request without a search query whose key is cached
    resolves the strategy and asks the platform whether the user exists,
    once and before the cache is read; if the user exists it answers the
    cached followings and [fetchedAt] and never lists the followings
    upstream, otherwise it answers 404. *)
Theorem cache_hit_is_returned_verbatim :
  (forall (env : FetchContents.Env) (event : Event) (w : FetchContents.World)
          (cached : FetchContents.CachedContents),
     let key := FetchContents.cache_key (path_param event "platformName")
                  (path_param event "username") (FetchContents.since_of event) in
     schema_issues (pathParameters event) = [] ->
     FetchContents.fault env (FetchContents.RedisGet key) = None ->
     FetchContents.redis w !! key = Some cached ->
     FetchContents.handler env event w
     = (JS.Ok {| FetchContents.statusCode := 200;
                 FetchContents.body :=
                   FetchContents.ContentsBody (FetchContents.contents cached)
                     (FetchContents.fetchedAt cached) |},
        FetchContents.log (FetchContents.RedisGet key) w))
  /\
  (forall (env : FetchFollowings.Env) (event : Event) (w : FetchFollowings.World)
          (cached : FetchFollowings.CachedFollowingsDTO),
     let platformName := path_param event "platformName" in
     let username := path_param event "username" in
     let key := FetchFollowingsSpec.cache_key platformName username in
     schema_issues (pathParameters event) = [] ->
     FetchFollowingsSpec.no_search event ->
     FetchFollowings.fault env (FetchFollowings.GetStrategy platformName) = None ->
     FetchFollowings.fault env (FetchFollowings.IsUserExists platformName username) = None ->
     FetchFollowings.fault env (FetchFollowings.RedisGet key) = None ->
     FetchFollowings.redis w !! key = Some cached ->
     FetchFollowings.handler env event w
     = if FetchFollowings.userExists env platformName username then
         (JS.Ok {| FetchFollowings.statusCode := 200;
                   FetchFollowings.body :=
                     FetchFollowings.FollowingsBody (FetchFollowings.followings cached)
                       (FetchFollowings.fetchedAt cached) |},
          FetchFollowingsSpec.logs
            [FetchFollowings.GetStrategy platformName;
             FetchFollowings.IsUserExists platformName username;
             FetchFollowings.RedisGet key] w)
       else
         (JS.Ok {| FetchFollowings.statusCode := 404;
                   FetchFollowings.body := FetchFollowings.ErrorBody "user not found" |},
          FetchFollowingsSpec.logs
            [FetchFollowings.GetStrategy platformName;
             FetchFollowings.IsUserExists platformName username] w)).
Proof.
  split.
  - intros env event w cached key. apply contents_hit.
  - intros env event w cached platformName username key Hs Hq Hf1 Hf2 Hf3 Hc.
    rewrite (followings_plain env event w Hs Hq Hf1 Hf2 Hf3).
    fold platformName username key. now rewrite Hc.
Qed.

Lemma cache_hit_is_returned_verbatim_witness :
  FetchContents.handler (ExamplesContents.env ExamplesContents.no_fault)
    (Examples.request "MEDIUM" "bob" [("since", "today")])
    (ExamplesContents.warm "contents:MEDIUM:bob:today")
  = (JS.Ok {| FetchContents.statusCode := 200;
              FetchContents.body :=
                FetchContents.ContentsBody [ExamplesContents.item "old"]
                  {| epochMs := 1000 |} |},
     FetchContents.log (FetchContents.RedisGet "contents:MEDIUM:bob:today")
       (ExamplesContents.warm "contents:MEDIUM:bob:today"))
  /\ FetchFollowings.handler (ExamplesFollowings.env ExamplesFollowings.no_fault true)
       (ExamplesFollowings.alice []) ExamplesFollowings.warm
     = (JS.Ok {| FetchFollowings.statusCode := 200;
                 FetchFollowings.body :=
                   FetchFollowings.FollowingsBody [ExamplesFollowings.dave]
                     {| epochMs := 1000 |} |},
        FetchFollowingsSpec.logs
          [FetchFollowings.GetStrategy "MEDIUM";
           FetchFollowings.IsUserExists "MEDIUM" "alice";
           FetchFollowings.RedisGet "followings:MEDIUM:alice"] ExamplesFollowings.warm).
Proof.
  destruct cache_hit_is_returned_verbatim as [Hcontents Hfollowings]. split.
  - apply (Hcontents (ExamplesContents.env ExamplesContents.no_fault)
             (Examples.request "MEDIUM" "bob" [("since", "today")])
             (ExamplesContents.warm "contents:MEDIUM:bob:today")
             ExamplesContents.cached); reflexivity.
  - apply (Hfollowings (ExamplesFollowings.env ExamplesFollowings.no_fault true)
             (ExamplesFollowings.alice []) ExamplesFollowings.warm
             ExamplesFollowings.cached); try reflexivity.
    intros q Hq. vm_compute in Hq. discriminate Hq.
Defined.

(** C2, as stated, fails: on a cache miss with a successful upstream fetch,
    a failing cache write or index upsert makes the followings handler
    answer 500, and a failing cache write makes the contents handler throw. *)
Lemma cache_write_failure_fails_the_read :
  (FetchFollowings.handler
     (ExamplesFollowings.env ExamplesFollowings.redis_set_down true)
     (ExamplesFollowings.alice []) ExamplesFollowings.empty).1
  = JS.Ok {| FetchFollowings.statusCode := 500;
             FetchFollowings.body := FetchFollowings.InternalError "redis unavailable" |}
  /\ (FetchFollowings.handler
        (ExamplesFollowings.env ExamplesFollowings.upsert_down true)
        (ExamplesFollowings.alice []) ExamplesFollowings.empty).1
     = JS.Ok {| FetchFollowings.statusCode := 500;
                FetchFollowings.body := FetchFollowings.InternalError "search unavailable" |}
  /\ (FetchContents.handler (ExamplesContents.env ExamplesContents.redis_set_down)
        (Examples.request "MEDIUM" "bob" []) ExamplesContents.empty).1
     = JS.Throw (JS.Error "redis unavailable").
Proof. vm_compute. repeat split. Qed.

(** C2 (amended). On a cache miss whose upstream fetch succeeds, the
    followings handler, with or without a search query, answers 200 only if
    the cache write and the index upsert both succeed; if either fails it
    answers 500 with the message of the failure, the cache holding the new
    entry already when it is the upsert that failed. When both succeed, a
    request without a search query is answered with the fetched listing,
    and a request with one with the search results over the index just
    written, or with 500 if that search fails. The contents handler answers
    200 with the fetched value if the cache write succeeds and throws its
    error otherwise. *)
Theorem cache_write_failure_after_fetch :
  (forall (env : FetchFollowings.Env) (event : Event) (w : FetchFollowings.World),
     let platformName := path_param event "platformName" in
     let username := path_param event "username" in
     let key := FetchFollowingsSpec.cache_key platformName username in
     let entry := FetchFollowingsSpec.fresh_entry env platformName username in
     let docs := FetchFollowingsSpec.fresh_documents env platformName username in
     let run := FetchFollowings.handler env event w in
     schema_issues (pathParameters event) = [] ->
     FetchFollowings.fault env (FetchFollowings.GetStrategy platformName) = None ->
     FetchFollowings.fault env (FetchFollowings.IsUserExists platformName username) = None ->
     FetchFollowings.fault env (FetchFollowings.RedisGet key) = None ->
     FetchFollowings.fault env (FetchFollowings.GetFollowings platformName username) = None ->
     FetchFollowings.userExists env platformName username = true ->
     FetchFollowings.redis w !! key = None ->
     match FetchFollowings.fault env (FetchFollowings.RedisSet key (24 * 60 * 60)),
           FetchFollowings.fault env (FetchFollowings.IndexUpsert (map fst docs)) with
     | Some e, _ =>
         run.1 = JS.Ok (FetchFollowingsSpec.internal e) /\
         FetchFollowings.redis run.2 = FetchFollowings.redis w /\
         FetchFollowings.index run.2 = FetchFollowings.index w
     | None, Some e =>
         run.1 = JS.Ok (FetchFollowingsSpec.internal e) /\
         FetchFollowings.redis run.2 = <[key := entry]> (FetchFollowings.redis w) /\
         FetchFollowings.index run.2 = FetchFollowings.index w
     | None, None =>
         FetchFollowings.redis run.2 = <[key := entry]> (FetchFollowings.redis w) /\
         FetchFollowings.index run.2
         = foldl (fun m d => <[d.1 := d.2]> m) (FetchFollowings.index w) docs /\
         match FetchFollowings.searchQuery_of event with
         | Some (String _ _ as searchQuery) =>
             match FetchFollowings.fault env
                     (FetchFollowingsSpec.search_op platformName username searchQuery) with
             | Some e => run.1 = JS.Ok (FetchFollowingsSpec.internal e)
             | None =>
                 run.1 = JS.Ok {| FetchFollowings.statusCode := 200;
                                  FetchFollowings.body :=
                                    FetchFollowings.FollowingsBody
                                      (map FetchFollowings.user_of_document
                                         (FetchFollowingsSpec.search_results env
                                            (FetchFollowings.index run.2)
                                            platformName username searchQuery))
                                      (FetchFollowings.clock env) |}
             end
         | _ =>
             run.1 = JS.Ok {| FetchFollowings.statusCode := 200;
                              FetchFollowings.body :=
                                FetchFollowings.FollowingsBody
                                  (FetchFollowings.upstreamFollowings env
                                     platformName username)
                                  (FetchFollowings.clock env) |}
         end
     end)
  /\
  (forall (env : FetchContents.Env) (event : Event) (w : FetchContents.World),
     let platformName := path_param event "platformName" in
     let username := path_param event "username" in
     let since := FetchContents.since_of event in
     let key := FetchContents.cache_key platformName username since in
     let entry := {| FetchContents.contents :=
                       FetchContents.upstreamContent env platformName username since;
                     FetchContents.fetchedAt := FetchContents.clock env |} in
     let run := FetchContents.handler env event w in
     schema_issues (pathParameters event) = [] ->
     FetchContents.fault env (FetchContents.RedisGet key) = None ->
     FetchContents.fault env (FetchContents.GetStrategy platformName) = None ->
     FetchContents.fault env (FetchContents.FetchContent platformName username since) = None ->
     FetchContents.redis w !! key = None ->
     match FetchContents.fault env (FetchContents.RedisSet key (24 * 60 * 60)) with
     | Some e =>
         run.1 = JS.Throw e /\ FetchContents.redis run.2 = FetchContents.redis w
     | None =>
         run.1 = JS.Ok {| FetchContents.statusCode := 200;
                          FetchContents.body :=
                            FetchContents.ContentsBody
                              (FetchContents.upstreamContent env platformName username since)
                              (FetchContents.clock env) |} /\
         FetchContents.redis run.2 = <[key := entry]> (FetchContents.redis w)
     end).
Proof.
  split.
  - intros env event w platformName username key entry docs run
      Hs Hf1 Hf2 Hf3 Hf4 Hex Hc.
    destruct (FetchFollowings.searchQuery_of event) as [[|ch r]|] eqn:Hq.
    1,3: subst run;
         rewrite (followings_plain env event w Hs) by
           (try (intros q Hq1; congruence); assumption);
         fold platformName username key; rewrite Hex, Hc;
         rewrite (followings_refetch env platformName username key);
         rewrite Hf4; fold entry docs;
         destruct (FetchFollowings.fault env
                     (FetchFollowings.RedisSet key (24 * 60 * 60)));
           [repeat split|];
         destruct (FetchFollowings.fault env
                     (FetchFollowings.IndexUpsert (map fst docs)));
           repeat split.
    subst run.
    rewrite (followings_search env event w (String ch r) Hs Hq) by discriminate.
    fold platformName username key. rewrite Hf1, Hf2, Hex, Hf3.
    change (FetchFollowings.redis w !! key) with (FetchFollowings.redis w !! key).
    rewrite Hc, followings_refetch_search. fold entry docs. rewrite Hf4.
    destruct (FetchFollowings.fault env (FetchFollowings.RedisSet key (24 * 60 * 60)));
      [repeat split|].
    destruct (FetchFollowings.fault env (FetchFollowings.IndexUpsert (map fst docs)));
      [repeat split|].
    destruct (FetchFollowings.fault env
                (FetchFollowingsSpec.search_op platformName username (String ch r)));
      repeat split.
  - intros env event w platformName username since key entry run Hs Hf1 Hf2 Hf3 Hc.
    subst run. rewrite (contents_miss env event w Hs Hf1 Hc).
    fold platformName username since key. rewrite Hf2, Hf3.
    destruct (FetchContents.fault env (FetchContents.RedisSet key (24 * 60 * 60)));
      repeat split.
Qed.

Lemma cache_write_failure_after_fetch_witness :
  let down := FetchFollowings.handler
                (ExamplesFollowings.env ExamplesFollowings.redis_set_down true)
                (ExamplesFollowings.alice [("search", "bo")]) ExamplesFollowings.empty in
  let up := FetchContents.handler (ExamplesContents.env ExamplesContents.no_fault)
              (Examples.request "MEDIUM" "bob" []) ExamplesContents.empty in
  (down.1 = JS.Ok (FetchFollowingsSpec.internal (JS.Error "redis unavailable")) /\
   FetchFollowings.redis down.2 = ∅ /\ FetchFollowings.index down.2 = ∅)
  /\ (up.1 = JS.Ok {| FetchContents.statusCode := 200;
                      FetchContents.body :=
                        FetchContents.ContentsBody [ExamplesContents.item "fresh"]
                          {| epochMs := 2000 |} |} /\
      FetchContents.redis up.2
      = <["contents:MEDIUM:bob:all" :=
            {| FetchContents.contents := [ExamplesContents.item "fresh"];
               FetchContents.fetchedAt := {| epochMs := 2000 |} |}]> ∅).
Proof.
  destruct cache_write_failure_after_fetch as [Hfollowings Hcontents]. split.
  - apply (Hfollowings (ExamplesFollowings.env ExamplesFollowings.redis_set_down true)
             (ExamplesFollowings.alice [("search", "bo")]) ExamplesFollowings.empty);
      reflexivity.
  - apply (Hcontents (ExamplesContents.env ExamplesContents.no_fault)
             (Examples.request "MEDIUM" "bob" []) ExamplesContents.empty); reflexivity.
Defined.

(** C8. For every followings request that carries a search query, whatever
    followings a 200 answer lists are projections of indexed documents whose
    [platformName] and [parentUsername] are the requested ones, and when the
    cache held an entry for the key the answer carries that entry's
    [fetchedAt]; such an answer is indeed given when the user exists and
    the cache holds an entry. *)
Theorem search_results_stay_under_the_parent
  (env : FetchFollowings.Env) (event : Event) (w : FetchFollowings.World)
  (searchQuery : string) :
  let platformName := path_param event "platformName" in
  let username := path_param event "username" in
  let key := FetchFollowingsSpec.cache_key platformName username in
  let run := FetchFollowings.handler env event w in
  FetchFollowings.searchQuery_of event = Some searchQuery -> searchQuery <> "" ->
  (forall followings fetchedAt,
     run.1 = JS.Ok {| FetchFollowings.statusCode := 200;
                      FetchFollowings.body :=
                        FetchFollowings.FollowingsBody followings fetchedAt |} ->
     (forall f, In f followings ->
        exists d, FetchFollowingsSpec.indexed_under run.2 platformName username d /\
                  f = FetchFollowings.user_of_document d) /\
     (forall cached, FetchFollowings.redis w !! key = Some cached ->
        fetchedAt = FetchFollowings.fetchedAt cached))
  /\
  (schema_issues (pathParameters event) = [] ->
   FetchFollowings.fault env (FetchFollowings.GetStrategy platformName) = None ->
   FetchFollowings.fault env (FetchFollowings.IsUserExists platformName username) = None ->
   FetchFollowings.fault env (FetchFollowings.RedisGet key) = None ->
   FetchFollowings.fault env
     (FetchFollowingsSpec.search_op platformName username searchQuery) = None ->
   FetchFollowings.userExists env platformName username = true ->
   forall cached, FetchFollowings.redis w !! key = Some cached ->
     run.1 = JS.Ok {| FetchFollowings.statusCode := 200;
                      FetchFollowings.body :=
                        FetchFollowings.FollowingsBody
                          (map FetchFollowings.user_of_document
                             (FetchFollowingsSpec.search_results env
                                (FetchFollowings.index w)
                                platformName username searchQuery))
                          (FetchFollowings.fetchedAt cached) |}).
Proof.
  intros platformName username key run Hq Hne.
  assert (Hsound : forall idx w' f,
            FetchFollowings.index w' = idx ->
            In f (map FetchFollowings.user_of_document
                    (FetchFollowingsSpec.search_results env idx
                       platformName username searchQuery)) ->
            exists d, FetchFollowingsSpec.indexed_under w' platformName username d /\
                      f = FetchFollowings.user_of_document d).
  { intros idx w' f Hidx Hin. apply in_map_iff in Hin as (d & <- & Hd).
    exists d. split; [|reflexivity]. unfold FetchFollowingsSpec.indexed_under.
    rewrite Hidx. eapply search_results_indexed, Hd. }
  split.
  - intros fs t. subst run.
    destruct (schema_issues (pathParameters event)) as [|issue issues] eqn:Hs.
    2:{ rewrite followings_invalid by (rewrite Hs; discriminate). discriminate. }
    rewrite (followings_search env event w searchQuery Hs Hq Hne).
    fold platformName username key.
    destruct (FetchFollowings.fault env (FetchFollowings.GetStrategy platformName));
      [discriminate|].
    destruct (FetchFollowings.fault env (FetchFollowings.IsUserExists platformName username));
      [discriminate|].
    destruct (FetchFollowings.userExists env platformName username); [|discriminate].
    destruct (FetchFollowings.fault env (FetchFollowings.RedisGet key)); [discriminate|].
    destruct (FetchFollowings.redis w !! key) as [cached|] eqn:Hc.
    + destruct (FetchFollowings.fault env _); [discriminate|].
      cbn [fst snd]. intros E. injection E as <- <-. split.
      * intros f Hf. eapply Hsound; [|exact Hf]. reflexivity.
      * intros cached' E. now injection E as <-.
    + rewrite (followings_refetch_search env platformName username key searchQuery).
      repeat match goal with
             | |- context [FetchFollowings.fault env ?op] =>
                 destruct (FetchFollowings.fault env op); [discriminate|]
             end.
      cbn [fst snd]. intros E. injection E as <- <-. split.
      * intros f Hf. eapply Hsound; [|exact Hf]. reflexivity.
      * intros cached' E. discriminate E.
  - intros Hs Hf1 Hf2 Hf3 Hf4 Hex cached Hc. subst run.
    rewrite (followings_search env event w searchQuery Hs Hq Hne).
    fold platformName username key. now rewrite Hf1, Hf2, Hex, Hf3, Hc, Hf4.
Qed.

Lemma search_results_stay_under_the_parent_witness :
  let env := ExamplesFollowings.env ExamplesFollowings.no_fault true in
  let run := FetchFollowings.handler env (ExamplesFollowings.alice [("search", " da ")])
               ExamplesFollowings.warm in
  ((forall f, In f [ExamplesFollowings.dave] ->
      exists d, FetchFollowingsSpec.indexed_under run.2 "MEDIUM" "alice" d /\
                f = FetchFollowings.user_of_document d) /\
   (forall cached,
      FetchFollowings.redis ExamplesFollowings.warm !! "followings:MEDIUM:alice"
      = Some cached ->
      {| epochMs := 1000 |} = FetchFollowings.fetchedAt cached))
  /\ run.1
     = JS.Ok {| FetchFollowings.statusCode := 200;
                FetchFollowings.body :=
                  FetchFollowings.FollowingsBody
                    (map FetchFollowings.user_of_document
                       (FetchFollowingsSpec.search_results env
                          (FetchFollowings.index ExamplesFollowings.warm)
                          "MEDIUM" "alice" "da"))
                    {| epochMs := 1000 |} |}.
Proof.
  intros env run.
  destruct (search_results_stay_under_the_parent env
              (ExamplesFollowings.alice [("search", " da ")])
              ExamplesFollowings.warm "da") as [Hsound Hhit];
    [reflexivity | discriminate |].
  split.
  - apply Hsound. vm_compute. reflexivity.
  - apply (Hhit eq_refl eq_refl eq_refl eq_refl eq_refl eq_refl ExamplesFollowings.cached).
    reflexivity.
Defined.

(** ** [Promise.allSettled] over tasks that settle to a known value *)
Section Settling.
Import JS Eff.
Context {W A X : Type}.

Lemma allSettled_map (f : X -> M W A) (g : X -> A) (step : X -> W -> W) (l : list X) :
  (forall x w, f x w = (Ok (g x), step x w)) ->
  forall w, allSettled (map f l) w
            = (Ok (map (fun x => Fulfilled (g x)) l), foldl (fun w x => step x w) w l).
Proof.
  intros Hf. induction l as [|x l IH]; intros w; [reflexivity|].
  cbn [map allSettled foldl]. unfold bind at 1. unfold settle. rewrite Hf.
  unfold bind at 1. rewrite IH. reflexivity.
Qed.

Lemma fulfilled_values_map (g : X -> A) (l : list X) :
  fulfilled_values (map (fun x => Fulfilled (g x)) l) = map g l.
Proof. induction l as [|x l IH]; [reflexivity|]. cbn. now rewrite IH. Qed.

Lemma foldl_id (l : list X) (w : W) : foldl (fun w _ => w) w l = w.
Proof. induction l; [reflexivity|]. assumption. Qed.

End Settling.

(** ** The batch run, stage by stage *)
Section SendEmailsStages.
Import JS Eff SendEmails SendEmailsSpec.

Variable env : Env.

Lemma getContents_run (pref : Pref.t) (w : World) :
  getContentsByPlatformAndUsername env (Pref.platform pref) (Pref.username pref) w
  = (retrieval env pref, w).
Proof.
  unfold getContentsByPlatformAndUsername, retrieval, bind, lift, throw.
  destruct (fetch env _) as [resp|e]; [|reflexivity].
  destruct (ok resp); reflexivity.
Qed.

(** A content retrieval never rejects and leaves the state alone. *)
Lemma fetch_following_run (pref : Pref.t) (w : World) :
  fetch_following env pref w = (Ok (following_of env pref), w).
Proof.
  unfold fetch_following, try_catch, bind. rewrite getContents_run.
  unfold following_of. destruct (retrieval env pref); reflexivity.
Qed.

Lemma fetch_user_run (entry : string * list Pref.t) (w : World) :
  fetch_user env entry w = (Ok (digest_of env entry), w).
Proof.
  destruct entry as [email preferences]. unfold fetch_user, bind.
  rewrite (allSettled_map (fetch_following env) (following_of env) (fun _ w => w))
    by apply fetch_following_run.
  rewrite foldl_id, fulfilled_values_map. reflexivity.
Qed.

Lemma send_one_run (groupedByUser : list (string * list Pref.t))
  (item : string * list FollowingContent.t) (w : World) :
  send_one env groupedByUser item w
  = (Ok (result_of env item), after_send env groupedByUser item w).
Proof.
  destruct item as [email followings].
  unfold send_one, after_send, result_of, outcome_of, commands_of, delivery,
    try_catch, bind, lift, send, push_analytics, modify, set_analyticsData, ret,
    command_of.
  cbn [fst snd res_bind].
  destruct (renderNewsletterEmail env email followings) as [html|e]; cbn [res_bind].
  - destruct (ses_send env _) as [[]|e]; cbn [analyticsData outbox tracked email_analytics];
      reflexivity.
  - cbn [analyticsData outbox tracked email_analytics]. now rewrite app_nil_r.
Qed.

Lemma after_sends (groupedByUser : list (string * list Pref.t))
  (items : list (string * list FollowingContent.t)) (w : World) :
  foldl (fun w item => after_send env groupedByUser item w) w items
  = {| analyticsData := analyticsData w ++ map (outcome_of env groupedByUser) items;
       outbox := outbox w ++ concat (map (commands_of env) items);
       tracked := tracked w;
       email_analytics := email_analytics w |}.
Proof.
  revert w. induction items as [|item items IH]; intros w.
  - cbn. rewrite !app_nil_r. now destruct w.
  - cbn [foldl map concat]. rewrite IH. unfold after_send.
    cbn [analyticsData outbox tracked email_analytics].
    now rewrite <- !app_assoc.
Qed.

(** The filter stage: the due preferences are kept, a record is pushed for
    each rejected one. *)
Lemma due_or_skip_run (pref : Pref.t) (w : World) :
  resolves env pref ->
  due_or_skip env pref w
  = (Ok (due env pref),
     set_analyticsData
       (fun l => l ++ if due env pref then [] else [skipped_record env pref]) w).
Proof.
  intros [c Hc]. unfold due_or_skip, due, bind, lift.
  rewrite (shouldSend_resolved _ _ _ _ _ c Hc).
  destruct (ScheduleSpec.due_at (host env) c (Pref.frequency pref) (Pref.send_time pref));
    cbn [negb]; unfold ret, push_analytics, modify, set_analyticsData.
  - rewrite app_nil_r. now destruct w.
  - reflexivity.
Qed.

Lemma filter_stage (prefs : list Pref.t) (w : World) :
  Forall (resolves env) prefs ->
  filterM (due_or_skip env) prefs w
  = (Ok (List.filter (due env) prefs),
     set_analyticsData
       (fun l => l ++ map (skipped_record env) (List.filter (rejected env) prefs)) w).
Proof.
  intros Hall. revert w. induction Hall as [|pref prefs Hp _ IH]; intros w.
  - cbn. unfold ret, set_analyticsData. rewrite app_nil_r. now destruct w.
  - cbn [filterM List.filter]. unfold bind at 1. rewrite (due_or_skip_run pref w Hp).
    unfold bind at 1. rewrite IH. unfold ret, rejected.
    destruct (due env pref); cbn [negb map]; unfold set_analyticsData;
      cbn [analyticsData outbox tracked email_analytics]; rewrite <- ?app_assoc;
      reflexivity.
Qed.

(** The tally of the send results. *)
Lemma tally_results (items : list (string * list FollowingContent.t))
  (successCount : nat) (errors : list (string * ErrorValue)) :
  foldl tally (successCount, errors)
    (map (fun item => Fulfilled (result_of env item)) items)
  = ((successCount + (length items - length (List.filter (delivery_fails env) items)))%nat,
     errors ++ map (error_entry env) (List.filter (delivery_fails env) items)).
Proof.
  revert successCount errors. induction items as [|item items IH];
    intros successCount errors.
  - cbn. now rewrite Nat.add_0_r, app_nil_r.
  - cbn [map foldl List.filter].
    assert (Hstep : tally (successCount, errors) (Fulfilled (result_of env item))
                    = if delivery_fails env item
                      then (successCount, errors ++ [error_entry env item])
                      else (S successCount, errors)).
    { unfold tally, error_entry, delivery_fails, result_of.
      destruct (delivery env item); reflexivity. }
    rewrite Hstep.
    pose proof (filter_length_le (delivery_fails env) items) as Hle.
    destruct (delivery_fails env item); rewrite IH; cbn [length map]; f_equal;
      rewrite <- ?app_assoc; try reflexivity; lia.
Qed.

End SendEmailsStages.

(** ** Grouping by recipient *)
Section Grouping.
Import SendEmails SendEmailsSpec.

Lemma map_get_set {V} (m : list (string * V)) (k k' : string) (v : V) :
  map_get (map_set m k v) k' = if bool_decide (k = k') then Some v else map_get m k'.
Proof.
  induction m as [|[k0 v0] m IH]; cbn [map_set map_get].
  - reflexivity.
  - destruct (bool_decide (k0 = k)) eqn:E0; cbn [map_get].
    + apply bool_decide_eq_true in E0. subst k0. now destruct (bool_decide (k = k')).
    + rewrite IH. destruct (bool_decide (k0 = k')) eqn:E1; [|reflexivity].
      apply bool_decide_eq_true in E1. apply bool_decide_eq_false in E0.
      subst k0. now rewrite bool_decide_eq_false_2 by congruence.
Qed.

Lemma map_get_In {V} (m : list (string * V)) (k : string) (v : V) :
  map_get m k = Some v -> In (k, v) m.
Proof.
  induction m as [|[k0 v0] m IH]; cbn [map_get]; [discriminate|].
  destruct (bool_decide (k0 = k)) eqn:E.
  - apply bool_decide_eq_true in E. intros [= ->]. subst. now left.
  - intros H. right. auto.
Qed.

Lemma In_map_get {V} (m : list (string * V)) (k : string) (v : V) :
  NoDup (map fst m) -> In (k, v) m -> map_get m k = Some v.
Proof.
  induction m as [|[k0 v0] m IH]; cbn [map_get map fst In]; [tauto|].
  intros Hnd [E|Hin]; apply NoDup_cons in Hnd as [Hk0 Hnd].
  - injection E as -> ->. now rewrite bool_decide_eq_true_2.
  - rewrite bool_decide_eq_false_2; [auto|].
    intros ->. apply Hk0, list_elem_of_In, in_map_iff. now exists (k, v).
Qed.

Lemma keys_map_set {V} (m : list (string * V)) (k : string) (v : V) :
  map fst (map_set m k v)
  = if bool_decide (k ∈ map fst m) then map fst m else map fst m ++ [k].
Proof.
  induction m as [|[k0 v0] m IH]; cbn [map_set map fst].
  - rewrite bool_decide_eq_false_2; [reflexivity | apply not_elem_of_nil].
  - destruct (bool_decide (k0 = k)) eqn:E0; cbn [map fst].
    + apply bool_decide_eq_true in E0. subst.
      rewrite bool_decide_eq_true_2; [reflexivity | apply elem_of_cons; auto].
    + apply bool_decide_eq_false in E0. rewrite IH.
      destruct (bool_decide (k ∈ map fst m)) eqn:E1.
      * apply bool_decide_eq_true in E1.
        rewrite bool_decide_eq_true_2; [reflexivity | apply elem_of_cons; auto].
      * apply bool_decide_eq_false in E1.
        rewrite bool_decide_eq_false_2; [reflexivity|].
        rewrite elem_of_cons. intros [E|E]; [congruence | contradiction].
Qed.

Lemma groupByEmail_snoc (prefs : list Pref.t) (pref : Pref.t) :
  groupByEmail (prefs ++ [pref])
  = map_set (groupByEmail prefs) (Pref.email pref)
      (default [] (map_get (groupByEmail prefs) (Pref.email pref)) ++ [pref]).
Proof. unfold groupByEmail. now rewrite foldl_app. Qed.

(** The group of a recipient holds its preferences in order; a recipient
    without a preference has no group; no recipient has two groups. *)
Lemma groupByEmail_spec (prefs : list Pref.t) :
  NoDup (map fst (groupByEmail prefs)) /\
  forall email,
    map_get (groupByEmail prefs) email
    = match members prefs email with
      | [] => None
      | g => Some g
      end.
Proof.
  induction prefs as [|pref prefs [IHnd IHget]] using rev_ind.
  - split; [constructor | reflexivity].
  - rewrite groupByEmail_snoc. split.
    + rewrite keys_map_set. case_bool_decide as Hin; [assumption|].
      apply NoDup_app. split; [assumption|]. split.
      * intros x Hx Hx'. apply list_elem_of_singleton in Hx'. now subst x.
      * apply NoDup_singleton.
    + intros email. rewrite map_get_set. unfold members. rewrite List.filter_app.
      cbn [List.filter]. fold (members prefs email). rewrite IHget.
      case_bool_decide as E.
      * subst email. destruct (members prefs (Pref.email pref)); reflexivity.
      * now rewrite app_nil_r.
Qed.

Lemma groupByEmail_In (prefs : list Pref.t) (email : string) (g : list Pref.t) :
  In (email, g) (groupByEmail prefs) <-> g = members prefs email /\ g <> [].
Proof.
  destruct (groupByEmail_spec prefs) as [Hnd Hget]. split.
  - intros Hin. apply (In_map_get _ _ _ Hnd) in Hin. rewrite Hget in Hin.
    destruct (members prefs email); [discriminate|]. injection Hin as <-.
    split; [reflexivity | discriminate].
  - intros [-> Hne]. apply map_get_In. rewrite Hget.
    destruct (members prefs email); [congruence | reflexivity].
Qed.

Lemma groupByEmail_keys (prefs : list Pref.t) (email : string) :
  In email (map fst (groupByEmail prefs)) <-> exists p, In p prefs /\ Pref.email p = email.
Proof.
  split.
  - intros Hin. apply in_map_iff in Hin as ([e g] & <- & Hin).
    apply groupByEmail_In in Hin as [-> Hne]. cbn [fst].
    destruct (members prefs e) as [|p g] eqn:E; [congruence|].
    assert (Hp : In p (members prefs e)) by (rewrite E; now left).
    apply filter_In in Hp as [Hp He]. apply bool_decide_eq_true in He. eauto.
  - intros (p & Hp & <-). apply in_map_iff.
    exists (Pref.email p, members prefs (Pref.email p)). split; [reflexivity|].
    apply groupByEmail_In. split; [reflexivity|].
    intros E. assert (Hin : In p (members prefs (Pref.email p))).
    { apply filter_In. split; [assumption|]. now apply bool_decide_eq_true_2. }
    rewrite E in Hin. destruct Hin.
Qed.

Lemma groupByEmail_nonempty (prefs : list Pref.t) :
  prefs <> [] -> groupByEmail prefs <> [].
Proof.
  destruct prefs as [|p prefs]; [congruence|]. intros _ E.
  assert (H : In (Pref.email p) (map fst (groupByEmail (p :: prefs)))).
  { apply groupByEmail_keys. exists p. split; [now left | reflexivity]. }
  rewrite E in H. destruct H.
Qed.

End Grouping.

(** ** The batch run as a whole *)
Section SendEmailsRun.
Import JS Eff SendEmails SendEmailsSpec SendEmailsRuns.

Variable env : Env.

Lemma emailData_nonempty :
  duePreferences env <> [] -> emailData env <> [].
Proof.
  intros Hne E. apply (groupByEmail_nonempty _ Hne).
  unfold emailData in E. now apply map_eq_nil in E.
Qed.

(** With the preferences read and their time zones known, a run either
    finds nothing due and returns at once, or sends and tracks. *)
Lemma handler_run (w : World) :
  select_error env = None ->
  enabled env <> [] ->
  Forall (resolves env) (enabled env) ->
  handler env w
  = match duePreferences env with
    | [] => (Ok nothing_scheduled, nothing_due env w)
    | _ :: _ => (Ok (summary env), dispatched env w)
    end.
Proof.
  intros Hsel Hne Hres. unfold handler, select_enabled. rewrite Hsel.
  fold (enabled env). destruct (enabled env) as [|p0 ps] eqn:Hen; [congruence|].
  rewrite <- Hen in *. unfold bind at 1. unfold modify.
  unfold bind at 1. rewrite (filter_stage env _ _ Hres).
  fold (duePreferences env). fold (skippedRecords env).
  destruct (duePreferences env) as [|d ds] eqn:Hdue; [reflexivity|].
  rewrite <- Hdue in *. assert (Hdne : duePreferences env <> []) by (rewrite Hdue; discriminate).
  replace (length (duePreferences env) =? 0)%nat with false
    by (symmetry; apply Nat.eqb_neq; rewrite Hdue; discriminate).
  unfold bind at 1.
  rewrite (allSettled_map (fetch_user env) (digest_of env) (fun _ w => w))
    by apply fetch_user_run.
  rewrite foldl_id, fulfilled_values_map. fold (emailData env).
  pose proof (emailData_nonempty Hdne) as Hed.
  replace (length (emailData env) =? 0)%nat with false
    by (symmetry; apply Nat.eqb_neq; destruct (emailData env); [congruence | discriminate]).
  unfold bind at 1.
  rewrite (allSettled_map (send_one env (groupByEmail (duePreferences env)))
             (result_of env)
             (fun item w => after_send env (groupByEmail (duePreferences env)) item w))
    by apply send_one_run.
  rewrite after_sends, (tally_results env).
  unfold set_analyticsData. cbn [analyticsData outbox tracked email_analytics app].
  fold (outcomes env).
  unfold bind, gets. cbn [analyticsData].
  replace (0 <? length (skippedRecords env ++ outcomes env))%nat with true.
  2:{ symmetry. apply Nat.ltb_lt. rewrite length_app. unfold outcomes.
      rewrite length_map. destruct (emailData env); [congruence | cbn; lia]. }
  unfold trackBatchEmailAnalytics, ret, summary, dispatched, recipients, failures.
  cbn [analyticsData outbox tracked email_analytics]. rewrite !length_map.
  reflexivity.
Qed.

End SendEmailsRun.

(** C3 fails on the code: in a run in which the only enabled preference is
    rejected, its skipped record is built and then dropped; the handler
    returns before [trackBatchEmailAnalytics] is reached. *)
Theorem all_rejected_run_tracks_nothing :
  let run := SendEmails.handler ExamplesBatch.idle ExamplesBatch.start in
  SendEmailsSpec.duePreferences ExamplesBatch.idle = []
  /\ run.1 = JS.Ok {| SendEmails.statusCode := 200;
                      SendEmails.body :=
                        SendEmails.MessageBody "No newsletters scheduled for this time" |}
  /\ map SendEmails.Analytics.status (SendEmails.analyticsData run.2) = [SendEmails.skipped]
  /\ SendEmails.tracked run.2 = []
  /\ SendEmails.email_analytics run.2 = [].
Proof. vm_compute. repeat split. Qed.

(** In every run with nothing due the rejected preferences are left
    untracked, and in every run with something due each of them is tracked
    as a skipped record with both counts 0. *)
Lemma rejected_preferences_and_tracking (env : SendEmails.Env) (w : SendEmails.World) :
  SendEmails.select_error env = None ->
  SendEmailsSpec.enabled env <> [] ->
  Forall (SendEmailsSpec.resolves env) (SendEmailsSpec.enabled env) ->
  let run := SendEmails.handler env w in
  (SendEmailsSpec.duePreferences env = [] ->
   SendEmails.tracked run.2 = SendEmails.tracked w /\
   SendEmails.email_analytics run.2 = SendEmails.email_analytics w)
  /\
  (SendEmailsSpec.duePreferences env <> [] ->
   exists batch,
     SendEmails.tracked run.2 = SendEmails.tracked w ++ [batch] /\
     forall pref, In pref (SendEmailsSpec.enabled env) ->
       SendEmailsSpec.due env pref = false ->
       exists a, In a batch /\
         SendEmails.Analytics.email a = SendEmails.Pref.email pref /\
         SendEmails.Analytics.status a = SendEmails.skipped /\
         SendEmails.Analytics.followings_count a = 0%nat /\
         SendEmails.Analytics.total_contents_count a = JS.Int 0).
Proof.
  intros Hsel Hne Hres run. subst run. rewrite (handler_run env w Hsel Hne Hres). split.
  - intros ->. split; reflexivity.
  - intros Hdue. destruct (SendEmailsSpec.duePreferences env); [congruence|].
    exists (SendEmailsSpec.skippedRecords env ++ SendEmailsSpec.outcomes env).
    split; [reflexivity|]. intros pref Hin Hnot.
    exists (SendEmails.skipped_record env pref). split; [|repeat split].
    apply in_or_app. left. apply in_map. apply filter_In. split; [assumption|].
    unfold SendEmailsSpec.rejected. now rewrite Hnot.
Qed.

(** ** Counting the outcomes *)
Section Counting.
Import JS SendEmails SendEmailsSpec.

Lemma filter_map_length {A B} (P : B -> bool) (f : A -> B) (l : list A) :
  length (List.filter P (map f l)) = length (List.filter (fun x => P (f x)) l).
Proof.
  induction l as [|x l IH]; [reflexivity|]. cbn [map List.filter].
  destruct (P (f x)); cbn [length]; now rewrite IH.
Qed.

Lemma filter_negb_length {A} (P : A -> bool) (l : list A) :
  length (List.filter (fun x => negb (P x)) l) = (length l - length (List.filter P l))%nat.
Proof.
  induction l as [|x l IH]; [reflexivity|]. cbn [List.filter].
  pose proof (filter_length_le P l).
  destruct (P x); cbn [negb length]; rewrite IH; lia.
Qed.

Variable env : Env.

Lemma outcome_status (G : list (string * list Pref.t))
  (item : string * list FollowingContent.t) :
  Analytics.status (outcome_of env G item)
  = if delivery_fails env item then failed else sent.
Proof.
  unfold outcome_of, delivery_fails. destruct (delivery env item); reflexivity.
Qed.

Lemma outcome_email (G : list (string * list Pref.t))
  (item : string * list FollowingContent.t) :
  Analytics.email (outcome_of env G item) = item.1.
Proof. unfold outcome_of. destruct (delivery env item); reflexivity. Qed.

Lemma skipped_not_dispatch (P : Analytics.t -> bool) :
  (forall a, Analytics.status a = skipped -> P a = false) ->
  List.filter P (skippedRecords env) = [].
Proof.
  intros HP. unfold skippedRecords.
  induction (List.filter (rejected env) (enabled env)) as [|p l IH]; [reflexivity|].
  cbn [map List.filter]. now rewrite HP.
Qed.

Lemma batch_counts :
  let batch := skippedRecords env ++ outcomes env in
  length (List.filter is_dispatch batch) = recipients env /\
  length (List.filter (has_status sent) batch) = (recipients env - failures env)%nat /\
  length (List.filter (has_status failed) batch) = failures env.
Proof.
  cbn zeta. rewrite !List.filter_app.
  rewrite !skipped_not_dispatch, !app_nil_l
    by (intros a Ha; unfold is_dispatch, has_status; now rewrite Ha).
  unfold outcomes, recipients, failures. rewrite !filter_map_length.
  set (G := groupByEmail (duePreferences env)). repeat split.
  - rewrite (List.filter_ext _ (fun _ => true)).
    + clear. induction (emailData env); [reflexivity | cbn; now f_equal].
    + intros item. unfold is_dispatch. rewrite outcome_status.
      now destruct (delivery_fails env item).
  - rewrite <- filter_negb_length. f_equal. apply List.filter_ext. intros item.
    unfold has_status. rewrite outcome_status. now destruct (delivery_fails env item).
  - f_equal. apply List.filter_ext. intros item.
    unfold has_status. rewrite outcome_status. now destruct (delivery_fails env item).
Qed.

Lemma failures_render_or_send :
  failures env
  = (length (List.filter (render_fails env) (emailData env))
     + length (List.filter (send_fails env) (emailData env)))%nat.
Proof.
  unfold failures. induction (emailData env) as [|item l IH]; [reflexivity|].
  cbn [List.filter].
  assert (Hitem : delivery_fails env item = render_fails env item || send_fails env item
                  /\ render_fails env item && send_fails env item = false).
  { unfold delivery_fails, delivery, render_fails, send_fails.
    destruct (renderNewsletterEmail env item.1 item.2) as [html|e]; cbn [res_bind];
      [|split; reflexivity].
    destruct (ses_send env _); split; reflexivity. }
  destruct Hitem as [Hd Hx]. rewrite Hd.
  destruct (render_fails env item), (send_fails env item); cbn [orb length] in *;
    try discriminate; lia.
Qed.

Lemma emailData_keys : map fst (emailData env) = map fst (groupByEmail (duePreferences env)).
Proof.
  unfold emailData. rewrite map_map. apply map_ext. now intros [e g].
Qed.

End Counting.

(** C4, as stated, fails in four ways. When no recipient is due (N = 0,
    K = 0) the handler answers a bare message: its body carries neither
    successCount nor failureCount. When the preference query fails the
    answer is 500, whatever N is. When a preference names a time zone the
    runtime does not know the handler throws and reports nothing. And a
    digest that fails to render counts as a failure although no send has
    failed: with two recipients, a mail service that accepts every message
    and a template that throws for one of them, the summary reports one
    success and one failure under status 207. *)
Lemma batch_summary_counterexamples :
  (SendEmailsSpec.recipients ExamplesBatch.idle = 0%nat
   /\ SendEmailsSpec.failures ExamplesBatch.idle = 0%nat
   /\ (SendEmails.handler ExamplesBatch.idle ExamplesBatch.start).1
      = JS.Ok {| SendEmails.statusCode := 200;
                 SendEmails.body :=
                   SendEmails.MessageBody "No newsletters scheduled for this time" |})
  /\ (SendEmailsSpec.recipients ExamplesMore.query_fails = 2%nat
      /\ (SendEmails.handler ExamplesMore.query_fails ExamplesBatch.start).1
         = JS.Ok {| SendEmails.statusCode := 500;
                    SendEmails.body :=
                      SendEmails.ErrorBody "Failed to fetch newsletter preferences" |})
  /\ (SendEmailsSpec.recipients ExamplesMore.stuck = 2%nat
      /\ SendEmails.handler ExamplesMore.stuck ExamplesBatch.start
         = (JS.Throw (JS.Error "Invalid time zone specified: Mars/Olympus"),
            ExamplesBatch.start))
  /\ (SendEmailsSpec.recipients ExamplesMore.unrendered = 2%nat
      /\ length (List.filter (SendEmailsSpec.send_fails ExamplesMore.unrendered)
                   (SendEmailsSpec.emailData ExamplesMore.unrendered)) = 0%nat
      /\ SendEmails.outbox
           (SendEmails.handler ExamplesMore.unrendered ExamplesBatch.start).2
         = [{| SendEmails.Source := "digest@example.org";
               SendEmails.ToAddresses := ["b@example.org"];
               SendEmails.Subject := "Your Content Digest";
               SendEmails.Html := "<html/>" |}]
      /\ (SendEmails.handler ExamplesMore.unrendered ExamplesBatch.start).1
         = JS.Ok {| SendEmails.statusCode := 207;
                    SendEmails.body :=
                      SendEmails.Summary "Processed 2 newsletters" 1 1
                        (Some [("a@example.org", SendEmails.Message "render failed")]) |}).
Proof. vm_compute. repeat split. Qed.

(** C4 (amended). In a batch run whose preference query succeeds and whose
    enabled preferences all name a time zone the runtime knows, with N >= 1
    due recipients of which K deliveries fail, the summary reports
    successCount = N - K and failureCount = K, the status is 207 if K > 0
    and 200 if K = 0, and the tracked batch holds exactly N sent-or-failed
    outcomes, N - K sent and K failed. N is the number of distinct recipient
    addresses among the due preferences; K counts the digests that fail to
    render and the rendered ones the mail service refuses, so that K is the
    number of failed sends when every digest renders. Such a run with no due
    recipient answers 200 with a bare message, sends nothing and tracks
    nothing. *)
Theorem batch_summary_counts (env : SendEmails.Env) (w : SendEmails.World) :
  SendEmails.select_error env = None ->
  Forall (SendEmailsSpec.resolves env) (SendEmailsSpec.enabled env) ->
  let N := SendEmailsSpec.recipients env in
  let K := SendEmailsSpec.failures env in
  let run := SendEmails.handler env w in
  (K <= N)%nat
  /\ NoDup (map fst (SendEmailsSpec.emailData env))
  /\ (forall email, In email (map fst (SendEmailsSpec.emailData env)) <->
        exists p, In p (SendEmailsSpec.duePreferences env) /\
                  SendEmails.Pref.email p = email)
  /\ K = (length (List.filter (SendEmailsSpec.render_fails env)
                    (SendEmailsSpec.emailData env))
          + length (List.filter (SendEmailsSpec.send_fails env)
                      (SendEmailsSpec.emailData env)))%nat
  /\ (SendEmailsSpec.duePreferences env = [] ->
      N = 0%nat /\
      run.1 = JS.Ok {| SendEmails.statusCode := 200;
                       SendEmails.body :=
                         SendEmails.MessageBody
                           match SendEmailsSpec.enabled env with
                           | [] => "No newsletters to send"
                           | _ :: _ => "No newsletters scheduled for this time"
                           end |} /\
      SendEmails.tracked run.2 = SendEmails.tracked w /\
      SendEmails.outbox run.2 = SendEmails.outbox w)
  /\ (SendEmailsSpec.duePreferences env <> [] ->
      (1 <= N)%nat /\
      (exists message errors,
         run.1 = JS.Ok {| SendEmails.statusCode := if (0 <? K)%nat then 207 else 200;
                          SendEmails.body :=
                            SendEmails.Summary message (N - K) K errors |}) /\
      exists batch,
        SendEmails.tracked run.2 = SendEmails.tracked w ++ [batch] /\
        length (List.filter SendEmailsSpec.is_dispatch batch) = N /\
        length (List.filter (SendEmailsSpec.has_status SendEmails.sent) batch)
        = (N - K)%nat /\
        length (List.filter (SendEmailsSpec.has_status SendEmails.failed) batch) = K).
Proof.
  intros Hsel Hres N K run. subst run.
  split; [apply filter_length_le|].
  split; [rewrite emailData_keys; apply groupByEmail_spec|].
  split; [intros email; rewrite emailData_keys; apply groupByEmail_keys|].
  split; [apply failures_render_or_send|].
  split.
  - intros Hdue.
    assert (HN : N = 0%nat).
    { subst N. unfold SendEmailsSpec.recipients, SendEmailsSpec.emailData.
      now rewrite Hdue. }
    split; [exact HN|].
    destruct (SendEmailsSpec.enabled env) as [|p0 ps] eqn:Hen.
    + unfold SendEmails.handler, SendEmails.select_enabled. rewrite Hsel.
      fold (SendEmailsSpec.enabled env). rewrite Hen. repeat split.
    + assert (Hne : SendEmailsSpec.enabled env <> []) by (rewrite Hen; discriminate).
      rewrite <- Hen in Hres.
      rewrite (handler_run env w Hsel Hne Hres), Hdue. repeat split.
  - intros Hdue.
    assert (Hne : SendEmailsSpec.enabled env <> []).
    { intros E. apply Hdue. unfold SendEmailsSpec.duePreferences. now rewrite E. }
    rewrite (handler_run env w Hsel Hne Hres).
    pose proof (emailData_nonempty env Hdue) as Hed.
    destruct (SendEmailsSpec.duePreferences env) as [|d ds]; [congruence|].
    split; [|split].
    + subst N. unfold SendEmailsSpec.recipients.
      destruct (SendEmailsSpec.emailData env); [congruence | cbn; lia].
    + unfold SendEmailsSpec.summary. rewrite length_map.
      fold (SendEmailsSpec.failures env). fold K N. eauto.
    + exists (SendEmailsSpec.skippedRecords env ++ SendEmailsSpec.outcomes env).
      split; [reflexivity | apply batch_counts].
Qed.

Lemma batch_summary_counts_witness :
  let run := SendEmails.handler ExamplesBatch.busy ExamplesBatch.start in
  SendEmailsSpec.recipients ExamplesBatch.busy = 2%nat
  /\ SendEmailsSpec.failures ExamplesBatch.busy = 1%nat
  /\ (exists message errors,
        run.1 = JS.Ok {| SendEmails.statusCode := 207;
                         SendEmails.body := SendEmails.Summary message 1 1 errors |})
  /\ exists batch,
       SendEmails.tracked run.2 = [batch] /\
       length (List.filter SendEmailsSpec.is_dispatch batch) = 2%nat /\
       length (List.filter (SendEmailsSpec.has_status SendEmails.sent) batch) = 1%nat /\
       length (List.filter (SendEmailsSpec.has_status SendEmails.failed) batch) = 1%nat.
Proof.
  intros run.
  assert (Hres : Forall (SendEmailsSpec.resolves ExamplesBatch.busy)
                   (SendEmailsSpec.enabled ExamplesBatch.busy)).
  { repeat constructor; eexists; reflexivity. }
  destruct (batch_summary_counts ExamplesBatch.busy ExamplesBatch.start
              eq_refl Hres) as (_ & _ & _ & _ & _ & Hdue).
  destruct Hdue as (_ & Hsummary & Hbatch); [vm_compute; discriminate|].
  split; [reflexivity|]. split; [reflexivity|]. split; [exact Hsummary | exact Hbatch].
Defined.

(** ** [[...new Set(xs)]] *)
Section Uniq.
Import JS.

Lemma uniq_In (xs seen : list string) (x : string) :
  In x (uniq seen xs) <-> In x xs /\ x ∉ seen.
Proof.
  revert seen. induction xs as [|y xs IH]; intros seen; cbn [uniq In]; [tauto|].
  case_bool_decide as Hy; [rewrite IH | cbn [In]; rewrite IH, elem_of_cons].
  - split; [tauto|]. intros [[<-|Hx] Hn]; [contradiction | tauto].
  - split.
    + intros [<-|[Hx Hn]]; [tauto|]. split; [tauto|]. intros Hs. apply Hn. now right.
    + intros [[<-|Hx] Hn]; [tauto|]. destruct (decide (x = y)) as [->|Hne]; [tauto|].
      right. split; [assumption|]. intros [E|Hs]; [congruence | contradiction].
Qed.

Lemma uniq_NoDup (xs seen : list string) : NoDup (uniq seen xs).
Proof.
  revert seen. induction xs as [|y xs IH]; intros seen; cbn [uniq]; [constructor|].
  case_bool_decide as Hy; [apply IH|]. apply NoDup_cons. split; [|apply IH].
  intros Hin. apply list_elem_of_In, uniq_In in Hin as [_ Hn]. apply Hn. now left.
Qed.

End Uniq.

(** ** The record of one recipient *)
Section RecipientRecord.
Import JS SendEmails SendEmailsSpec.

Variable env : Env.

Lemma lookup_map {A B} (f : A -> B) (l : list A) (i : nat) :
  map f l !! i = f <$> l !! i.
Proof.
  revert i. induction l as [|x l IH]; intros [|i]; cbn; try reflexivity. apply IH.
Qed.

Lemma filter_map_swap {A B} (P : B -> bool) (f : A -> B) (l : list A) :
  List.filter P (map f l) = map f (List.filter (fun x => P (f x)) l).
Proof.
  induction l as [|x l IH]; [reflexivity|]. cbn [map List.filter].
  destruct (P (f x)); cbn [map]; now rewrite IH.
Qed.

Lemma filter_key_unique {V} (m : list (string * V)) (k : string) (v : V) :
  NoDup (map fst m) -> In (k, v) m ->
  List.filter (fun e => bool_decide (e.1 = k)) m = [(k, v)].
Proof.
  induction m as [|[k0 v0] m IH]; cbn [map fst In List.filter]; [tauto|].
  intros Hnd Hin. apply NoDup_cons in Hnd as [Hk0 Hnd].
  assert (Hnone : forall k', k' ∉ map fst m ->
            List.filter (fun e : string * V => bool_decide (e.1 = k')) m = []).
  { clear. intros k' Hk'. induction m as [|[k1 v1] m IH]; [reflexivity|].
    cbn [map fst List.filter] in *. rewrite not_elem_of_cons in Hk'.
    destruct Hk' as [Hne Hk']. rewrite bool_decide_eq_false_2 by congruence. auto. }
  destruct Hin as [E|Hin].
  - injection E as -> ->. rewrite bool_decide_eq_true_2 by reflexivity.
    now rewrite Hnone.
  - rewrite bool_decide_eq_false_2; [auto|].
    intros ->. apply Hk0, list_elem_of_In, in_map_iff. now exists (k, v).
Qed.

(** Among the tracked records, exactly one sent-or-failed outcome bears the
    address of a recipient with a group. *)
Lemma recipient_record (email : string) (g : list Pref.t) :
  In (email, g) (groupByEmail (duePreferences env)) ->
  List.filter (fun a => bool_decide (Analytics.email a = email) && is_dispatch a)
    (skippedRecords env ++ outcomes env)
  = [outcome_of env (groupByEmail (duePreferences env))
       (email, map (following_of env) g)].
Proof.
  intros Hin. rewrite List.filter_app.
  rewrite skipped_not_dispatch
    by (intros a Ha; unfold is_dispatch; rewrite Ha; apply andb_false_r).
  cbn [app]. unfold outcomes, emailData. rewrite !filter_map_swap.
  rewrite (List.filter_ext _ (fun e : string * list Pref.t => bool_decide (e.1 = email))).
  - rewrite (filter_key_unique _ email g); [reflexivity | apply groupByEmail_spec | exact Hin].
  - intros [e g']. rewrite outcome_email. unfold is_dispatch.
    rewrite outcome_status. cbn [digest_of fst].
    destruct (delivery_fails env _); apply andb_true_r.
Qed.

(** A due preference carries one of the three frequencies. *)
Lemma due_frequency (pref : Pref.t) :
  due env pref = true ->
  Pref.frequency pref = "daily" \/ Pref.frequency pref = "weekly" \/
  Pref.frequency pref = "monthly".
Proof.
  unfold due.
  destruct (Intl.localTime (host env) (Pref.timezone pref) (now env)) as [c|] eqn:Hc.
  - rewrite (shouldSend_resolved _ _ _ _ _ c Hc). unfold ScheduleSpec.due_at.
    intros H. apply andb_true_iff in H as [_ H].
    apply orb_true_iff in H as [H|H]; [apply orb_true_iff in H as [H|H]|].
    + apply bool_decide_eq_true in H. auto.
    + apply andb_true_iff in H as [H _]. apply bool_decide_eq_true in H. auto.
    + apply andb_true_iff in H as [H _]. apply bool_decide_eq_true in H. auto.
  - destruct (shouldSend_unknown_zone (host env) (now env) (Pref.frequency pref)
                (Pref.send_time pref) (Pref.timezone pref) Hc) as [e He].
    rewrite He. discriminate.
Qed.

End RecipientRecord.

Section Totals.
Import JS SendEmails.

Lemma total_of_empty_lists (followings : list FollowingContent.t) :
  Forall (fun f => FollowingContent.contents f = ContentList []) followings ->
  totalContents_of followings = Int 0.
Proof.
  unfold totalContents_of. intros Hall.
  induction Hall as [|f followings Hf _ IH]; [reflexivity|].
  cbn [foldl]. rewrite Hf. exact IH.
Qed.

Lemma total_stays_NaN (followings : list FollowingContent.t) :
  foldl (fun sum f => add_length sum (length_of (FollowingContent.contents f)))
    NaN followings = NaN.
Proof. induction followings as [|f followings IH]; [reflexivity | exact IH]. Qed.

Lemma total_with_an_object (followings : list FollowingContent.t) :
  Exists (fun f => exists answer, FollowingContent.contents f = ContentsAnswer answer)
    followings ->
  totalContents_of followings = NaN.
Proof.
  unfold totalContents_of. generalize (Int 0).
  intros sum Hex. revert sum.
  induction Hex as [f followings [answer Hf]|f followings _ IH]; intros sum.
  - cbn [foldl]. rewrite Hf. cbn [length_of].
    replace (add_length sum None) with NaN by now destruct sum.
    apply total_stays_NaN.
  - cbn [foldl]. apply IH.
Qed.

Lemma template_of_arrays (followings : list FollowingContent.t) :
  Forall (fun f => exists items, FollowingContent.contents f = ContentList items)
    followings ->
  NewsletterEmail followings = Ok tt.
Proof.
  unfold NewsletterEmail. intros Hall.
  replace (existsb _ followings) with false; [reflexivity|].
  induction Hall as [|f followings [items Hf] _ IH]; [reflexivity|].
  cbn [existsb]. rewrite Hf. exact IH.
Qed.

Lemma template_with_an_object (followings : list FollowingContent.t) :
  Exists (fun f => exists answer, FollowingContent.contents f = ContentsAnswer answer)
    followings ->
  NewsletterEmail followings = Throw (Error "following.contents.map is not a function").
Proof.
  unfold NewsletterEmail. intros Hex.
  replace (existsb _ followings) with true; [reflexivity|].
  induction Hex as [f followings [answer Hf]|f followings _ IH].
  - cbn [existsb]. now rewrite Hf.
  - cbn [existsb]. rewrite <- IH. now rewrite orb_true_r.
Qed.

End Totals.


(** Within the digest of one recipient every preference contributes one
    entry: what its retrieval answered when it succeeds (an array of content
    items, or the object the contents endpoint of this repository answers),
    the empty list when it fails or answers nothing, whatever happens to the
    other pairs. A digest whose entries are arrays is handed to the
    renderer, and one whose entries are all empty has total 0 and the
    subject "Your Content Digest"; a digest with an object among its entries
    has total [NaN] and makes the template throw. In a batch run every
    recipient with a due preference has its digest rendered and, once
    rendered, handed to the mail service, and gets a sent-or-failed outcome,
    whatever the amount of content; the outcome is failed when an entry is
    an object. *)
Lemma digest_isolates_failed_retrievals
  (env : SendEmails.Env) (w : SendEmails.World) :
  (forall (email : string) (preferences : list SendEmails.Pref.t),
     exists followings,
       SendEmails.fetch_user env (email, preferences) w = (JS.Ok (email, followings), w) /\
       length followings = length preferences /\
       forall i pref, preferences !! i = Some pref ->
         exists f, followings !! i = Some f /\
           SendEmails.FollowingContent.username f = SendEmails.Pref.username pref /\
           SendEmails.FollowingContent.platform f = SendEmails.Pref.platform pref /\
           SendEmails.FollowingContent.contents f
           = match (SendEmails.getContentsByPlatformAndUsername env
                      (SendEmails.Pref.platform pref) (SendEmails.Pref.username pref) w).1 with
             | JS.Ok (Some contents) => contents
             | JS.Ok None => SendEmails.ContentList []
             | JS.Throw _ => SendEmails.ContentList []
             end)
  /\
  (forall (email : string) (followings : list SendEmails.FollowingContent.t),
     (Forall (fun f => exists items,
                SendEmails.FollowingContent.contents f = SendEmails.ContentList items)
        followings ->
      SendEmails.renderNewsletterEmail env email followings
      = SendEmails.render env email followings) /\
     (Forall (fun f => SendEmails.FollowingContent.contents f = SendEmails.ContentList [])
        followings ->
      SendEmails.totalContents_of followings = JS.Int 0 /\
      SendEmails.subject_of (SendEmails.totalContents_of followings)
      = "Your Content Digest") /\
     (Exists (fun f => exists answer,
                SendEmails.FollowingContent.contents f = SendEmails.ContentsAnswer answer)
        followings ->
      SendEmails.totalContents_of followings = JS.NaN /\
      SendEmails.renderNewsletterEmail env email followings
      = JS.Throw (JS.Error "following.contents.map is not a function")))
  /\
  (SendEmails.select_error env = None ->
   Forall (SendEmailsSpec.resolves env) (SendEmailsSpec.enabled env) ->
   forall (email : string) (g : list SendEmails.Pref.t),
     In (email, g) (SendEmails.groupByEmail (SendEmailsSpec.duePreferences env)) ->
     let run := SendEmails.handler env w in
     exists followings batch,
       (SendEmails.fetch_user env (email, g) w).1 = JS.Ok (email, followings) /\
       SendEmails.tracked run.2 = SendEmails.tracked w ++ [batch] /\
       (forall html,
          SendEmails.renderNewsletterEmail env email followings = JS.Ok html ->
          In {| SendEmails.Source := SendEmails.SES_FROM_EMAIL env;
                SendEmails.ToAddresses := [email];
                SendEmails.Subject :=
                  SendEmails.subject_of (SendEmails.totalContents_of followings);
                SendEmails.Html := html |} (SendEmails.outbox run.2)) /\
       exists a, In a batch /\
         SendEmails.Analytics.email a = email /\
         SendEmailsSpec.is_dispatch a = true /\
         SendEmails.Analytics.followings_count a = length g /\
         SendEmails.Analytics.total_contents_count a
         = SendEmails.totalContents_of followings /\
         (Exists (fun f => exists answer,
                    SendEmails.FollowingContent.contents f
                    = SendEmails.ContentsAnswer answer) followings ->
          SendEmails.Analytics.status a = SendEmails.failed /\
          SendEmails.Analytics.error_message a
          = Some "following.contents.map is not a function")).
Proof.
  split; [|split].
  - intros email preferences.
    exists (map (SendEmailsSpec.following_of env) preferences).
    split; [apply fetch_user_run|]. split; [apply length_map|].
    intros i pref Hi. exists (SendEmailsSpec.following_of env pref).
    rewrite lookup_map, Hi. split; [reflexivity|].
    rewrite getContents_run. cbn [fst]. unfold SendEmailsSpec.following_of.
    cbn [SendEmails.FollowingContent.username SendEmails.FollowingContent.platform
         SendEmails.FollowingContent.contents].
    split; [reflexivity|]. split; [reflexivity|].
    destruct (SendEmailsSpec.retrieval env pref) as [[contents|]|e]; reflexivity.
  - intros email followings. split; [|split].
    + intros Hall. unfold SendEmails.renderNewsletterEmail.
      now rewrite (template_of_arrays followings Hall).
    + intros Hall. rewrite (total_of_empty_lists followings Hall). split; reflexivity.
    + intros Hex. split; [now apply total_with_an_object|].
      unfold SendEmails.renderNewsletterEmail.
      now rewrite (template_with_an_object followings Hex).
  - intros Hsel Hres email g Hin run.
    assert (Hdue : SendEmailsSpec.duePreferences env <> []).
    { intros E. rewrite E in Hin. destruct Hin. }
    assert (Hne : SendEmailsSpec.enabled env <> []).
    { intros E. apply Hdue. unfold SendEmailsSpec.duePreferences. now rewrite E. }
    subst run. rewrite (handler_run env w Hsel Hne Hres).
    destruct (SendEmailsSpec.duePreferences env) as [|d ds] eqn:Hd; [congruence|].
    rewrite <- Hd in *.
    set (followings := map (SendEmailsSpec.following_of env) g).
    set (G := SendEmails.groupByEmail (SendEmailsSpec.duePreferences env)) in *.
    assert (Hitem : In (email, followings) (SendEmailsSpec.emailData env)).
    { unfold SendEmailsSpec.emailData. apply in_map_iff. now exists (email, g). }
    exists followings, (SendEmailsSpec.skippedRecords env ++ SendEmailsSpec.outcomes env).
    split; [now rewrite fetch_user_run|]. split; [reflexivity|]. split.
    + intros html Hhtml. cbn [snd SendEmailsSpec.dispatched SendEmails.outbox].
      apply in_or_app. right. apply in_concat.
      exists (SendEmailsSpec.commands_of env (email, followings)). split.
      * now apply in_map.
      * unfold SendEmailsSpec.commands_of. cbn [fst snd]. rewrite Hhtml. now left.
    + exists (SendEmailsSpec.outcome_of env G (email, followings)). split.
      * apply in_or_app. right. unfold SendEmailsSpec.outcomes. now apply in_map.
      * rewrite outcome_email. split; [reflexivity|]. split.
        { unfold SendEmailsSpec.is_dispatch. rewrite outcome_status.
          now destruct (SendEmailsSpec.delivery_fails env (email, followings)). }
        split; [|split].
        { unfold SendEmailsSpec.outcome_of.
          destruct (SendEmailsSpec.delivery env (email, followings));
            cbn [SendEmails.outcome_record SendEmails.Analytics.followings_count fst snd];
            unfold followings; now rewrite length_map. }
        { unfold SendEmailsSpec.outcome_of.
          destruct (SendEmailsSpec.delivery env (email, followings)); reflexivity. }
        intros Hex. unfold SendEmailsSpec.outcome_of, SendEmailsSpec.delivery.
        cbn [fst snd]. unfold SendEmails.renderNewsletterEmail.
        rewrite (template_with_an_object followings Hex). split; reflexivity.
Qed.

Lemma digest_isolates_failed_retrievals_witness :
  let env := ExamplesBatch.busy in
  exists followings batch,
    (SendEmails.fetch_user env ("b@example.org",
       SendEmailsSpec.group_of env "b@example.org") ExamplesBatch.start).1
    = JS.Ok ("b@example.org", followings) /\
    SendEmails.tracked (SendEmails.handler env ExamplesBatch.start).2
    = SendEmails.tracked ExamplesBatch.start ++ [batch] /\
    (forall html,
       SendEmails.renderNewsletterEmail env "b@example.org" followings = JS.Ok html ->
       In {| SendEmails.Source := SendEmails.SES_FROM_EMAIL env;
             SendEmails.ToAddresses := ["b@example.org"];
             SendEmails.Subject :=
               SendEmails.subject_of (SendEmails.totalContents_of followings);
             SendEmails.Html := html |}
          (SendEmails.outbox (SendEmails.handler env ExamplesBatch.start).2)) /\
    exists r, In r batch /\
      SendEmails.Analytics.email r = "b@example.org" /\
      SendEmailsSpec.is_dispatch r = true /\
      SendEmails.Analytics.followings_count r
      = length (SendEmailsSpec.group_of env "b@example.org") /\
      SendEmails.Analytics.total_contents_count r
      = SendEmails.totalContents_of followings.
Proof.
  intros env.
  destruct (digest_isolates_failed_retrievals env ExamplesBatch.start) as (_ & _ & Hrun).
  destruct (Hrun eq_refl ltac:(repeat constructor; eexists; reflexivity)
              "b@example.org" (SendEmailsSpec.group_of env "b@example.org")
              ltac:(vm_compute; right; left; reflexivity))
    as (followings & batch & Hf & Ht & Ho & r & Hr & He & Hd & Hc & Hn & _).
  exists followings, batch. repeat split; try assumption.
  exists r. repeat split; assumption.
Defined.

(** C10. For every recipient whose group of due preferences is
    [first :: rest] (in particular with two or more of them), the tracked
    batch holds exactly one sent-or-failed outcome for the recipient; its
    frequency is that of [first], its time zone and send time are those of
    [first] (["UTC"] and ["00:00"] standing in for an empty string), whatever
    the preferences in [rest] say; its platforms are the platforms of all the
    preferences of the group, each once. *)
Theorem outcome_schedule_is_the_first_preference
  (env : SendEmails.Env) (w : SendEmails.World)
  (email : string) (first : SendEmails.Pref.t) (rest : list SendEmails.Pref.t) :
  SendEmails.select_error env = None ->
  Forall (SendEmailsSpec.resolves env) (SendEmailsSpec.enabled env) ->
  SendEmailsSpec.group_of env email = first :: rest ->
  let run := SendEmails.handler env w in
  exists batch r,
    SendEmails.tracked run.2 = SendEmails.tracked w ++ [batch] /\
    List.filter (fun a => bool_decide (SendEmails.Analytics.email a = email)
                          && SendEmailsSpec.is_dispatch a) batch = [r] /\
    SendEmails.Analytics.frequency r = SendEmails.Pref.frequency first /\
    SendEmails.Analytics.timezone r
    = JS.or_default (SendEmails.Pref.timezone first) "UTC" /\
    SendEmails.Analytics.send_time r
    = JS.or_default (SendEmails.Pref.send_time first) "00:00" /\
    (SendEmails.Pref.timezone first <> "" ->
     SendEmails.Analytics.timezone r = SendEmails.Pref.timezone first) /\
    (SendEmails.Pref.send_time first <> "" ->
     SendEmails.Analytics.send_time r = SendEmails.Pref.send_time first) /\
    SendEmails.Analytics.platforms r
    = JS.uniq [] (map SendEmails.Pref.platform (first :: rest)) /\
    NoDup (SendEmails.Analytics.platforms r) /\
    (forall x, In x (SendEmails.Analytics.platforms r) <->
       exists p, In p (first :: rest) /\ SendEmails.Pref.platform p = x).
Proof.
  intros Hsel Hres Hgroup run.
  assert (Hfirst : In first (SendEmailsSpec.duePreferences env)).
  { assert (H : In first (SendEmailsSpec.group_of env email))
      by (rewrite Hgroup; now left).
    now apply filter_In in H as [H _]. }
  assert (Hdue : SendEmailsSpec.duePreferences env <> []).
  { intros E. rewrite E in Hfirst. destruct Hfirst. }
  assert (Hne : SendEmailsSpec.enabled env <> []).
  { intros E. apply Hdue. unfold SendEmailsSpec.duePreferences. now rewrite E. }
  assert (Hin : In (email, first :: rest)
                  (SendEmails.groupByEmail (SendEmailsSpec.duePreferences env))).
  { apply groupByEmail_In. split; [now rewrite <- Hgroup | discriminate]. }
  assert (Hfreq : JS.or_default (SendEmails.Pref.frequency first) "daily"
                  = SendEmails.Pref.frequency first).
  { apply filter_In in Hfirst as [_ Hd].
    destruct (due_frequency env first Hd) as [E|[E|E]]; now rewrite E. }
  assert (Hdefault : forall s d, s <> "" -> JS.or_default s d = s).
  { intros [|c s] d Hs; [congruence | reflexivity]. }
  subst run. rewrite (handler_run env w Hsel Hne Hres).
  destruct (SendEmailsSpec.duePreferences env) as [|d ds] eqn:Hd; [congruence|].
  rewrite <- Hd in *.
  exists (SendEmailsSpec.skippedRecords env ++ SendEmailsSpec.outcomes env).
  eexists. split; [reflexivity|]. split; [exact (recipient_record env email _ Hin)|].
  assert (Hget : SendEmails.map_get
                   (SendEmails.groupByEmail (SendEmailsSpec.duePreferences env)) email
                 = Some (first :: rest)).
  { apply In_map_get; [apply groupByEmail_spec | exact Hin]. }
  assert (Hplat : map SendEmails.FollowingContent.platform
                    (map (SendEmailsSpec.following_of env) (first :: rest))
                  = map SendEmails.Pref.platform (first :: rest)).
  { rewrite map_map. apply map_ext. reflexivity. }
  unfold SendEmailsSpec.outcome_of. cbn [fst snd]. rewrite Hget.
  assert (Hfields :
    forall status message,
      let r := SendEmails.outcome_record env email (Some first) status message
                 (map (SendEmailsSpec.following_of env) (first :: rest)) in
      SendEmails.Analytics.frequency r = SendEmails.Pref.frequency first /\
      SendEmails.Analytics.timezone r
      = JS.or_default (SendEmails.Pref.timezone first) "UTC" /\
      SendEmails.Analytics.send_time r
      = JS.or_default (SendEmails.Pref.send_time first) "00:00" /\
      (SendEmails.Pref.timezone first <> "" ->
       SendEmails.Analytics.timezone r = SendEmails.Pref.timezone first) /\
      (SendEmails.Pref.send_time first <> "" ->
       SendEmails.Analytics.send_time r = SendEmails.Pref.send_time first) /\
      SendEmails.Analytics.platforms r
      = JS.uniq [] (map SendEmails.Pref.platform (first :: rest)) /\
      NoDup (SendEmails.Analytics.platforms r) /\
      (forall x, In x (SendEmails.Analytics.platforms r) <->
         exists p, In p (first :: rest) /\ SendEmails.Pref.platform p = x)).
  { intros status message r. subst r. unfold SendEmails.outcome_record.
    cbn [SendEmails.Analytics.frequency SendEmails.Analytics.timezone
         SendEmails.Analytics.send_time SendEmails.Analytics.platforms
         fmap option_fmap option_map from_option id].
    rewrite Hplat. split; [exact Hfreq|].
    split; [reflexivity|]. split; [reflexivity|].
    split; [intros H; now apply Hdefault|]. split; [intros H; now apply Hdefault|].
    split; [reflexivity|]. split; [apply uniq_NoDup|].
    intros x. rewrite uniq_In, in_map_iff. split.
    - intros [(p & <- & Hp) _]. eauto.
    - intros (p & Hp & <-). split; [eauto | apply not_elem_of_nil]. }
  cbn [head default from_option id].
  destruct (SendEmailsSpec.delivery env _); apply Hfields.
Qed.

Lemma outcome_schedule_is_the_first_preference_witness :
  let run := SendEmails.handler ExamplesBatch.busy ExamplesBatch.start in
  exists batch r,
    SendEmails.tracked run.2 = SendEmails.tracked ExamplesBatch.start ++ [batch] /\
    List.filter (fun a => bool_decide (SendEmails.Analytics.email a = "a@example.org")
                          && SendEmailsSpec.is_dispatch a) batch = [r] /\
    SendEmails.Analytics.frequency r = "daily" /\
    SendEmails.Analytics.timezone r = "UTC" /\
    SendEmails.Analytics.send_time r = "09:00" /\
    SendEmails.Analytics.platforms r = ["medium"; "x"].
Proof.
  intros run.
  destruct (outcome_schedule_is_the_first_preference
              ExamplesBatch.busy ExamplesBatch.start "a@example.org"
              (ExamplesBatch.pref "a@example.org" "carol" "medium" "daily" "09:00")
              [ExamplesBatch.pref "a@example.org" "frank" "x" "weekly" "09:15"])
    as (batch & r & Htracked & Hone & Hf & Htz & Hst & _ & _ & Hp & _).
  - reflexivity.
  - repeat constructor; eexists; reflexivity.
  - vm_compute. reflexivity.
  - exists batch, r. repeat split; assumption.
Defined.

(* ===================================================================== *)
(** * Part III: further properties of the code                             *)
(* ===================================================================== *)

(** ** The token authorizer *)
Section AuthorizerFacts.
Import JS Authorizer.

Lemma replace_first_prefix (pattern replacement rest : string) :
  JSString.replace_first pattern replacement (pattern +:+ rest) = replacement +:+ rest.
Proof.
  assert (H : forall p s, JSString.strip_prefix p (p +:+ s) = Some s).
  { induction p as [|a p IH]; intros s; [now destruct s|].
    change (String a p +:+ s) with (String a (p +:+ s)).
    cbn [JSString.strip_prefix]. now rewrite Ascii.eqb_refl. }
  destruct (pattern +:+ rest) eqn:E; cbn [JSString.replace_first];
    rewrite <- E, H; reflexivity.
Qed.

End AuthorizerFacts.

(** X1. The authorizer allows a request exactly when the event is a TOKEN
    event, the header with its first ["Bearer "] removed is a non-empty
    token that [jwtVerify] accepts, and the verified payload has a non-empty
    [sub]; the principal is then that [sub]. In every other case, a throwing
    verifier included, it answers the one Deny policy for ["anonymous"]. The
    resource is always the [methodArn] of the event. *)
Theorem authorizer_allows_verified_subjects_only
  (env : Authorizer.Env) (event : Authorizer.Event) :
  let anonymous :=
    Authorizer.generatePolicy "anonymous" Authorizer.Deny (Authorizer.methodArn event) in
  (forall userId,
     Authorizer.handler env event
     = Authorizer.generatePolicy userId Authorizer.Allow (Authorizer.methodArn event)
     <->
     Authorizer.type event = "TOKEN" /\
     exists header payload,
       Authorizer.authorizationToken event = Some header /\
       JSString.replace_first "Bearer " "" header <> "" /\
       Authorizer.jwtVerify env (JSString.replace_first "Bearer " "" header) = JS.Ok payload /\
       Authorizer.sub payload = Some userId /\ userId <> "")
  /\ (Authorizer.handler env event = anonymous \/
      exists userId,
        Authorizer.handler env event
        = Authorizer.generatePolicy userId Authorizer.Allow (Authorizer.methodArn event)).
Proof.
  intros anonymous. unfold Authorizer.handler. fold anonymous.
  destruct (decide (Authorizer.type event = "TOKEN")) as [Ht|Ht].
  2:{ rewrite bool_decide_eq_false_2 by assumption. cbn [negb]. split; [|now left].
      intros userId. split; [discriminate | tauto]. }
  rewrite bool_decide_eq_true_2 by assumption. cbn [negb].
  destruct (Authorizer.authorizationToken event) as [header|] eqn:Hh; cbn [fmap option_fmap option_map].
  2:{ split; [|now left]. intros userId. split; [discriminate|].
      intros (_ & h & p & E & _). discriminate E. }
  destruct (JSString.replace_first "Bearer " "" header) as [|c token] eqn:Htok.
  { split; [|now left]. intros userId. split; [discriminate|].
    intros (_ & h & p & E & Hne & _). injection E as <-. now rewrite Htok in Hne. }
  destruct (Authorizer.jwtVerify env (String c token)) as [payload|e] eqn:Hv; cbn [JS.res_bind].
  2:{ split; [|now left]. intros userId. split; [discriminate|].
      intros (_ & h & p & E & _ & Hv' & _). injection E as <-.
      rewrite Htok, Hv in Hv'. discriminate Hv'. }
  destruct (Authorizer.sub payload) as [[|c' s]|] eqn:Hs.
  - split; [|now left]. intros userId. split; [discriminate|].
    intros (_ & h & p & E & _ & Hv' & Hs' & Hne). injection E as <-.
    rewrite Htok, Hv in Hv'. injection Hv' as <-. rewrite Hs in Hs'.
    injection Hs' as <-. congruence.
  - split; [|right; eauto]. intros userId. split.
    + intros E. injection E as <-. split; [assumption|]. exists header, payload.
      rewrite Htok. repeat split; try assumption; discriminate.
    + intros (_ & h & p & E & _ & Hv' & Hs' & _). injection E as <-.
      rewrite Htok, Hv in Hv'. injection Hv' as <-. rewrite Hs in Hs'.
      now injection Hs' as <-.
  - split; [|now left]. intros userId. split; [discriminate|].
    intros (_ & h & p & E & _ & Hv' & Hs' & _). injection E as <-.
    rewrite Htok, Hv in Hv'. injection Hv' as <-. rewrite Hs in Hs'. discriminate Hs'.
Qed.

Lemma authorizer_allows_verified_subjects_only_witness :
  Authorizer.handler ExamplesMore.verifier (ExamplesMore.token_event "Bearer good")
  = Authorizer.generatePolicy "user-1" Authorizer.Allow
      (Authorizer.methodArn (ExamplesMore.token_event "Bearer good")).
Proof.
  apply (authorizer_allows_verified_subjects_only ExamplesMore.verifier
           (ExamplesMore.token_event "Bearer good")).
  split; [reflexivity|].
  exists "Bearer good", {| Authorizer.sub := Some "user-1" |}.
  repeat split; try reflexivity; discriminate.
Defined.

(** X2. The ["Bearer "] prefix is optional: a header [Bearer t] and the bare
    header [t] get the same policy, whenever [t] itself holds no ["Bearer "]
    to remove. *)
Theorem authorizer_bearer_prefix_is_optional
  (env : Authorizer.Env) (type methodArn token : string) :
  JSString.replace_first "Bearer " "" token = token ->
  Authorizer.handler env
    {| Authorizer.type := type;
       Authorizer.authorizationToken := Some ("Bearer " +:+ token);
       Authorizer.methodArn := methodArn |}
  = Authorizer.handler env
      {| Authorizer.type := type;
         Authorizer.authorizationToken := Some token;
         Authorizer.methodArn := methodArn |}.
Proof.
  intros Hbare. unfold Authorizer.handler.
  cbn [Authorizer.type Authorizer.authorizationToken Authorizer.methodArn
       fmap option_fmap option_map].
  now rewrite replace_first_prefix, Hbare.
Qed.

Lemma authorizer_bearer_prefix_is_optional_witness :
  Authorizer.handler ExamplesMore.verifier (ExamplesMore.token_event ("Bearer " +:+ "good"))
  = Authorizer.handler ExamplesMore.verifier (ExamplesMore.token_event "good").
Proof.
  apply (authorizer_bearer_prefix_is_optional ExamplesMore.verifier "TOKEN"
           "arn:aws:execute-api:eu-west-1:1:api/dev/GET/x" "good").
  reflexivity.
Defined.

(** ** The statistics over the tracked outcomes *)
Section StatsFacts.
Import JS SendEmails EmailAnalytics EmailAnalyticsSpec.

Lemma stats_selected (table : list Analytics.t) (startDate endDate : Date) :
  let data := rows table startDate endDate in
  getEmailAnalyticsStats Selected table startDate endDate
  = Some {| total_emails_sent := length (List.filter (status_is sent) data);
            total_emails_failed := length (List.filter (status_is failed) data);
            total_emails_skipped := length (List.filter (status_is skipped) data);
            daily := counts_of "daily" data;
            weekly := counts_of "weekly" data;
            monthly := counts_of "monthly" data;
            breakdown_by_platform := breakdownByPlatform data |}.
Proof.
  cbn zeta. unfold getEmailAnalyticsStats, rows.
  destruct (List.filter (in_range startDate endDate) table); reflexivity.
Qed.

Lemma status_partition (data : list Analytics.t) :
  (length (List.filter (status_is sent) data)
   + length (List.filter (status_is failed) data)
   + length (List.filter (status_is skipped) data) = length data)%nat.
Proof.
  unfold status_is. induction data as [|d data IH]; [reflexivity|].
  cbn [List.filter]. destruct (Analytics.status d); cbn [length]; lia.
Qed.

Lemma count_of_frequencies (s : Status) (data : list Analytics.t) :
  (count_of "daily" s data + count_of "weekly" s data + count_of "monthly" s data
   = length (List.filter (fun d => status_is s d && known_frequency d) data))%nat.
Proof.
  unfold count_of, known_frequency, frequency_is.
  induction data as [|d data IH]; [reflexivity|]. cbn [List.filter].
  destruct (status_is s d); rewrite ?andb_false_r, ?andb_true_r; [|exact IH].
  destruct (bool_decide (Analytics.frequency d = "daily")) eqn:Ed,
           (bool_decide (Analytics.frequency d = "weekly")) eqn:Ew,
           (bool_decide (Analytics.frequency d = "monthly")) eqn:Em;
    cbn [andb orb length]; try lia;
    repeat match goal with
           | H : bool_decide _ = true |- _ => apply bool_decide_eq_true in H
           end; congruence.
Qed.

Lemma lookup_foldl_assign {V} (f : string -> V) (keys : list string) (m : gmap string V)
  (k : string) :
  foldl (fun acc key => assign key (f key) acc) m keys !! k
  = if bool_decide (k ∈ keys) && negb (bool_decide (k = "__proto__"))
    then Some (f k) else m !! k.
Proof.
  revert m. induction keys as [|key keys IH]; intros m; cbn [foldl].
  - now rewrite bool_decide_eq_false_2 by apply not_elem_of_nil.
  - rewrite IH. unfold assign.
    destruct (decide (k = "__proto__")) as [Hp|Hp].
    + rewrite (bool_decide_eq_true_2 _ Hp), !andb_false_r.
      destruct (decide (key = "__proto__")) as [Hk|Hk].
      * now rewrite (bool_decide_eq_true_2 _ Hk).
      * rewrite (bool_decide_eq_false_2 _ Hk). apply lookup_insert_ne. congruence.
    + rewrite (bool_decide_eq_false_2 _ Hp), !andb_true_r.
      destruct (decide (k ∈ keys)) as [Hin|Hin].
      * rewrite (bool_decide_eq_true_2 _ Hin).
        rewrite (bool_decide_eq_true_2 (k ∈ key :: keys)); [reflexivity|].
        rewrite elem_of_cons; tauto.
      * rewrite (bool_decide_eq_false_2 _ Hin).
        destruct (decide (k = key)) as [->|Hne].
        -- rewrite (bool_decide_eq_true_2 (key ∈ key :: keys))
             by (rewrite elem_of_cons; tauto).
           rewrite (bool_decide_eq_false_2 _ Hp). apply lookup_insert_eq.
        -- rewrite (bool_decide_eq_false_2 (k ∈ key :: keys)).
           ++ destruct (bool_decide (key = "__proto__")); [reflexivity|].
              now apply lookup_insert_ne.
           ++ rewrite elem_of_cons. tauto.
Qed.

Lemma platformSet_elem (data : list Analytics.t) (p : string) :
  p ∈ platformSet data <-> exists d, In d data /\ p ∈ Analytics.platforms d.
Proof.
  unfold platformSet. rewrite list_elem_of_In, uniq_In, in_concat. split.
  - intros [(l & Hl & Hp) _]. apply in_map_iff in Hl as (d & <- & Hd).
    exists d. split; [assumption | now apply list_elem_of_In].
  - intros (d & Hd & Hp). split; [|apply not_elem_of_nil].
    exists (Analytics.platforms d). split; [now apply in_map | now apply list_elem_of_In].
Qed.

End StatsFacts.

(** X3. The statistics of a range always exist when the query succeeds, and
    their three totals add up to the number of rows in the range: every
    tracked outcome is counted once, as sent, failed or skipped. *)
Theorem stats_totals_partition
  (table : list SendEmails.Analytics.t) (startDate endDate : Date) :
  exists stats,
    EmailAnalytics.getEmailAnalyticsStats EmailAnalytics.Selected table startDate endDate
    = Some stats /\
    (EmailAnalytics.total_emails_sent stats + EmailAnalytics.total_emails_failed stats
     + EmailAnalytics.total_emails_skipped stats
     = length (EmailAnalyticsSpec.rows table startDate endDate))%nat.
Proof.
  eexists. split; [apply stats_selected|]. cbn. apply status_partition.
Qed.

(** X4. In the breakdown by frequency, the daily, weekly and monthly counts
    of a status add up to the rows of that status whose frequency is one of
    the three: a row with any other frequency is in the total and in no
    bucket, so the buckets never exceed the total and match it when every
    row has a known frequency. *)
Theorem stats_frequency_breakdown
  (table : list SendEmails.Analytics.t) (startDate endDate : Date)
  (s : SendEmails.Status) :
  exists stats,
    EmailAnalytics.getEmailAnalyticsStats EmailAnalytics.Selected table startDate endDate
    = Some stats /\
    let buckets :=
      (EmailAnalyticsSpec.count_in s (EmailAnalytics.daily stats)
       + EmailAnalyticsSpec.count_in s (EmailAnalytics.weekly stats)
       + EmailAnalyticsSpec.count_in s (EmailAnalytics.monthly stats))%nat in
    buckets
    = length (List.filter
                (fun d => EmailAnalytics.status_is s d
                          && EmailAnalyticsSpec.known_frequency d)
                (EmailAnalyticsSpec.rows table startDate endDate)) /\
    (buckets <= EmailAnalyticsSpec.total_in s stats)%nat /\
    (Forall (fun d => EmailAnalyticsSpec.known_frequency d = true)
       (EmailAnalyticsSpec.rows table startDate endDate) ->
     buckets = EmailAnalyticsSpec.total_in s stats).
Proof.
  eexists. split; [apply stats_selected|]. cbn zeta.
  set (data := EmailAnalyticsSpec.rows table startDate endDate).
  assert (Hb : (EmailAnalyticsSpec.count_in s (EmailAnalytics.counts_of "daily" data)
                + EmailAnalyticsSpec.count_in s (EmailAnalytics.counts_of "weekly" data)
                + EmailAnalyticsSpec.count_in s (EmailAnalytics.counts_of "monthly" data)
                = length (List.filter
                            (fun d => EmailAnalytics.status_is s d
                                      && EmailAnalyticsSpec.known_frequency d) data))%nat).
  { rewrite <- count_of_frequencies. now destruct s. }
  assert (Ht : EmailAnalyticsSpec.total_in s
                 {| EmailAnalytics.total_emails_sent :=
                      length (List.filter (EmailAnalytics.status_is SendEmails.sent) data);
                    EmailAnalytics.total_emails_failed :=
                      length (List.filter (EmailAnalytics.status_is SendEmails.failed) data);
                    EmailAnalytics.total_emails_skipped :=
                      length (List.filter (EmailAnalytics.status_is SendEmails.skipped) data);
                    EmailAnalytics.daily := EmailAnalytics.counts_of "daily" data;
                    EmailAnalytics.weekly := EmailAnalytics.counts_of "weekly" data;
                    EmailAnalytics.monthly := EmailAnalytics.counts_of "monthly" data;
                    EmailAnalytics.breakdown_by_platform :=
                      EmailAnalytics.breakdownByPlatform data |}
               = length (List.filter (EmailAnalytics.status_is s) data)).
  { now destruct s. }
  cbn [EmailAnalytics.daily EmailAnalytics.weekly EmailAnalytics.monthly].
  rewrite Ht, Hb. split; [reflexivity|]. split.
  - clear. induction data as [|d data IH]; [reflexivity|]. cbn [List.filter].
    destruct (EmailAnalytics.status_is s d); cbn [andb]; [|exact IH].
    destruct (EmailAnalyticsSpec.known_frequency d); cbn [length]; lia.
  - intros Hall. f_equal. apply List.filter_ext_in. intros d Hd.
    rewrite Forall_forall in Hall. rewrite (Hall d); [apply andb_true_r|].
    now apply list_elem_of_In.
Qed.

Lemma stats_frequency_breakdown_witness :
  exists stats,
    EmailAnalytics.getEmailAnalyticsStats EmailAnalytics.Selected
      (SendEmailsSpec.outcomes ExamplesBatch.busy) {| epochMs := 0 |} {| epochMs := 0 |}
    = Some stats /\
    (EmailAnalytics.sent_count (EmailAnalytics.daily stats)
     + EmailAnalytics.sent_count (EmailAnalytics.weekly stats)
     + EmailAnalytics.sent_count (EmailAnalytics.monthly stats)
     = EmailAnalytics.total_emails_sent stats)%nat.
Proof.
  destruct (stats_frequency_breakdown (SendEmailsSpec.outcomes ExamplesBatch.busy)
              {| epochMs := 0 |} {| epochMs := 0 |} SendEmails.sent)
    as (stats & Hstats & _ & _ & Hall).
  exists stats. split; [exact Hstats|]. apply Hall.
  vm_compute. repeat constructor.
Defined.

(** X5. The breakdown by platform has an entry exactly for the platforms
    other than ["__proto__"] that are listed by some row of the range,
    skipped rows included; the entry of a platform counts the sent and the
    failed rows that list it, so a platform met in skipped rows only has the
    entry (0, 0). A platform named ["__proto__"] never has an entry. *)
Theorem stats_platform_breakdown
  (table : list SendEmails.Analytics.t) (startDate endDate : Date) (platform : string) :
  exists stats,
    EmailAnalytics.getEmailAnalyticsStats EmailAnalytics.Selected table startDate endDate
    = Some stats /\
    let data := EmailAnalyticsSpec.rows table startDate endDate in
    EmailAnalytics.breakdown_by_platform stats !! platform
    = if existsb (fun d => bool_decide (platform ∈ SendEmails.Analytics.platforms d)) data
         && negb (bool_decide (platform = "__proto__"))
      then Some (length (List.filter
                           (fun d => bool_decide (platform ∈ SendEmails.Analytics.platforms d)
                                     && EmailAnalytics.status_is SendEmails.sent d) data),
                 length (List.filter
                           (fun d => bool_decide (platform ∈ SendEmails.Analytics.platforms d)
                                     && EmailAnalytics.status_is SendEmails.failed d) data))
      else None.
Proof.
  eexists. split; [apply stats_selected|]. cbn zeta.
  cbn [EmailAnalytics.breakdown_by_platform]. unfold EmailAnalytics.breakdownByPlatform.
  rewrite (lookup_foldl_assign
             (fun p => (length (List.filter (EmailAnalytics.lists_platform p SendEmails.sent)
                                  (EmailAnalyticsSpec.rows table startDate endDate)),
                        length (List.filter (EmailAnalytics.lists_platform p SendEmails.failed)
                                  (EmailAnalyticsSpec.rows table startDate endDate))))).
  rewrite lookup_empty.
  destruct (decide (platform ∈ EmailAnalytics.platformSet
                      (EmailAnalyticsSpec.rows table startDate endDate))) as [Hin|Hin].
  - rewrite bool_decide_eq_true_2 by assumption.
    apply platformSet_elem in Hin as (d & Hd & Hp).
    replace (existsb _ _) with true; [reflexivity|].
    symmetry. apply existsb_exists. exists d. split; [assumption|].
    now apply bool_decide_eq_true_2.
  - rewrite bool_decide_eq_false_2 by assumption.
    replace (existsb _ _) with false; [reflexivity|].
    symmetry. apply not_true_is_false. intros H.
    apply existsb_exists in H as (d & Hd & Hp). apply bool_decide_eq_true in Hp.
    apply Hin, platformSet_elem. eauto.
Qed.

(** X6. What a batch run tracks is what the statistics report: after a run
    that reached the send stage on an empty table, with the insert
    accepted, the statistics of a range that holds the time stamp of every
    record of the run (the stamp each skipped record takes when its
    preference is rejected, and the stamp each outcome takes after its
    delivery) count N - K sent, K failed and one skipped per rejected
    preference. *)
Theorem batch_run_then_stats
  (env : SendEmails.Env) (w : SendEmails.World) (startDate endDate : Date) :
  SendEmails.select_error env = None ->
  Forall (SendEmailsSpec.resolves env) (SendEmailsSpec.enabled env) ->
  SendEmailsSpec.duePreferences env <> [] ->
  SendEmails.email_analytics w = [] ->
  (forall batch, SendEmails.insert env batch = SendEmails.Inserted) ->
  (forall pref,
     In pref (List.filter (SendEmailsSpec.rejected env) (SendEmailsSpec.enabled env)) ->
     epochMs startDate <= epochMs (SendEmails.skipped_at env pref) <= epochMs endDate) ->
  (forall item, In item (SendEmailsSpec.emailData env) ->
     epochMs startDate <= epochMs (SendEmails.recorded_at env item.1) <= epochMs endDate) ->
  exists stats,
    EmailAnalytics.getEmailAnalyticsStats EmailAnalytics.Selected
      (SendEmails.email_analytics (SendEmails.handler env w).2) startDate endDate
    = Some stats /\
    EmailAnalytics.total_emails_sent stats
    = (SendEmailsSpec.recipients env - SendEmailsSpec.failures env)%nat /\
    EmailAnalytics.total_emails_failed stats = SendEmailsSpec.failures env /\
    EmailAnalytics.total_emails_skipped stats
    = length (List.filter (SendEmailsSpec.rejected env) (SendEmailsSpec.enabled env)).
Proof.
  intros Hsel Hres Hdue Htable Hins Hskipped Hrecorded.
  assert (Hne : SendEmailsSpec.enabled env <> []).
  { intros E. apply Hdue. unfold SendEmailsSpec.duePreferences. now rewrite E. }
  rewrite (handler_run env w Hsel Hne Hres).
  destruct (SendEmailsSpec.duePreferences env) as [|d ds] eqn:Hd; [congruence|].
  rewrite <- Hd in *. cbn [snd SendEmailsSpec.dispatched SendEmails.email_analytics].
  rewrite Hins, Htable. cbn [app].
  set (batch := SendEmailsSpec.skippedRecords env ++ SendEmailsSpec.outcomes env).
  eexists. split; [apply stats_selected|]. cbn zeta.
  assert (Hrows : EmailAnalyticsSpec.rows batch startDate endDate = batch).
  { unfold EmailAnalyticsSpec.rows.
    rewrite (List.filter_ext_in _ (fun _ => true)).
    - clear. induction batch; [reflexivity | cbn; now f_equal].
    - intros a Ha. unfold EmailAnalytics.in_range.
      assert (Hat : epochMs startDate <= epochMs (SendEmails.Analytics.sent_at a)
                    <= epochMs endDate).
      { apply in_app_or in Ha as [Ha|Ha].
        - apply in_map_iff in Ha as (p & <- & Hp). exact (Hskipped p Hp).
        - apply in_map_iff in Ha as (item & <- & Hitem).
          unfold SendEmailsSpec.outcome_of.
          destruct (SendEmailsSpec.delivery env item); exact (Hrecorded item Hitem). }
      apply andb_true_iff. split; apply Z.leb_le; lia. }
  rewrite Hrows. cbn [EmailAnalytics.total_emails_sent EmailAnalytics.total_emails_failed
                      EmailAnalytics.total_emails_skipped].
  destruct (batch_counts env) as (_ & Hsent & Hfailed).
  split; [exact Hsent|]. split; [exact Hfailed|]. clear Hskipped Hrecorded Hrows.
  unfold batch. rewrite List.filter_app, length_app.
  assert (Hs : List.filter (EmailAnalytics.status_is SendEmails.skipped)
                 (SendEmailsSpec.skippedRecords env) = SendEmailsSpec.skippedRecords env).
  { unfold SendEmailsSpec.skippedRecords.
    induction (List.filter (SendEmailsSpec.rejected env) (SendEmailsSpec.enabled env))
      as [|p l IH]; [reflexivity|]. cbn [map List.filter].
    change (EmailAnalytics.status_is SendEmails.skipped (SendEmails.skipped_record env p))
      with true. now rewrite IH. }
  assert (Ho : List.filter (EmailAnalytics.status_is SendEmails.skipped)
                 (SendEmailsSpec.outcomes env) = []).
  { unfold SendEmailsSpec.outcomes.
    induction (SendEmailsSpec.emailData env) as [|item l IH]; [reflexivity|].
    cbn [map List.filter]. unfold EmailAnalytics.status_is at 1.
    rewrite outcome_status. now destruct (SendEmailsSpec.delivery_fails env item). }
  rewrite Hs, Ho. unfold SendEmailsSpec.skippedRecords. rewrite length_map. cbn. lia.
Qed.

Lemma batch_run_then_stats_witness :
  exists stats,
    EmailAnalytics.getEmailAnalyticsStats EmailAnalytics.Selected
      (SendEmails.email_analytics
         (SendEmails.handler ExamplesBatch.busy ExamplesBatch.start).2)
      {| epochMs := 0 |} {| epochMs := 10 |}
    = Some stats /\
    EmailAnalytics.total_emails_sent stats = 1%nat /\
    EmailAnalytics.total_emails_failed stats = 1%nat /\
    EmailAnalytics.total_emails_skipped stats = 1%nat.
Proof.
  apply (batch_run_then_stats ExamplesBatch.busy ExamplesBatch.start
           {| epochMs := 0 |} {| epochMs := 10 |}).
  - reflexivity.
  - repeat constructor; eexists; reflexivity.
  - vm_compute. discriminate.
  - reflexivity.
  - reflexivity.
  - intros pref _. cbn. lia.
  - intros item _. cbn. lia.
Defined.

(** ** The statistics endpoint *)
Section GetEmailAnalyticsFacts.
Import JS GetEmailAnalytics.

Lemma given_None_cases (s : option string) :
  given s = None <-> s = None \/ s = Some "".
Proof.
  destruct s as [[|c r]|]; cbn; split; intros H; auto; try discriminate;
    destruct H as [H|H]; discriminate.
Qed.

End GetEmailAnalyticsFacts.

(** X7. A custom range needs both dates: when [endDate] is absent or empty,
    a [startDate] is ignored altogether (it is not even parsed), and the
    other way round; the answer is the one of the request without it. *)
Theorem lone_date_is_ignored
  (env : GetEmailAnalytics.Env) (query : gmap string string) :
  (GetEmailAnalytics.given (query !! "endDate") = None ->
   GetEmailAnalytics.handler env (Some query)
   = GetEmailAnalytics.handler env (Some (delete "startDate" query)))
  /\ (GetEmailAnalytics.given (query !! "startDate") = None ->
      GetEmailAnalytics.handler env (Some query)
      = GetEmailAnalytics.handler env (Some (delete "endDate" query))).
Proof.
  split; intros Hnone; unfold GetEmailAnalytics.handler, GetEmailAnalytics.parseQuery;
    cbn [default from_option id];
    rewrite ?(lookup_delete_ne query "startDate" "period"),
            ?(lookup_delete_ne query "startDate" "endDate"),
            ?(lookup_delete_ne query "endDate" "period"),
            ?(lookup_delete_ne query "endDate" "startDate") by discriminate;
    rewrite ?lookup_delete_eq;
    destruct (query !! "period") as [p|];
    try destruct (bool_decide (p ∈ GetEmailAnalytics.periodEnum));
    cbn [GetEmailAnalytics.startDate GetEmailAnalytics.endDate GetEmailAnalytics.period];
    rewrite ?Hnone; cbn [GetEmailAnalytics.given];
    try reflexivity;
    destruct (GetEmailAnalytics.given (query !! "startDate")); reflexivity.
Qed.

Lemma lone_date_is_ignored_witness :
  GetEmailAnalytics.handler (ExamplesMore.analytics_env [])
    (Some (list_to_map [("startDate", "not a date"); ("period", "today")]))
  = GetEmailAnalytics.handler (ExamplesMore.analytics_env [])
      (Some (delete "startDate"
               (list_to_map [("startDate", "not a date"); ("period", "today")]))).
Proof.
  apply (lone_date_is_ignored (ExamplesMore.analytics_env [])
           (list_to_map [("startDate", "not a date"); ("period", "today")])).
  reflexivity.
Defined.

(** X8. The [period] parameter is validated even when it is not used: with
    both dates given, a period of the enumeration changes nothing in the
    answer, which is that of the custom range, while any other period makes
    the request fail with 400 before the dates are looked at. *)
Theorem custom_range_overrides_period
  (env : GetEmailAnalytics.Env) (query : gmap string string) (s e p : string) :
  query !! "startDate" = Some s -> s <> "" ->
  query !! "endDate" = Some e -> e <> "" ->
  query !! "period" = Some p ->
  (p ∈ GetEmailAnalytics.periodEnum ->
   GetEmailAnalytics.handler env (Some query)
   = GetEmailAnalytics.handler env (Some (delete "period" query)) /\
   GetEmailAnalytics.handler env (Some query)
   = match GetEmailAnalytics.parse (GetEmailAnalytics.host env) s,
           GetEmailAnalytics.parse (GetEmailAnalytics.host env) e with
     | Some startDate, Some endDate => GetEmailAnalytics.respond env startDate endDate
     | _, _ => {| GetEmailAnalytics.statusCode := 400;
                  GetEmailAnalytics.body := GetEmailAnalytics.InvalidDateFormat |}
     end)
  /\ (p ∉ GetEmailAnalytics.periodEnum ->
      GetEmailAnalytics.handler env (Some query)
      = {| GetEmailAnalytics.statusCode := 400;
           GetEmailAnalytics.body :=
             GetEmailAnalytics.InvalidQueryParameters [GetEmailAnalytics.InvalidPeriod] |}).
Proof.
  intros Hs Hsne He Hene Hp.
  unfold GetEmailAnalytics.handler, GetEmailAnalytics.parseQuery.
  cbn [default from_option id].
  rewrite lookup_delete_eq, !lookup_delete_ne by discriminate. rewrite Hp, Hs, He.
  destruct s as [|cs s]; [congruence|]. destruct e as [|ce e]; [congruence|].
  split; intros Hin.
  - rewrite bool_decide_eq_true_2 by assumption. split; reflexivity.
  - now rewrite bool_decide_eq_false_2 by assumption.
Qed.

Lemma custom_range_overrides_period_witness :
  let query : gmap string string :=
    list_to_map [("startDate", "100"); ("endDate", "900"); ("period", "today")] in
  GetEmailAnalytics.handler (ExamplesMore.analytics_env []) (Some query)
  = GetEmailAnalytics.handler (ExamplesMore.analytics_env [])
      (Some (delete "period" query))
  /\ GetEmailAnalytics.handler (ExamplesMore.analytics_env [])
       (Some (<["period" := "forever"]> query))
     = {| GetEmailAnalytics.statusCode := 400;
          GetEmailAnalytics.body :=
            GetEmailAnalytics.InvalidQueryParameters [GetEmailAnalytics.InvalidPeriod] |}.
Proof.
  intros query. split.
  - apply (custom_range_overrides_period (ExamplesMore.analytics_env []) query
             "100" "900" "today"); try reflexivity; try discriminate.
    vm_compute. repeat constructor.
  - apply (custom_range_overrides_period (ExamplesMore.analytics_env [])
             (<["period" := "forever"]> query) "100" "900" "forever");
      try reflexivity; try discriminate.
    intros H. vm_compute in H. repeat (inversion H as [|? ? ? H']; clear H; rename H' into H).
Defined.

(** ** Every run of the read handlers, whatever throws *)
Section EveryRun.
Import JS Eff CacheDiscipline.

Ltac trace_kept :=
  eexists; split;
  [ cbn; rewrite <- ?app_assoc; cbn [app];
    first [ reflexivity | symmetry; apply app_nil_r ]
  | repeat first [ apply List.Forall_nil
                 | apply List.Forall_cons; [cbn; intuition reflexivity|] ] ].

Ltac store_kept := first [ left; reflexivity | right; reflexivity ].

Ltac world_kept := split; [trace_kept | split; store_kept].

Lemma followings_every_run (env : FetchFollowings.Env) (event : Event)
  (w : FetchFollowings.World) :
  followings_kept env event w (FetchFollowings.handler env event w).2.
Proof.
  unfold followings_kept, FetchFollowings.handler, FetchFollowingsSpec.cache_key,
    FetchFollowingsSpec.fresh_entry, FetchFollowingsSpec.fresh_documents.
  set (platformName := path_param event "platformName").
  set (username := path_param event "username").
  destruct (schema_issues (pathParameters event)); [|world_kept].
  unfold bind, FetchFollowings.call, FetchFollowings.redis_get, FetchFollowings.redis_set,
    try_catch, FetchFollowings.storeFollowingsForSearch, FetchFollowings.index_upsert,
    FetchFollowings.searchFollowings, FetchFollowings.index_search,
    FetchFollowings.internal_error, ret, FetchFollowings.call.
  unfold bind.
  repeat (cbn [FetchFollowings.log FetchFollowings.redis FetchFollowings.index
               FetchFollowings.trace FetchFollowings.set_redis FetchFollowings.upsert_all
               negb fst snd];
          match goal with
          | |- context [FetchFollowings.fault env ?op] =>
              destruct (FetchFollowings.fault env op)
          | |- context [FetchFollowings.userExists env ?a ?b] =>
              destruct (FetchFollowings.userExists env a b)
          | |- context [FetchFollowings.searchQuery_of ?e] =>
              destruct (FetchFollowings.searchQuery_of e) as [[|? ?]|]
          | |- context [FetchFollowings.redis w !! ?k] =>
              destruct (FetchFollowings.redis w !! k)
          | |- context [(0 <? ?n)%nat || truthy_Date ?d] =>
              unfold truthy_Date; rewrite (orb_true_r (0 <? n)%nat)
          end);
    cbn [FetchFollowings.log FetchFollowings.redis FetchFollowings.index
         FetchFollowings.trace FetchFollowings.set_redis FetchFollowings.upsert_all
         negb fst snd];
    world_kept.
Qed.

End EveryRun.

Section EveryRunContents.
Import JS Eff CacheDiscipline.

Ltac trace_kept :=
  eexists; split;
  [ cbn; rewrite <- ?app_assoc; cbn [app];
    first [ reflexivity | symmetry; apply app_nil_r ]
  | repeat first [ apply List.Forall_nil
                 | apply List.Forall_cons; [cbn; intuition reflexivity|] ] ].

Lemma contents_every_run (env : FetchContents.Env) (event : Event)
  (w : FetchContents.World) :
  contents_kept env event w (FetchContents.handler env event w).2.
Proof.
  unfold contents_kept, FetchContents.handler.
  set (platformName := path_param event "platformName").
  set (username := path_param event "username").
  set (since := FetchContents.since_of event).
  destruct (schema_issues (pathParameters event));
    [|split; [trace_kept | left; reflexivity]].
  unfold bind, FetchContents.redis_get, FetchContents.redis_set, FetchContents.call, ret.
  repeat (cbn [FetchContents.log FetchContents.redis FetchContents.trace
               FetchContents.set_redis fst snd];
          match goal with
          | |- context [FetchContents.fault env ?op] =>
              destruct (FetchContents.fault env op)
          | |- context [FetchContents.redis w !! ?k] =>
              destruct (FetchContents.redis w !! k)
          end);
    cbn [FetchContents.log FetchContents.redis FetchContents.trace
         FetchContents.set_redis fst snd];
    (split; [trace_kept | first [left; reflexivity | right; reflexivity]]).
Qed.

Lemma lookup_foldl_upsert {V} (docs : list (string * V)) (m : gmap string V) (id : string) :
  id ∉ map fst docs ->
  foldl (fun m d => <[d.1 := d.2]> m) m docs !! id = m !! id.
Proof.
  revert m. induction docs as [|[k v] docs IH]; intros m Hid; [reflexivity|].
  cbn [foldl map fst] in *. rewrite not_elem_of_cons in Hid. destruct Hid as [Hne Hid].
  rewrite IH by assumption. cbn [fst snd]. now apply lookup_insert_ne.
Qed.

End EveryRunContents.

(** X9. Whatever the services do, a followings request reads and writes the
    cache at its own key [followings:{platform}:{username}] only, every
    write carries the expiry of 24 hours, the other keys of the cache keep
    their entries, and the index changes at the document ids of the fresh
    listing only. *)
Theorem followings_cache_discipline
  (env : FetchFollowings.Env) (event : Event) (w : FetchFollowings.World) :
  let platformName := path_param event "platformName" in
  let username := path_param event "username" in
  let key := "followings:" +:+ platformName +:+ ":" +:+ username in
  let run := FetchFollowings.handler env event w in
  (exists ops,
     FetchFollowings.trace run.2 = FetchFollowings.trace w ++ ops /\
     Forall (CacheDiscipline.followings_call key) ops)
  /\ (forall k, k <> key ->
        FetchFollowings.redis run.2 !! k = FetchFollowings.redis w !! k)
  /\ (forall id,
        id ∉ map fst (FetchFollowingsSpec.fresh_documents env platformName username) ->
        FetchFollowings.index run.2 !! id = FetchFollowings.index w !! id).
Proof.
  intros platformName username key run. subst run.
  destruct (followings_every_run env event w) as (Htrace & Hredis & Hindex).
  split; [exact Htrace|]. split.
  - intros k Hk. destruct Hredis as [->| ->]; [reflexivity|].
    apply lookup_insert_ne. intros E. apply Hk. now rewrite <- E.
  - intros id Hid. destruct Hindex as [->| ->]; [reflexivity|].
    now apply lookup_foldl_upsert.
Qed.

(** X10. Whatever the services do, a contents request reads and writes the
    cache at its own key [contents:{platform}:{username}:{since}] only,
    every write carries the expiry of 24 hours, and the other keys of the
    cache keep their entries. *)
Theorem contents_cache_discipline
  (env : FetchContents.Env) (event : Event) (w : FetchContents.World) :
  let platformName := path_param event "platformName" in
  let username := path_param event "username" in
  let since := FetchContents.since_of event in
  let key := "contents:" +:+ platformName +:+ ":" +:+ username +:+ ":" +:+ since in
  let run := FetchContents.handler env event w in
  (exists ops,
     FetchContents.trace run.2 = FetchContents.trace w ++ ops /\
     Forall (CacheDiscipline.contents_call key) ops)
  /\ (forall k, k <> key ->
        FetchContents.redis run.2 !! k = FetchContents.redis w !! k).
Proof.
  intros platformName username since key run. subst run.
  destruct (contents_every_run env event w) as (Htrace & Hredis).
  split; [exact Htrace|].
  intros k Hk. destruct Hredis as [->| ->]; [reflexivity|].
  apply lookup_insert_ne. intros E. apply Hk. now rewrite <- E.
Qed.

(** X11. The answers of the followings handler. It answers 200 with
    followings, 400 with the validation issues, 404 with "user not found",
    or 500 with the message of a call that threw; it throws only the
    exception of a call that threw; and when no call throws it never
    answers 500. *)
Theorem followings_answers
  (env : FetchFollowings.Env) (event : Event) (w : FetchFollowings.World) :
  match (FetchFollowings.handler env event w).1 with
  | JS.Ok response =>
      (FetchFollowings.statusCode response = 200 /\
       exists followings fetchedAt,
         FetchFollowings.body response
         = FetchFollowings.FollowingsBody followings fetchedAt) \/
      (FetchFollowings.statusCode response = 400 /\
       FetchFollowings.body response
       = FetchFollowings.ValidationError (schema_issues (pathParameters event)) /\
       schema_issues (pathParameters event) <> []) \/
      (FetchFollowings.statusCode response = 404 /\
       FetchFollowings.body response = FetchFollowings.ErrorBody "user not found") \/
      (FetchFollowings.statusCode response = 500 /\
       exists op e,
         FetchFollowings.fault env op = Some e /\
         FetchFollowings.body response = FetchFollowings.InternalError (JS.message_of e))
  | JS.Throw e => exists op, FetchFollowings.fault env op = Some e
  end
  /\ ((forall op, FetchFollowings.fault env op = None) ->
      exists response,
        (FetchFollowings.handler env event w).1 = JS.Ok response /\
        FetchFollowings.statusCode response <> 500).
Proof.
  assert (Hmain :
    match (FetchFollowings.handler env event w).1 with
    | JS.Ok response =>
        (FetchFollowings.statusCode response = 200 /\
         exists followings fetchedAt,
           FetchFollowings.body response
           = FetchFollowings.FollowingsBody followings fetchedAt) \/
        (FetchFollowings.statusCode response = 400 /\
         FetchFollowings.body response
         = FetchFollowings.ValidationError (schema_issues (pathParameters event)) /\
         schema_issues (pathParameters event) <> []) \/
        (FetchFollowings.statusCode response = 404 /\
         FetchFollowings.body response = FetchFollowings.ErrorBody "user not found") \/
        (FetchFollowings.statusCode response = 500 /\
         exists op e,
           FetchFollowings.fault env op = Some e /\
           FetchFollowings.body response = FetchFollowings.InternalError (JS.message_of e))
    | JS.Throw e => exists op, FetchFollowings.fault env op = Some e
    end).
  { destruct (schema_issues (pathParameters event)) as [|issue issues] eqn:Hs.
    2:{ rewrite followings_invalid by (rewrite Hs; discriminate). cbn [fst].
        right. left. rewrite Hs. repeat split. discriminate. }
    unfold FetchFollowings.handler. rewrite Hs.
    unfold Eff.bind, FetchFollowings.call, FetchFollowings.redis_get,
      FetchFollowings.redis_set, Eff.try_catch, FetchFollowings.storeFollowingsForSearch,
      FetchFollowings.index_upsert, FetchFollowings.searchFollowings,
      FetchFollowings.index_search, FetchFollowings.internal_error, Eff.ret,
      FetchFollowings.call.
    unfold Eff.bind.
    repeat (cbn [FetchFollowings.log FetchFollowings.redis FetchFollowings.index
                 FetchFollowings.trace FetchFollowings.set_redis
                 FetchFollowings.upsert_all negb fst snd];
            match goal with
            | |- context [FetchFollowings.fault env ?op] =>
                destruct (FetchFollowings.fault env op) eqn:?
            | |- context [FetchFollowings.userExists env ?a ?b] =>
                destruct (FetchFollowings.userExists env a b)
            | |- context [FetchFollowings.searchQuery_of ?e] =>
                destruct (FetchFollowings.searchQuery_of e) as [[|? ?]|]
            | |- context [FetchFollowings.redis w !! ?k] =>
                destruct (FetchFollowings.redis w !! k)
            | |- context [(0 <? ?n)%nat || truthy_Date ?d] =>
                unfold truthy_Date; rewrite (orb_true_r (0 <? n)%nat)
            end);
      cbn [FetchFollowings.log FetchFollowings.redis FetchFollowings.index
           FetchFollowings.trace FetchFollowings.set_redis FetchFollowings.upsert_all
           negb fst snd FetchFollowings.statusCode FetchFollowings.body];
      first [ eexists; eassumption
            | left; split; [reflexivity | eexists _, _; reflexivity]
            | right; right; left; split; reflexivity
            | right; right; right; split; [reflexivity|];
              match goal with
              | H : FetchFollowings.fault env ?op = Some ?e0 |- _ =>
                  exists op, e0; split; [exact H | reflexivity]
              end ]. }
  split; [exact Hmain|].
  intros Hnone. destruct (FetchFollowings.handler env event w).1 as [response|e].
  - exists response. split; [reflexivity|].
    destruct Hmain as [[E _]|[[E _]|[[E _]|[_ (op & e & Hf & _)]]]];
      try (rewrite E; discriminate).
    rewrite Hnone in Hf. discriminate Hf.
  - destruct Hmain as [op Hf]. rewrite Hnone in Hf. discriminate Hf.
Qed.

Lemma followings_answers_witness :
  exists response,
    (FetchFollowings.handler (ExamplesFollowings.env ExamplesFollowings.no_fault true)
       (ExamplesFollowings.alice []) ExamplesFollowings.empty).1 = JS.Ok response /\
    FetchFollowings.statusCode response <> 500.
Proof.
  apply (followings_answers (ExamplesFollowings.env ExamplesFollowings.no_fault true)
           (ExamplesFollowings.alice []) ExamplesFollowings.empty).
  reflexivity.
Defined.

(** X12. The answers of the contents handler. It answers 200 with contents
    or 400 with the validation issues and nothing else: it has no 404 and no
    500 of its own. On valid parameters its calls are, in order, the cache
    read, the strategy lookup, the upstream fetch and the cache write, as far
    as it gets; a rejected request makes no call. Any call it makes that
    throws makes the handler throw that exception, and is its last call;
    and the exception of a handler that throws is that of its last call. *)
Theorem contents_answers
  (env : FetchContents.Env) (event : Event) (w : FetchContents.World) :
  let run := FetchContents.handler env event w in
  let platformName := path_param event "platformName" in
  let username := path_param event "username" in
  let key := FetchContents.cache_key platformName username (FetchContents.since_of event) in
  match run.1 with
  | JS.Ok response =>
      (FetchContents.statusCode response = 200 /\
       schema_issues (pathParameters event) = [] /\
       exists contents fetchedAt,
         FetchContents.body response = FetchContents.ContentsBody contents fetchedAt) \/
      (FetchContents.statusCode response = 400 /\
       FetchContents.body response
       = FetchContents.ValidationError (schema_issues (pathParameters event)) /\
       schema_issues (pathParameters event) <> [])
  | JS.Throw e =>
      schema_issues (pathParameters event) = [] /\
      exists op, FetchContents.fault env op = Some e
  end
  /\ exists calls,
       FetchContents.trace run.2 = FetchContents.trace w ++ calls /\
       (schema_issues (pathParameters event) <> [] -> calls = []) /\
       (exists rest,
          calls ++ rest
          = [FetchContents.RedisGet key;
             FetchContents.GetStrategy platformName;
             FetchContents.FetchContent platformName username
               (FetchContents.since_of event);
             FetchContents.RedisSet key (24 * 60 * 60)]) /\
       (forall op e, In op calls -> FetchContents.fault env op = Some e ->
                     run.1 = JS.Throw e /\ last calls = Some op) /\
       (forall e, run.1 = JS.Throw e ->
                  exists op, last calls = Some op /\ FetchContents.fault env op = Some e).
Proof.
  cbv zeta.
  destruct (schema_issues (pathParameters event)) as [|issue issues] eqn:Hs.
  2:{ rewrite contents_invalid by (rewrite Hs; discriminate). cbn [fst snd]. split.
      - right. rewrite Hs. repeat split. discriminate.
      - exists []. split; [symmetry; apply app_nil_r|]. split; [reflexivity|].
        split; [eexists; reflexivity|]. split; [intros op e []|].
        intros e He. discriminate He. }
  unfold FetchContents.handler. rewrite Hs.
  unfold Eff.bind, FetchContents.redis_get, FetchContents.redis_set, FetchContents.call,
    Eff.ret.
  repeat (cbn [FetchContents.log FetchContents.redis FetchContents.trace
               FetchContents.set_redis fst snd];
          match goal with
          | |- context [FetchContents.fault env ?op] =>
              destruct (FetchContents.fault env op) eqn:?
          | |- context [FetchContents.redis w !! ?k] =>
              destruct (FetchContents.redis w !! k)
          end);
    cbn [FetchContents.log FetchContents.redis FetchContents.trace
         FetchContents.set_redis fst snd FetchContents.statusCode FetchContents.body];
    (split;
     [ first [ split; [reflexivity | eexists; eassumption]
             | left; split; [reflexivity | split; [reflexivity | eexists _, _; reflexivity]] ]
     | eexists; split; [rewrite <- ?app_assoc; cbn [app]; reflexivity|];
       split; [intros Hne; exfalso; apply Hne; reflexivity|];
       split; [eexists; cbn [app]; reflexivity|];
       split;
       [ intros op e' Hin Hf; cbn [In] in Hin;
         repeat match goal with
                | H : _ \/ _ |- _ => destruct H as [<-|H]
                | H : False |- _ => destruct H
                end; first [congruence | split; [congruence | reflexivity]]
       | intros e' He;
         first [ discriminate He
               | injection He as <-; eexists; split; [reflexivity | assumption] ] ] ]).
Qed.

Lemma contents_answers_witness :
  (FetchContents.handler (ExamplesContents.env ExamplesContents.redis_set_down)
     (Examples.request "MEDIUM" "bob" []) ExamplesContents.empty).1
  = JS.Throw (JS.Error "redis unavailable").
Proof.
  destruct (contents_answers (ExamplesContents.env ExamplesContents.redis_set_down)
              (Examples.request "MEDIUM" "bob" []) ExamplesContents.empty)
    as (_ & calls & Htrace & _ & _ & Hthrows & _).
  apply (Hthrows (FetchContents.RedisSet "contents:MEDIUM:bob:all" (24 * 60 * 60))).
  - vm_compute in Htrace. subst calls. cbn. tauto.
  - reflexivity.
Defined.

(** ** Reading again, and what a failed request leaves behind *)

(** X13. A contents request that was answered is answered again from the
    cache alone. On the world the first request left, whatever the platform
    does by then and as long as the cache can be read, a second request for
    the same parameters gets the same response, makes one call (the cache
    read) and writes nothing. *)
Theorem contents_answer_is_cached
  (env env' : FetchContents.Env) (event : Event) (w : FetchContents.World)
  (response : FetchContents.Response) :
  let key := FetchContents.cache_key (path_param event "platformName")
               (path_param event "username") (FetchContents.since_of event) in
  let first := FetchContents.handler env event w in
  let second := FetchContents.handler env' event first.2 in
  schema_issues (pathParameters event) = [] ->
  first.1 = JS.Ok response ->
  FetchContents.fault env' (FetchContents.RedisGet key) = None ->
  second.1 = JS.Ok response /\
  FetchContents.trace second.2 = FetchContents.trace first.2 ++ [FetchContents.RedisGet key] /\
  FetchContents.redis second.2 = FetchContents.redis first.2.
Proof.
  intros key first second Hs Hfirst Hget. subst second first key.
  set (key := FetchContents.cache_key _ _ _) in *.
  destruct (FetchContents.fault env (FetchContents.RedisGet key)) as [e|] eqn:Hg.
  { exfalso. revert Hfirst. unfold FetchContents.handler. rewrite Hs.
    unfold Eff.bind, FetchContents.redis_get, FetchContents.call. cbv zeta.
    fold key. rewrite Hg. discriminate. }
  destruct (FetchContents.redis w !! key) as [cached|] eqn:Hc.
  - rewrite (contents_hit env event w cached Hs Hg Hc) in *. cbn [fst snd] in *.
    fold key.
    rewrite (contents_hit env' event (FetchContents.log (FetchContents.RedisGet key) w)
               cached Hs Hget Hc). cbn [fst snd].
    split; [congruence|]. split; reflexivity.
  - rewrite (contents_miss env event w Hs Hg Hc) in *.
    destruct (FetchContents.fault env (FetchContents.GetStrategy _)); [discriminate|].
    destruct (FetchContents.fault env (FetchContents.FetchContent _ _ _)); [discriminate|].
    destruct (FetchContents.fault env (FetchContents.RedisSet _ _)); [discriminate|].
    cbn [fst snd] in *. fold key.
    match goal with
    | |- context [FetchContents.handler env' event ?w1] =>
        assert (Hc1 : FetchContents.redis w1 !! key
                      = Some {| FetchContents.contents :=
                                  FetchContents.upstreamContent env
                                    (path_param event "platformName")
                                    (path_param event "username")
                                    (FetchContents.since_of event);
                                FetchContents.fetchedAt := FetchContents.clock env |})
          by apply lookup_insert_eq;
        rewrite (contents_hit env' event w1 _ Hs Hget Hc1)
    end.
    cbn [fst snd]. split; [congruence|]. split; reflexivity.
Qed.

Lemma contents_answer_is_cached_witness :
  let env := ExamplesContents.env ExamplesContents.no_fault in
  let env' := ExamplesContents.env ExamplesContents.redis_set_down in
  let event := Examples.request "MEDIUM" "bob" [] in
  let first := FetchContents.handler env event ExamplesContents.empty in
  let second := FetchContents.handler env' event first.2 in
  second.1 = JS.Ok {| FetchContents.statusCode := 200;
                      FetchContents.body :=
                        FetchContents.ContentsBody [ExamplesContents.item "fresh"]
                          {| epochMs := 2000 |} |} /\
  FetchContents.trace second.2
  = FetchContents.trace first.2 ++ [FetchContents.RedisGet "contents:MEDIUM:bob:all"] /\
  FetchContents.redis second.2 = FetchContents.redis first.2.
Proof.
  intros env env' event.
  exact (contents_answer_is_cached env env' event ExamplesContents.empty
           {| FetchContents.statusCode := 200;
              FetchContents.body :=
                FetchContents.ContentsBody [ExamplesContents.item "fresh"]
                  {| epochMs := 2000 |} |} eq_refl eq_refl eq_refl).
Defined.

(** X14. A contents request that is not answered 200 leaves the cache as it
    was: the entry is written as the last step of a request that succeeds. *)
Theorem contents_unanswered_request_leaves_the_cache
  (env : FetchContents.Env) (event : Event) (w : FetchContents.World) :
  let run := FetchContents.handler env event w in
  (forall response, run.1 = JS.Ok response -> FetchContents.statusCode response <> 200) ->
  FetchContents.redis run.2 = FetchContents.redis w.
Proof.
  intros run. subst run.
  destruct (schema_issues (pathParameters event)) as [|issue issues] eqn:Hs.
  2:{ rewrite contents_invalid by (rewrite Hs; discriminate). reflexivity. }
  unfold FetchContents.handler. rewrite Hs.
  unfold Eff.bind, FetchContents.redis_get, FetchContents.redis_set, FetchContents.call,
    Eff.ret.
  repeat (cbn [FetchContents.log FetchContents.redis FetchContents.trace
               FetchContents.set_redis fst snd];
          match goal with
          | |- context [FetchContents.fault env ?op] =>
              destruct (FetchContents.fault env op) eqn:?
          | |- context [FetchContents.redis w !! ?k] =>
              destruct (FetchContents.redis w !! k)
          end);
    cbn [FetchContents.log FetchContents.redis FetchContents.trace
         FetchContents.set_redis fst snd FetchContents.statusCode FetchContents.body];
    intros H; try reflexivity.
  exfalso. now apply (H _ eq_refl).
Qed.

Lemma contents_unanswered_request_leaves_the_cache_witness :
  FetchContents.redis
    (FetchContents.handler (ExamplesContents.env ExamplesContents.redis_set_down)
       (Examples.request "MEDIUM" "bob" []) ExamplesContents.empty).2
  = FetchContents.redis ExamplesContents.empty.
Proof.
  apply (contents_unanswered_request_leaves_the_cache
           (ExamplesContents.env ExamplesContents.redis_set_down)
           (Examples.request "MEDIUM" "bob" []) ExamplesContents.empty).
  intros response H. vm_compute in H. discriminate H.
Defined.

Lemma path_param_same (event event' : Event) (name : string) :
  pathParameters event' = pathParameters event ->
  path_param event' name = path_param event name.
Proof. intros H. unfold path_param. now rewrite H. Qed.

(** X15. After a followings request answered 200, with or without a search
    query, the cache holds the listing of the user; when the cache was cold
    it is the whole listing of the platform, not the search results. A later
    request without a search query, for a user the platform still knows, is
    answered from that entry with three calls: the followings are not
    fetched again and nothing is written. *)
Theorem followings_answer_is_cached
  (env env' : FetchFollowings.Env) (event event' : Event) (w : FetchFollowings.World)
  (response : FetchFollowings.Response) :
  let platformName := path_param event "platformName" in
  let username := path_param event "username" in
  let key := FetchFollowingsSpec.cache_key platformName username in
  let first := FetchFollowings.handler env event w in
  first.1 = JS.Ok response ->
  FetchFollowings.statusCode response = 200 ->
  exists entry,
    FetchFollowings.redis first.2 !! key = Some entry /\
    (FetchFollowings.redis w !! key = None ->
     entry = {| FetchFollowings.followings :=
                  FetchFollowings.upstreamFollowings env platformName username;
                FetchFollowings.fetchedAt := FetchFollowings.clock env |}) /\
    (pathParameters event' = pathParameters event ->
     FetchFollowingsSpec.no_search event' ->
     FetchFollowings.fault env' (FetchFollowings.GetStrategy platformName) = None ->
     FetchFollowings.fault env' (FetchFollowings.IsUserExists platformName username) = None ->
     FetchFollowings.fault env' (FetchFollowings.RedisGet key) = None ->
     FetchFollowings.userExists env' platformName username = true ->
     FetchFollowings.handler env' event' first.2
     = (JS.Ok {| FetchFollowings.statusCode := 200;
                 FetchFollowings.body :=
                   FetchFollowings.FollowingsBody (FetchFollowings.followings entry)
                     (FetchFollowings.fetchedAt entry) |},
        FetchFollowingsSpec.logs
          [FetchFollowings.GetStrategy platformName;
           FetchFollowings.IsUserExists platformName username;
           FetchFollowings.RedisGet key] first.2)).
Proof.
  intros platformName username key first Hfirst H200.
  assert (Hs : schema_issues (pathParameters event) = []).
  { destruct (schema_issues (pathParameters event)) as [|issue issues] eqn:Hs;
      [reflexivity|]. exfalso. subst first.
    rewrite followings_invalid in Hfirst by (rewrite Hs; discriminate).
    injection Hfirst as <-. discriminate H200. }
  assert (Ha : exists entry,
             FetchFollowings.redis first.2 !! key = Some entry /\
             (FetchFollowings.redis w !! key = None ->
              entry = {| FetchFollowings.followings :=
                           FetchFollowings.upstreamFollowings env platformName username;
                         FetchFollowings.fetchedAt := FetchFollowings.clock env |})).
  { revert response Hfirst H200. subst first key platformName username.
    unfold FetchFollowingsSpec.cache_key, FetchFollowings.handler. rewrite Hs.
    unfold Eff.bind, FetchFollowings.call, FetchFollowings.redis_get,
      FetchFollowings.redis_set, Eff.try_catch, FetchFollowings.storeFollowingsForSearch,
      FetchFollowings.index_upsert, FetchFollowings.searchFollowings,
      FetchFollowings.index_search, FetchFollowings.internal_error, Eff.ret,
      FetchFollowings.call.
    unfold Eff.bind. cbv zeta.
    repeat (cbn [FetchFollowings.log FetchFollowings.redis FetchFollowings.index
                 FetchFollowings.trace FetchFollowings.set_redis
                 FetchFollowings.upsert_all negb fst snd];
            match goal with
            | |- context [FetchFollowings.fault env ?op] =>
                destruct (FetchFollowings.fault env op)
            | |- context [FetchFollowings.userExists env ?a ?b] =>
                destruct (FetchFollowings.userExists env a b)
            | |- context [FetchFollowings.searchQuery_of ?e] =>
                destruct (FetchFollowings.searchQuery_of e) as [[|? ?]|]
            | |- context [FetchFollowings.redis w !! ?k] =>
                destruct (FetchFollowings.redis w !! k) eqn:?
            | |- context [(0 <? ?n)%nat || truthy_Date ?d] =>
                unfold truthy_Date; rewrite (orb_true_r (0 <? n)%nat)
            end);
      cbn [FetchFollowings.log FetchFollowings.redis FetchFollowings.index
           FetchFollowings.trace FetchFollowings.set_redis FetchFollowings.upsert_all
           negb fst snd];
      intros response Hr H2;
      first [ discriminate Hr
            | injection Hr as <-; cbn in H2; discriminate H2
            | congruence
            | eexists; split;
              [ first [reflexivity | apply lookup_insert_eq]
              | intros H; first [discriminate H | reflexivity] ] ]. }
  destruct Ha as (entry & Hentry & Hfresh). exists entry.
  split; [exact Hentry|]. split; [exact Hfresh|].
  intros Hpp Hq Hf1 Hf2 Hf3 Hex.
  pose proof (followings_plain env' event' first.2) as Hpl. cbv zeta in Hpl.
  rewrite !(path_param_same event event' _ Hpp), Hpp in Hpl.
  fold platformName username key in Hpl.
  rewrite (Hpl Hs Hq Hf1 Hf2 Hf3), Hex, Hentry. reflexivity.
Qed.

Lemma followings_answer_is_cached_witness :
  let env := ExamplesFollowings.env ExamplesFollowings.no_fault true in
  let first :=
    FetchFollowings.handler env (ExamplesFollowings.alice [("search", "bo")])
      ExamplesFollowings.empty in
  exists entry,
    FetchFollowings.redis first.2 !! "followings:MEDIUM:alice" = Some entry /\
    FetchFollowings.followings entry = [ExamplesFollowings.bob] /\
    (FetchFollowings.handler (ExamplesFollowings.env ExamplesFollowings.redis_set_down true)
       (ExamplesFollowings.alice []) first.2).1
    = JS.Ok {| FetchFollowings.statusCode := 200;
               FetchFollowings.body :=
                 FetchFollowings.FollowingsBody (FetchFollowings.followings entry)
                   (FetchFollowings.fetchedAt entry) |}.
Proof.
  intros env first.
  destruct (followings_answer_is_cached env
              (ExamplesFollowings.env ExamplesFollowings.redis_set_down true)
              (ExamplesFollowings.alice [("search", "bo")]) (ExamplesFollowings.alice [])
              ExamplesFollowings.empty
              {| FetchFollowings.statusCode := 200;
                 FetchFollowings.body :=
                   FetchFollowings.FollowingsBody [ExamplesFollowings.bob]
                     {| epochMs := 2000 |} |} eq_refl eq_refl)
    as (entry & Hentry & Hfresh & Hsecond).
  exists entry. split; [exact Hentry|]. split.
  - rewrite Hfresh; reflexivity.
  - assert (Hno : FetchFollowingsSpec.no_search (ExamplesFollowings.alice [])).
    { intros q Hq. vm_compute in Hq. congruence. }
    exact (f_equal fst (Hsecond eq_refl Hno eq_refl eq_refl eq_refl eq_refl)).
Defined.

(** X16. While the platform cannot be asked for the followings of a user, a
    request writes neither the cache nor the index, and it is answered 200
    only when the listing of the user is cached. *)
Theorem followings_failed_fetch_writes_nothing
  (env : FetchFollowings.Env) (event : Event) (w : FetchFollowings.World) (e : JS.exn) :
  let platformName := path_param event "platformName" in
  let username := path_param event "username" in
  let key := FetchFollowingsSpec.cache_key platformName username in
  let run := FetchFollowings.handler env event w in
  FetchFollowings.fault env (FetchFollowings.GetFollowings platformName username) = Some e ->
  FetchFollowings.redis run.2 = FetchFollowings.redis w /\
  FetchFollowings.index run.2 = FetchFollowings.index w /\
  (forall response,
     run.1 = JS.Ok response -> FetchFollowings.statusCode response = 200 ->
     exists cached, FetchFollowings.redis w !! key = Some cached).
Proof.
  intros platformName username key run Hf. subst run key platformName username.
  destruct (schema_issues (pathParameters event)) as [|issue issues] eqn:Hs.
  2:{ rewrite followings_invalid by (rewrite Hs; discriminate). cbn [fst snd].
      split; [reflexivity|]. split; [reflexivity|].
      intros response Hr H2. injection Hr as <-. discriminate H2. }
  unfold FetchFollowingsSpec.cache_key, FetchFollowings.handler. rewrite Hs.
  unfold Eff.bind, FetchFollowings.call, FetchFollowings.redis_get,
    FetchFollowings.redis_set, Eff.try_catch, FetchFollowings.storeFollowingsForSearch,
    FetchFollowings.index_upsert, FetchFollowings.searchFollowings,
    FetchFollowings.index_search, FetchFollowings.internal_error, Eff.ret,
    FetchFollowings.call.
  unfold Eff.bind. cbv zeta. rewrite !Hf.
  repeat (cbn [FetchFollowings.log FetchFollowings.redis FetchFollowings.index
               FetchFollowings.trace FetchFollowings.set_redis
               FetchFollowings.upsert_all negb fst snd];
          match goal with
          | |- context [FetchFollowings.fault env ?op] =>
              destruct (FetchFollowings.fault env op)
          | |- context [FetchFollowings.userExists env ?a ?b] =>
              destruct (FetchFollowings.userExists env a b)
          | |- context [FetchFollowings.searchQuery_of ?e] =>
              destruct (FetchFollowings.searchQuery_of e) as [[|? ?]|]
          | |- context [FetchFollowings.redis w !! ?k] =>
              destruct (FetchFollowings.redis w !! k) eqn:?
          | |- context [(0 <? ?n)%nat || truthy_Date ?d] =>
              unfold truthy_Date; rewrite (orb_true_r (0 <? n)%nat)
          end);
    cbn [FetchFollowings.log FetchFollowings.redis FetchFollowings.index
         FetchFollowings.trace FetchFollowings.set_redis FetchFollowings.upsert_all
         negb fst snd];
    (split; [reflexivity|]); (split; [reflexivity|]);
    intros response Hr H2;
    first [ discriminate Hr
          | injection Hr as <-; cbn in H2; discriminate H2
          | eexists; reflexivity
          | eexists; eassumption ].
Qed.

Lemma followings_failed_fetch_writes_nothing_witness :
  let env :=
    ExamplesFollowings.env ExamplesMore.followings_down true in
  let run := FetchFollowings.handler env (ExamplesFollowings.alice [])
               ExamplesFollowings.empty in
  FetchFollowings.redis run.2 = ∅ /\ FetchFollowings.index run.2 = ∅.
Proof.
  intros env run.
  destruct (followings_failed_fetch_writes_nothing env (ExamplesFollowings.alice [])
              ExamplesFollowings.empty (JS.Error "blocked") eq_refl)
    as (Hredis & Hindex & _).
  split; [exact Hredis | exact Hindex].
Defined.

(** X17. A failed index write strands the search. When the upsert into the
    index throws, the request is answered 500 while the listing is already
    cached and the index is as before; a later search request for the user
    then hits the cache and is answered 200 with what the old index holds,
    and the documents are not upserted again. *)
Theorem failed_index_write_strands_the_search
  (env env' : FetchFollowings.Env) (event event' : Event) (w : FetchFollowings.World)
  (e : JS.exn) (searchQuery : string) :
  let platformName := path_param event "platformName" in
  let username := path_param event "username" in
  let key := FetchFollowingsSpec.cache_key platformName username in
  let entry := FetchFollowingsSpec.fresh_entry env platformName username in
  let docs := FetchFollowingsSpec.fresh_documents env platformName username in
  let first := FetchFollowings.handler env event w in
  let second := FetchFollowings.handler env' event' first.2 in
  schema_issues (pathParameters event) = [] ->
  FetchFollowings.userExists env platformName username = true ->
  FetchFollowings.redis w !! key = None ->
  FetchFollowings.fault env (FetchFollowings.GetStrategy platformName) = None ->
  FetchFollowings.fault env (FetchFollowings.IsUserExists platformName username) = None ->
  FetchFollowings.fault env (FetchFollowings.RedisGet key) = None ->
  FetchFollowings.fault env (FetchFollowings.GetFollowings platformName username) = None ->
  FetchFollowings.fault env (FetchFollowings.RedisSet key (24 * 60 * 60)) = None ->
  FetchFollowings.fault env (FetchFollowings.IndexUpsert (map fst docs)) = Some e ->
  pathParameters event' = pathParameters event ->
  FetchFollowings.searchQuery_of event' = Some searchQuery -> searchQuery <> "" ->
  FetchFollowings.userExists env' platformName username = true ->
  (forall op, FetchFollowings.fault env' op = None) ->
  first.1 = JS.Ok {| FetchFollowings.statusCode := 500;
                     FetchFollowings.body :=
                       FetchFollowings.InternalError (JS.message_of e) |} /\
  FetchFollowings.redis first.2 = <[key := entry]> (FetchFollowings.redis w) /\
  FetchFollowings.index first.2 = FetchFollowings.index w /\
  second.1 = JS.Ok {| FetchFollowings.statusCode := 200;
                      FetchFollowings.body :=
                        FetchFollowings.FollowingsBody
                          (map FetchFollowings.user_of_document
                             (FetchFollowingsSpec.search_results env'
                                (FetchFollowings.index w)
                                platformName username searchQuery))
                          (FetchFollowings.clock env) |} /\
  FetchFollowings.index second.2 = FetchFollowings.index w /\
  FetchFollowings.trace second.2
  = FetchFollowings.trace first.2
    ++ [FetchFollowings.GetStrategy platformName;
        FetchFollowings.IsUserExists platformName username;
        FetchFollowings.RedisGet key;
        FetchFollowingsSpec.search_op platformName username searchQuery].
Proof.
  intros platformName username key entry docs first second
    Hs Hex Hmiss Hf1 Hf2 Hf3 Hf4 Hf5 Hup Hpp Hq Hne Hex' Hok'.
  assert (Hfirst : exists w1,
             first = (JS.Ok (FetchFollowingsSpec.internal e), w1) /\
             FetchFollowings.redis w1 = <[key := entry]> (FetchFollowings.redis w) /\
             FetchFollowings.index w1 = FetchFollowings.index w).
  { subst first.
    destruct (FetchFollowings.searchQuery_of event) as [[|c r]|] eqn:Hq0.
    1,3: rewrite (followings_plain env event w Hs) by
           (try (intros q Hq1; congruence); assumption);
         fold platformName username key; rewrite Hex, Hmiss;
         rewrite followings_refetch; fold docs entry;
         rewrite Hf4, Hf5, Hup;
         eexists; split; [reflexivity | split; reflexivity].
    rewrite (followings_search env event w (String c r) Hs Hq0) by discriminate.
    fold platformName username key. rewrite Hf1, Hf2, Hf3, Hex.
    change (FetchFollowings.redis w !! key) with (FetchFollowings.redis w !! key).
    rewrite Hmiss. rewrite followings_refetch_search. fold docs entry.
    rewrite Hf4, Hf5, Hup.
    eexists; split; [reflexivity | split; reflexivity]. }
  destruct Hfirst as (w1 & Hfirst & Hredis & Hindex).
  assert (Hs' : schema_issues (pathParameters event') = []) by now rewrite Hpp.
  pose proof (followings_search env' event' first.2 searchQuery Hs' Hq Hne) as Hsecond.
  cbv zeta in Hsecond. rewrite !(path_param_same event event' _ Hpp) in Hsecond.
  fold platformName username key in Hsecond. rewrite !Hok', Hex' in Hsecond.
  fold second in Hsecond. rewrite Hfirst in *. cbn [fst snd] in *.
  rewrite Hredis, lookup_insert_eq in Hsecond. rewrite Hsecond. cbn [fst snd].
  split; [reflexivity|]. split; [exact Hredis|]. split; [exact Hindex|].
  rewrite Hindex. split; [reflexivity|]. split; [exact Hindex|].
  cbn. rewrite <- !app_assoc. reflexivity.
Qed.

Lemma failed_index_write_strands_the_search_witness :
  let env := ExamplesFollowings.env ExamplesFollowings.upsert_down true in
  let env' := ExamplesFollowings.env ExamplesFollowings.no_fault true in
  let first := FetchFollowings.handler env (ExamplesFollowings.alice [])
                 ExamplesFollowings.empty in
  let second := FetchFollowings.handler env' (ExamplesFollowings.alice [("search", "bob")])
                  first.2 in
  first.1 = JS.Ok {| FetchFollowings.statusCode := 500;
                     FetchFollowings.body :=
                       FetchFollowings.InternalError "search unavailable" |} /\
  second.1 = JS.Ok {| FetchFollowings.statusCode := 200;
                      FetchFollowings.body :=
                        FetchFollowings.FollowingsBody [] {| epochMs := 2000 |} |}.
Proof.
  intros env env' first second.
  destruct (failed_index_write_strands_the_search env env'
              (ExamplesFollowings.alice []) (ExamplesFollowings.alice [("search", "bob")])
              ExamplesFollowings.empty (JS.Error "search unavailable") "bob"
              eq_refl eq_refl eq_refl eq_refl eq_refl eq_refl eq_refl eq_refl eq_refl
              eq_refl eq_refl ltac:(discriminate) eq_refl (fun _ => eq_refl))
    as (Hfirst & _ & _ & Hsecond & _).
  split; [exact Hfirst | exact Hsecond].
Defined.

(** ** The search index *)
Section SearchIndex.
Import JS Eff FetchFollowings FetchFollowingsSpec.

(** Upserted documents with distinct ids are all in the index. *)
Lemma lookup_foldl_upsert_In {V} (docs : list (string * V)) (m : gmap string V)
  (id : string) (d : V) :
  NoDup (map fst docs) -> In (id, d) docs ->
  foldl (fun m d => <[d.1 := d.2]> m) m docs !! id = Some d.
Proof.
  revert m. induction docs as [|[k v] docs IH]; intros m Hnd Hin; [destruct Hin|].
  cbn [map fst] in Hnd. apply NoDup_cons in Hnd as [Hk Hnd].
  cbn [foldl fst snd]. destruct Hin as [E|Hin].
  - injection E as -> ->. rewrite lookup_foldl_upsert by assumption.
    apply lookup_insert_eq.
  - now apply IH.
Qed.

Lemma size_foldl_upsert {V} (docs : list (string * V)) (m : gmap string V) :
  (size (foldl (fun m d => <[d.1 := d.2]> m) m docs) <= size m + length docs)%nat.
Proof.
  revert m. induction docs as [|[k v] docs IH]; intros m; cbn [foldl length fst snd];
    [lia|].
  specialize (IH (<[k := v]> m)). rewrite map_size_insert in IH.
  destruct (m !! k); unfold id in IH; lia.
Qed.

Lemma document_ids_NoDup (platformName username : string) (followings : list FollowingUser) :
  NoDup (map FetchFollowings.username followings) ->
  NoDup (map fst (map (document_of platformName username) followings)).
Proof.
  intros Hnd. rewrite map_map. cbn [document_of fst].
  change (map (fun x => platformName +:+ ":" +:+ username +:+ ":" +:+ FetchFollowings.username x)
            followings)
    with (map (fun x => (fun s => platformName +:+ ":" +:+ username +:+ ":" +:+ s)
                          (FetchFollowings.username x)) followings).
  rewrite <- (map_map FetchFollowings.username
                (fun s => platformName +:+ ":" +:+ username +:+ ":" +:+ s)).
  apply NoDup_fmap_2; [|exact Hnd].
  intros a b E. repeat apply String.app_inj in E. exact E.
Qed.

Lemma user_of_document_of (platformName username : string) (following : FollowingUser) :
  profilePictureUrl following <> Some "" ->
  user_of_document (document_of platformName username following).2 = following.
Proof.
  intros Hp. destruct following as [fn un url [[|c pic]|]];
    first [reflexivity | exfalso; apply Hp; reflexivity].
Qed.

End SearchIndex.

(** X18. Storing then searching finds what was stored. With distinct
    usernames and room under the limit of 1000 results, every stored
    following whose document the search service finds relevant to the query
    is among the results, read back from its document; it is the same
    record unless its picture URL is the empty string. *)
Theorem stored_followings_are_found
  (env : FetchFollowings.Env) (platformName username searchQuery : string)
  (followings : list FetchFollowings.FollowingUser)
  (following : FetchFollowings.FollowingUser) (w : FetchFollowings.World) :
  let documents := map (FetchFollowings.document_of platformName username) followings in
  let stored :=
    FetchFollowings.storeFollowingsForSearch env platformName username followings w in
  let found :=
    FetchFollowings.searchFollowings env platformName username searchQuery stored.2 in
  FetchFollowings.fault env (FetchFollowings.IndexUpsert (map fst documents)) = None ->
  FetchFollowings.fault env
    (FetchFollowingsSpec.search_op platformName username searchQuery) = None ->
  NoDup (map FetchFollowings.username followings) ->
  (size (FetchFollowings.index w) + length followings <= 1000)%nat ->
  In following followings ->
  FetchFollowings.relevant env searchQuery
    (FetchFollowings.document_of platformName username following).2 = true ->
  exists results,
    found.1 = JS.Ok results /\
    In (FetchFollowings.user_of_document
          (FetchFollowings.document_of platformName username following).2) results /\
    (FetchFollowings.profilePictureUrl following <> Some "" -> In following results).
Proof.
  intros documents stored found Hup Hsearch Hnd Hsize Hin Hrel.
  assert (Hstored : stored
                    = (JS.Ok tt,
                       FetchFollowings.upsert_all documents
                         (FetchFollowings.log
                            (FetchFollowings.IndexUpsert (map fst documents)) w))).
  { subst stored. unfold FetchFollowings.storeFollowingsForSearch,
      FetchFollowings.index_upsert, FetchFollowings.call.
    fold documents. now rewrite Hup. }
  subst found. rewrite Hstored. cbn [snd]. rewrite searchFollowings_run, Hsearch.
  cbn [fst FetchFollowings.index FetchFollowings.upsert_all FetchFollowings.log].
  set (idx := foldl _ _ documents).
  set (doc := (FetchFollowings.document_of platformName username following).2).
  assert (Hdoc : In doc (FetchFollowingsSpec.search_results env idx platformName username
                           searchQuery)).
  { unfold FetchFollowingsSpec.search_results. rewrite take_ge.
    - apply filter_In. split.
      + apply in_map_iff.
        exists (FetchFollowings.document_of platformName username following).
        split; [reflexivity|]. apply list_elem_of_In, elem_of_map_to_list.
        subst idx.
        apply lookup_foldl_upsert_In; [now apply document_ids_NoDup|].
        change (In (FetchFollowings.document_of platformName username following) documents).
        now apply in_map.
      + apply andb_true_iff. split; [|exact Hrel].
        unfold FetchFollowings.searchFilter.
        cbn [FetchFollowings.eval_filter forallb].
        change (FetchFollowings.field_of doc "platformName") with (Some platformName).
        change (FetchFollowings.field_of doc "parentUsername") with (Some username).
        now rewrite !bool_decide_eq_true_2.
    - etransitivity; [apply filter_length_le|].
      rewrite length_map, length_map_to_list. subst idx.
      etransitivity; [apply size_foldl_upsert|]. subst documents.
      rewrite length_map. cbn [FetchFollowings.index]. exact Hsize. }
  eexists. split; [reflexivity|]. split.
  - now apply in_map.
  - intros Hp. rewrite <- (user_of_document_of platformName username following Hp).
    now apply in_map.
Qed.

Lemma stored_followings_are_found_witness :
  exists results,
    (FetchFollowings.searchFollowings
       (ExamplesFollowings.env ExamplesFollowings.no_fault true) "MEDIUM" "alice" "bo"
       (FetchFollowings.storeFollowingsForSearch
          (ExamplesFollowings.env ExamplesFollowings.no_fault true) "MEDIUM" "alice"
          [ExamplesFollowings.bob; ExamplesFollowings.dave] ExamplesFollowings.warm).2).1
    = JS.Ok results /\
    In ExamplesFollowings.bob results.
Proof.
  destruct (stored_followings_are_found
              (ExamplesFollowings.env ExamplesFollowings.no_fault true)
              "MEDIUM" "alice" "bo" [ExamplesFollowings.bob; ExamplesFollowings.dave]
              ExamplesFollowings.bob ExamplesFollowings.warm)
    as (results & Hfound & _ & Hin); try reflexivity.
  - apply (bool_decide_unpack _). vm_compute. exact I.
  - vm_compute. lia.
  - now left.
  - exists results. split; [exact Hfound | apply Hin; discriminate].
Defined.

(** ** The batch run: failures and accounting *)
Section UnknownZone.
Import JS Eff SendEmails SendEmailsSpec.
Variable env : Env.

Lemma due_or_skip_unknown_zone (pref : Pref.t) (w : World) :
  Intl.localTime (host env) (Pref.timezone pref) (now env) = None ->
  due_or_skip env pref w
  = (Throw (Error ("Invalid time zone specified: " +:+ Pref.timezone pref)), w).
Proof.
  intros Hc. unfold due_or_skip, bind, lift, Schedule.shouldSendNewsletter,
    Schedule.getCurrentHourInTimezone, Intl.resolve.
  rewrite Hc. reflexivity.
Qed.

Lemma filter_stage_unknown_zone (prefs : list Pref.t) (w : World) :
  Exists (fun pref => Intl.localTime (host env) (Pref.timezone pref) (now env) = None)
    prefs ->
  exists before pref after w',
    prefs = before ++ pref :: after /\
    Forall (resolves env) before /\
    Intl.localTime (host env) (Pref.timezone pref) (now env) = None /\
    filterM (due_or_skip env) prefs w
    = (Throw (Error ("Invalid time zone specified: " +:+ Pref.timezone pref)), w') /\
    outbox w' = outbox w /\ tracked w' = tracked w /\
    email_analytics w' = email_analytics w.
Proof.
  revert w. induction prefs as [|pref prefs IH]; intros w Hex.
  - inversion Hex.
  - destruct (Intl.localTime (host env) (Pref.timezone pref) (now env)) as [c|] eqn:Hc.
    + assert (Hrest : Exists
                (fun pref => Intl.localTime (host env) (Pref.timezone pref) (now env) = None)
                prefs).
      { inversion Hex as [? ? H|? ? H]; subst; [congruence | exact H]. }
      destruct (IH (set_analyticsData
                      (fun l => l ++ if due env pref then [] else [skipped_record env pref])
                      w) Hrest)
        as (before & bad & after & w' & Hsplit & Hbefore & Hbad & Hrun & Ho & Ht & He).
      exists (pref :: before), bad, after, w'.
      split; [rewrite Hsplit; reflexivity|].
      split; [constructor; [unfold resolves; rewrite Hc; now exists c | exact Hbefore]|].
      split; [exact Hbad|].
      cbn [filterM]. unfold bind at 1.
      rewrite (due_or_skip_run env pref w) by (now exists c).
      unfold bind at 1. rewrite Hrun. repeat split; assumption.
    + exists [], pref, prefs, w. split; [reflexivity|]. split; [constructor|].
      split; [exact Hc|].
      cbn [filterM]. unfold bind at 1. rewrite (due_or_skip_unknown_zone pref w Hc).
      repeat split.
Qed.

End UnknownZone.

(** X19. One preference with a time zone the runtime does not know aborts
    the whole batch: the handler throws the [RangeError] of the first such
    preference of the table, nothing is sent and nothing is tracked, also
    for the preferences that come before it. *)
Theorem unknown_time_zone_aborts_the_batch (env : SendEmails.Env) (w : SendEmails.World) :
  SendEmails.select_error env = None ->
  Exists (fun pref => Intl.localTime (SendEmails.host env) (SendEmails.Pref.timezone pref)
                        (SendEmails.now env) = None)
    (SendEmailsSpec.enabled env) ->
  let run := SendEmails.handler env w in
  exists before pref after,
    SendEmailsSpec.enabled env = before ++ pref :: after /\
    Forall (SendEmailsSpec.resolves env) before /\
    Intl.localTime (SendEmails.host env) (SendEmails.Pref.timezone pref)
      (SendEmails.now env) = None /\
    run.1 = JS.Throw (JS.Error ("Invalid time zone specified: "
                                +:+ SendEmails.Pref.timezone pref)) /\
    SendEmails.outbox run.2 = SendEmails.outbox w /\
    SendEmails.tracked run.2 = SendEmails.tracked w /\
    SendEmails.email_analytics run.2 = SendEmails.email_analytics w.
Proof.
  intros Hsel Hex run. subst run.
  destruct (filter_stage_unknown_zone env (SendEmailsSpec.enabled env)
              (SendEmails.set_analyticsData (fun _ => []) w) Hex)
    as (before & bad & after & w' & Hsplit & Hbefore & Hbad & Hrun & Ho & Ht & He).
  assert (Hhandler : SendEmails.handler env w
                     = (JS.Throw (JS.Error ("Invalid time zone specified: "
                                            +:+ SendEmails.Pref.timezone bad)), w')).
  { unfold SendEmails.handler, SendEmails.select_enabled. rewrite Hsel.
    fold (SendEmailsSpec.enabled env).
    destruct (SendEmailsSpec.enabled env) as [|p0 ps] eqn:Hen; [inversion Hex|].
    unfold Eff.bind at 1. unfold Eff.modify. unfold Eff.bind at 1.
    now rewrite Hrun. }
  exists before, bad, after. rewrite Hhandler. cbn [fst snd].
  split; [exact Hsplit|]. split; [exact Hbefore|]. split; [exact Hbad|].
  split; [reflexivity|]. split; [exact Ho|]. split; [exact Ht | exact He].
Qed.

Lemma unknown_time_zone_aborts_the_batch_witness :
  let run := SendEmails.handler ExamplesMore.stuck ExamplesBatch.start in
  exists before pref after,
    SendEmailsSpec.enabled ExamplesMore.stuck = before ++ pref :: after /\
    Forall (SendEmailsSpec.resolves ExamplesMore.stuck) before /\
    Intl.localTime (SendEmails.host ExamplesMore.stuck) (SendEmails.Pref.timezone pref)
      (SendEmails.now ExamplesMore.stuck) = None /\
    run.1 = JS.Throw (JS.Error ("Invalid time zone specified: "
                                +:+ SendEmails.Pref.timezone pref)) /\
    SendEmails.outbox run.2 = [] /\
    SendEmails.tracked run.2 = [] /\
    SendEmails.email_analytics run.2 = [].
Proof.
  apply (unknown_time_zone_aborts_the_batch ExamplesMore.stuck ExamplesBatch.start).
  - reflexivity.
  - apply Exists_cons_tl, Exists_cons_hd. reflexivity.
Defined.

Section Tracking.
Import JS Eff SendEmails.

Lemma same_delivery_refl {A} (run : Res A * World) : Delivery.same_delivery run run.
Proof. repeat split. Qed.

Lemma same_delivery_bind {A B} (m : M World A) (k k' : A -> M World B) (w : World) :
  (forall a w1, Delivery.same_delivery (k a w1) (k' a w1)) ->
  Delivery.same_delivery (bind m k w) (bind m k' w).
Proof.
  intros H. unfold bind. destruct (m w) as [[a|e] w1]; [apply H | apply same_delivery_refl].
Qed.

End Tracking.

(** X20. The outcome of the analytics insert never reaches the recipients or
    the caller: with any other behaviour of the insert the handler returns
    the same response, hands the same commands to the mail service and the
    same batch to the tracker. *)
Theorem tracking_never_affects_delivery
  (env : SendEmails.Env) (insert : list SendEmails.Analytics.t -> SendEmails.InsertOutcome)
  (w : SendEmails.World) :
  let run := SendEmails.handler env w in
  let run' := SendEmails.handler (Delivery.with_insert insert env) w in
  run'.1 = run.1 /\
  SendEmails.outbox run'.2 = SendEmails.outbox run.2 /\
  SendEmails.analyticsData run'.2 = SendEmails.analyticsData run.2 /\
  SendEmails.tracked run'.2 = SendEmails.tracked run.2.
Proof.
  intros run run'. subst run run'.
  change (Delivery.same_delivery (SendEmails.handler env w)
            (SendEmails.handler (Delivery.with_insert insert env) w)).
  unfold SendEmails.handler.
  change (SendEmails.select_enabled (Delivery.with_insert insert env))
    with (SendEmails.select_enabled env).
  destruct (SendEmails.select_enabled env) as [newsletterPreferences [error|]];
    [apply same_delivery_refl|].
  destruct newsletterPreferences as [[|p ps]|]; try apply same_delivery_refl.
  change (SendEmails.due_or_skip (Delivery.with_insert insert env))
    with (SendEmails.due_or_skip env).
  change (SendEmails.fetch_user (Delivery.with_insert insert env))
    with (SendEmails.fetch_user env).
  change (SendEmails.send_one (Delivery.with_insert insert env))
    with (SendEmails.send_one env).
  apply same_delivery_bind. intros _ w0.
  apply same_delivery_bind. intros preferencesToSend w1.
  destruct (length preferencesToSend =? 0)%nat; [apply same_delivery_refl|].
  apply same_delivery_bind. intros usersWithContents w2.
  destruct (length (Eff.fulfilled_values usersWithContents) =? 0)%nat;
    [apply same_delivery_refl|].
  apply same_delivery_bind. intros sendResults w3.
  destruct (foldl SendEmails.tally (0%nat, []) sendResults) as [successCount errors].
  apply same_delivery_bind. intros analyticsData w4.
  unfold Eff.bind, SendEmails.trackBatchEmailAnalytics, Eff.ret.
  destruct (0 <? length analyticsData)%nat; repeat split.
Qed.

Section Outbox.
Import JS Eff SendEmails SendEmailsSpec.
Variable env : Env.

Lemma commands_from (items : list (string * list FollowingContent.t)) (m : SendEmailCommand) :
  In m (concat (map (commands_of env) items)) ->
  exists item, In item items /\ ToAddresses m = [item.1] /\ Source m = SES_FROM_EMAIL env.
Proof.
  induction items as [|item items IH]; cbn [map concat]; [intros []|].
  intros Hin. apply in_app_or in Hin as [Hin|Hin].
  - exists item. split; [now left|]. unfold commands_of in Hin.
    destruct (renderNewsletterEmail env item.1 item.2); [|destruct Hin].
    destruct Hin as [<-|[]]. split; reflexivity.
  - destruct (IH Hin) as (item' & Hin' & H). exists item'. split; [now right | exact H].
Qed.

Lemma commands_NoDup (items : list (string * list FollowingContent.t)) :
  NoDup (map fst items) ->
  NoDup (map ToAddresses (concat (map (commands_of env) items))).
Proof.
  induction items as [|item items IH]; cbn [map concat]; [constructor|].
  intros Hnd. apply NoDup_cons in Hnd as [Hnew Hnd]. rewrite map_app.
  apply NoDup_app. split; [|split; [|now apply IH]].
  - unfold commands_of. destruct (renderNewsletterEmail env item.1 item.2);
      [apply NoDup_singleton | constructor].
  - intros to Hto Hto'. apply Hnew.
    apply list_elem_of_In, in_map_iff in Hto' as (m & <- & Hm).
    apply commands_from in Hm as (item' & Hin' & Hto' & _).
    unfold commands_of in Hto. destruct (renderNewsletterEmail env item.1 item.2);
      [|now apply elem_of_nil in Hto].
    apply list_elem_of_singleton in Hto. cbn in Hto. rewrite Hto' in Hto.
    injection Hto as Hto. rewrite <- Hto. apply list_elem_of_In, in_map. exact Hin'.
Qed.

Lemma sum_list_append (l k : list nat) : sum_list (l ++ k) = (sum_list l + sum_list k)%nat.
Proof. induction l as [|x l IH]; cbn [app sum_list]; [reflexivity | lia]. Qed.

Lemma sum_group_sizes_set (m : list (string * list Pref.t)) (k : string) (v : list Pref.t) :
  (sum_list (map (fun entry => length entry.2) (map_set m k v))
   + length (default [] (map_get m k))
   = sum_list (map (fun entry => length entry.2) m) + length v)%nat.
Proof.
  induction m as [|[k0 v0] m IH]; cbn [map_set map_get map sum_list].
  - cbn. lia.
  - destruct (bool_decide (k0 = k)); cbn [map sum_list snd default from_option].
    + unfold id. lia.
    + lia.
Qed.

Lemma sum_group_sizes (prefs : list Pref.t) :
  sum_list (map (fun entry => length entry.2) (groupByEmail prefs)) = length prefs.
Proof.
  induction prefs as [|pref prefs IH] using rev_ind; [reflexivity|].
  rewrite groupByEmail_snoc, length_app. cbn [length].
  pose proof (sum_group_sizes_set (groupByEmail prefs) (Pref.email pref)
                (default [] (map_get (groupByEmail prefs) (Pref.email pref)) ++ [pref]))
    as H.
  rewrite length_app in H. cbn [length] in H. lia.
Qed.

Lemma outcomes_followings :
  sum_list (map Analytics.followings_count (outcomes env)) = length (duePreferences env).
Proof.
  rewrite <- sum_group_sizes. unfold outcomes, emailData. rewrite !map_map.
  f_equal. apply map_ext. intros [email g]. unfold outcome_of, digest_of. cbn [fst snd].
  destruct (delivery env _); cbn [outcome_record Analytics.followings_count];
    apply length_map.
Qed.

Lemma skipped_followings :
  sum_list (map Analytics.followings_count (skippedRecords env)) = 0%nat.
Proof.
  unfold skippedRecords.
  induction (List.filter (rejected env) (enabled env)) as [|p l IH]; [reflexivity|].
  cbn [map sum_list]. rewrite IH. reflexivity.
Qed.

End Outbox.

(** X21. A run sends at most one message per address, each from
    [SES_FROM_EMAIL], and only to an address with an enabled preference
    that is due. *)
Theorem one_message_per_due_recipient (env : SendEmails.Env) (w : SendEmails.World) :
  SendEmails.select_error env = None ->
  Forall (SendEmailsSpec.resolves env) (SendEmailsSpec.enabled env) ->
  exists messages,
    SendEmails.outbox (SendEmails.handler env w).2 = SendEmails.outbox w ++ messages /\
    NoDup (map SendEmails.ToAddresses messages) /\
    forall m, In m messages ->
      SendEmails.Source m = SendEmails.SES_FROM_EMAIL env /\
      exists pref,
        In pref (SendEmailsSpec.enabled env) /\
        SendEmailsSpec.due env pref = true /\
        SendEmails.ToAddresses m = [SendEmails.Pref.email pref].
Proof.
  intros Hsel Hres.
  destruct (SendEmailsSpec.enabled env) as [|p0 ps] eqn:Hen.
  { exists []. split; [|split; [constructor | intros m []]].
    unfold SendEmails.handler, SendEmails.select_enabled. rewrite Hsel.
    fold (SendEmailsSpec.enabled env). rewrite Hen. cbn. now rewrite app_nil_r. }
  rewrite <- Hen in *.
  rewrite (handler_run env w Hsel) by (try assumption; rewrite Hen; discriminate).
  destruct (SendEmailsSpec.duePreferences env) as [|d ds] eqn:Hdue.
  { exists []. split; [cbn; now rewrite app_nil_r|].
    split; [constructor | intros m []]. }
  clear Hdue.
  exists (concat (map (SendEmailsSpec.commands_of env) (SendEmailsSpec.emailData env))).
  split; [reflexivity|]. split.
  - apply commands_NoDup. rewrite emailData_keys. apply groupByEmail_spec.
  - intros m Hm. apply commands_from in Hm as (item & Hin & Hto & Hsrc).
    split; [exact Hsrc|].
    assert (Hkey : In item.1 (map fst (SendEmailsSpec.emailData env)))
      by now apply in_map.
    rewrite emailData_keys in Hkey. apply groupByEmail_keys in Hkey as (pref & Hp & He).
    apply filter_In in Hp as [Hp Hd]. exists pref.
    split; [exact Hp|]. split; [exact Hd|]. now rewrite He.
Qed.

Lemma one_message_per_due_recipient_witness :
  exists messages,
    SendEmails.outbox (SendEmails.handler ExamplesBatch.busy ExamplesBatch.start).2
    = SendEmails.outbox ExamplesBatch.start ++ messages /\
    NoDup (map SendEmails.ToAddresses messages) /\
    forall m, In m messages ->
      SendEmails.Source m = SendEmails.SES_FROM_EMAIL ExamplesBatch.busy /\
      exists pref,
        In pref (SendEmailsSpec.enabled ExamplesBatch.busy) /\
        SendEmailsSpec.due ExamplesBatch.busy pref = true /\
        SendEmails.ToAddresses m = [SendEmails.Pref.email pref].
Proof.
  apply (one_message_per_due_recipient ExamplesBatch.busy ExamplesBatch.start).
  - reflexivity.
  - repeat constructor; eexists; reflexivity.
Defined.

(** X22. In a run whose preference query succeeds, whose enabled
    preferences all name a time zone the runtime knows and which has a due
    preference, every enabled preference is accounted for once in the
    tracked batch: the [followings_count] of its records add up to the
    number of due preferences and, with one skipped record per rejected
    preference, to the number of enabled preferences. *)
Theorem every_enabled_preference_is_accounted_for
  (env : SendEmails.Env) (w : SendEmails.World) :
  SendEmails.select_error env = None ->
  Forall (SendEmailsSpec.resolves env) (SendEmailsSpec.enabled env) ->
  SendEmailsSpec.duePreferences env <> [] ->
  exists batch,
    SendEmails.tracked (SendEmails.handler env w).2 = SendEmails.tracked w ++ [batch] /\
    sum_list (map SendEmails.Analytics.followings_count batch)
    = length (SendEmailsSpec.duePreferences env) /\
    (sum_list (map SendEmails.Analytics.followings_count batch)
     + length (List.filter (SendEmailsSpec.has_status SendEmails.skipped) batch)
     = length (SendEmailsSpec.enabled env))%nat.
Proof.
  intros Hsel Hres Hdue.
  assert (Hne : SendEmailsSpec.enabled env <> []).
  { intros E. apply Hdue. unfold SendEmailsSpec.duePreferences. now rewrite E. }
  rewrite (handler_run env w Hsel Hne Hres).
  destruct (SendEmailsSpec.duePreferences env) as [|d ds] eqn:Hd; [congruence|].
  rewrite <- Hd in *.
  exists (SendEmailsSpec.skippedRecords env ++ SendEmailsSpec.outcomes env).
  split; [reflexivity|].
  assert (Hsum : sum_list (map SendEmails.Analytics.followings_count
                             (SendEmailsSpec.skippedRecords env ++ SendEmailsSpec.outcomes env))
                 = length (SendEmailsSpec.duePreferences env)).
  { rewrite map_app, sum_list_append, skipped_followings, outcomes_followings. reflexivity. }
  split; [exact Hsum|]. rewrite Hsum.
  rewrite List.filter_app, length_app.
  assert (Hs : List.filter (SendEmailsSpec.has_status SendEmails.skipped)
                 (SendEmailsSpec.skippedRecords env) = SendEmailsSpec.skippedRecords env).
  { unfold SendEmailsSpec.skippedRecords.
    induction (List.filter (SendEmailsSpec.rejected env) (SendEmailsSpec.enabled env))
      as [|p l IH]; [reflexivity|]. cbn [map List.filter].
    change (SendEmailsSpec.has_status SendEmails.skipped (SendEmails.skipped_record env p))
      with true. now rewrite IH. }
  assert (Ho : List.filter (SendEmailsSpec.has_status SendEmails.skipped)
                 (SendEmailsSpec.outcomes env) = []).
  { unfold SendEmailsSpec.outcomes.
    induction (SendEmailsSpec.emailData env) as [|item l IH]; [reflexivity|].
    cbn [map List.filter]. unfold SendEmailsSpec.has_status at 1.
    rewrite outcome_status. now destruct (SendEmailsSpec.delivery_fails env item). }
  rewrite Hs, Ho. unfold SendEmailsSpec.skippedRecords. rewrite length_map. cbn [length].
  unfold SendEmailsSpec.duePreferences, SendEmailsSpec.rejected.
  pose proof (filter_negb_length (SendEmailsSpec.due env) (SendEmailsSpec.enabled env)).
  pose proof (filter_length_le (SendEmailsSpec.due env) (SendEmailsSpec.enabled env)).
  lia.
Qed.

Lemma every_enabled_preference_is_accounted_for_witness :
  exists batch,
    SendEmails.tracked (SendEmails.handler ExamplesBatch.busy ExamplesBatch.start).2
    = SendEmails.tracked ExamplesBatch.start ++ [batch] /\
    sum_list (map SendEmails.Analytics.followings_count batch)
    = length (SendEmailsSpec.duePreferences ExamplesBatch.busy) /\
    (sum_list (map SendEmails.Analytics.followings_count batch)
     + length (List.filter (SendEmailsSpec.has_status SendEmails.skipped) batch)
     = length (SendEmailsSpec.enabled ExamplesBatch.busy))%nat.
Proof.
  apply (every_enabled_preference_is_accounted_for ExamplesBatch.busy ExamplesBatch.start).
  - reflexivity.
  - repeat constructor; eexists; reflexivity.
  - vm_compute. discriminate.
Defined.

(** ** Send times *)
Section SendTimes.
Import JS Schedule.

Lemma split_go_first (hh rest cur : string) :
  SendTime.no_colon hh = true ->
  head (split_go ":" cur (hh +:+ ":" +:+ rest)) = Some (String.rev_app cur hh) /\
  head (split_go ":" cur hh) = Some (String.rev_app cur hh).
Proof.
  revert cur. induction hh as [|c hh IH]; intros cur Hno.
  - change ("" +:+ ":" +:+ rest) with (String ":" rest). cbn [split_go].
    split; reflexivity.
  - cbn [SendTime.no_colon] in Hno. apply andb_true_iff in Hno as [Hc Hno].
    apply negb_true_iff in Hc.
    change (String c hh +:+ ":" +:+ rest) with (String c (hh +:+ ":" +:+ rest)).
    cbn [split_go]. rewrite Hc. exact (IH (String c cur) Hno).
Qed.

Lemma sendHour_of_hour (host : Intl.Host) (hh mm : string) :
  SendTime.no_colon hh = true ->
  sendHour_of host (hh +:+ ":" +:+ mm) = Some (Number (Intl.inexact_number host) hh)
  /\ sendHour_of host hh = Some (Number (Intl.inexact_number host) hh).
Proof.
  intros Hno. unfold sendHour_of, split.
  destruct (split_go_first hh mm "" Hno) as [H1 H2].
  change (String.rev_app "" hh) with hh in H1, H2.
  destruct (split_go ":" "" (hh +:+ ":" +:+ mm)) as [|x xs]; [discriminate|].
  destruct (split_go ":" "" hh) as [|y ys]; [discriminate|].
  cbn in H1, H2. injection H1 as ->. injection H2 as ->. split; reflexivity.
Qed.

End SendTimes.

(** X23. The minutes of a send time are ignored: [HH:MM] is due exactly when
    [HH] alone is, whatever [MM] is. *)
Theorem send_time_minutes_are_ignored
  (host : Intl.Host) (now : Z) (frequency hh mm timezone : string) :
  SendTime.no_colon hh = true ->
  Schedule.shouldSendNewsletter host now frequency (hh +:+ ":" +:+ mm) timezone
  = Schedule.shouldSendNewsletter host now frequency hh timezone.
Proof.
  intros Hno. unfold Schedule.shouldSendNewsletter.
  destruct (sendHour_of_hour host hh mm Hno) as [-> ->]. reflexivity.
Qed.

Lemma send_time_minutes_are_ignored_witness :
  Schedule.shouldSendNewsletter (Examples.utc_host (Examples.civil 9 Intl.Mon 8)) 0
    "daily" ("09" +:+ ":" +:+ "59") "UTC"
  = Schedule.shouldSendNewsletter (Examples.utc_host (Examples.civil 9 Intl.Mon 8)) 0
      "daily" "09" "UTC".
Proof.
  apply (send_time_minutes_are_ignored (Examples.utc_host (Examples.civil 9 Intl.Mon 8)) 0
           "daily" "09" "59" "UTC").
  reflexivity.
Defined.

(** X24. On a runtime that renders midnight as 24, a send time whose hour
    reads 0 is never due, whatever the frequency and the time zone. *)
Theorem midnight_is_never_due_when_rendered_24
  (host : Intl.Host) (now : Z) (frequency sendTime timezone : string) :
  Intl.midnight_as_24 host = true ->
  Schedule.sendHour_of host sendTime = Some (JS.Int 0) ->
  Schedule.shouldSendNewsletter host now frequency sendTime timezone <> JS.Ok true.
Proof.
  intros H24 Hhour.
  destruct (Intl.localTime host timezone now) as [c|] eqn:Hc.
  - rewrite (shouldSend_resolved host now frequency sendTime timezone c Hc).
    unfold ScheduleSpec.due_at, Intl.rendered_hour. rewrite Hhour, H24.
    cbn [andb JS.strict_eq_undef JS.strict_eq].
    destruct (Intl.hour c =? 0)%nat eqn:E.
    + cbn. discriminate.
    + apply Nat.eqb_neq in E.
      replace (Z.of_nat (Intl.hour c) =? 0) with false by (symmetry; apply Z.eqb_neq; lia).
      cbn. discriminate.
  - destruct (shouldSend_unknown_zone host now frequency sendTime timezone Hc) as [e ->].
    discriminate.
Qed.

Lemma midnight_is_never_due_when_rendered_24_witness :
  Schedule.shouldSendNewsletter (Examples.utc_host (Examples.civil 0 Intl.Mon 8)) 0
    "daily" "00:00" "UTC" <> JS.Ok true.
Proof.
  apply (midnight_is_never_due_when_rendered_24
           (Examples.utc_host (Examples.civil 0 Intl.Mon 8)) 0 "daily" "00:00" "UTC");
    reflexivity.
Defined.

(** ** The statistics endpoint: defaults and answers *)

(** X25. Without a [period] parameter the endpoint answers as for
    [period=last_7_days], also when a lone date is given. *)
Theorem absent_period_is_last_7_days
  (env : GetEmailAnalytics.Env) (query : gmap string string) :
  query !! "period" = None ->
  GetEmailAnalytics.handler env (Some query)
  = GetEmailAnalytics.handler env (Some (<["period" := "last_7_days"]> query)).
Proof.
  intros Hp.
  unfold GetEmailAnalytics.handler, GetEmailAnalytics.parseQuery.
  cbn [default from_option id].
  rewrite lookup_insert_eq, !lookup_insert_ne by discriminate. rewrite Hp.
  rewrite (bool_decide_eq_true_2 ("last_7_days" ∈ GetEmailAnalytics.periodEnum))
    by (unfold GetEmailAnalytics.periodEnum; set_solver).
  cbn [GetEmailAnalytics.startDate GetEmailAnalytics.endDate GetEmailAnalytics.period].
  destruct (GetEmailAnalytics.given (query !! "startDate"));
    destruct (GetEmailAnalytics.given (query !! "endDate")); reflexivity.
Qed.

Lemma absent_period_is_last_7_days_witness :
  GetEmailAnalytics.handler (ExamplesMore.analytics_env []) (Some ∅)
  = GetEmailAnalytics.handler (ExamplesMore.analytics_env [])
      (Some (<["period" := "last_7_days"]> ∅)).
Proof.
  exact (absent_period_is_last_7_days (ExamplesMore.analytics_env []) ∅ eq_refl).
Defined.

(** X26. The answers of the statistics endpoint: 200 with the statistics of
    a range when the query on the table succeeded, 400 for a period outside
    the enumeration or a custom date that does not parse, and 500 only when
    the query on the table failed. *)
Theorem analytics_endpoint_answers
  (env : GetEmailAnalytics.Env) (queryStringParameters : option (gmap string string)) :
  let response := GetEmailAnalytics.handler env queryStringParameters in
  (GetEmailAnalytics.statusCode response = 200 /\
   (GetEmailAnalytics.select env = EmailAnalytics.Selected \/
    GetEmailAnalytics.select env = EmailAnalytics.SelectedNull) /\
   exists startDate endDate stats,
     GetEmailAnalytics.body response
     = GetEmailAnalytics.StatsBody startDate endDate stats /\
     EmailAnalytics.getEmailAnalyticsStats (GetEmailAnalytics.select env)
       (GetEmailAnalytics.email_analytics env) startDate endDate = Some stats) \/
  (GetEmailAnalytics.statusCode response = 400 /\
   (GetEmailAnalytics.body response = GetEmailAnalytics.InvalidDateFormat \/
    GetEmailAnalytics.body response
    = GetEmailAnalytics.InvalidQueryParameters [GetEmailAnalytics.InvalidPeriod])) \/
  (GetEmailAnalytics.statusCode response = 500 /\
   GetEmailAnalytics.body response = GetEmailAnalytics.FailedToRetrieve /\
   ((exists error, GetEmailAnalytics.select env = EmailAnalytics.SelectError error) \/
    (exists e, GetEmailAnalytics.select env = EmailAnalytics.SelectThrows e))).
Proof.
  assert (Hrespond : forall startDate endDate,
    let response := GetEmailAnalytics.respond env startDate endDate in
    (GetEmailAnalytics.statusCode response = 200 /\
     (GetEmailAnalytics.select env = EmailAnalytics.Selected \/
      GetEmailAnalytics.select env = EmailAnalytics.SelectedNull) /\
     exists startDate endDate stats,
       GetEmailAnalytics.body response
       = GetEmailAnalytics.StatsBody startDate endDate stats /\
       EmailAnalytics.getEmailAnalyticsStats (GetEmailAnalytics.select env)
         (GetEmailAnalytics.email_analytics env) startDate endDate = Some stats) \/
    (GetEmailAnalytics.statusCode response = 400 /\
     (GetEmailAnalytics.body response = GetEmailAnalytics.InvalidDateFormat \/
      GetEmailAnalytics.body response
      = GetEmailAnalytics.InvalidQueryParameters [GetEmailAnalytics.InvalidPeriod])) \/
    (GetEmailAnalytics.statusCode response = 500 /\
     GetEmailAnalytics.body response = GetEmailAnalytics.FailedToRetrieve /\
     ((exists error, GetEmailAnalytics.select env = EmailAnalytics.SelectError error) \/
      (exists e, GetEmailAnalytics.select env = EmailAnalytics.SelectThrows e)))).
  { intros startDate endDate. cbv zeta. unfold GetEmailAnalytics.respond.
    destruct (EmailAnalytics.getEmailAnalyticsStats _ _ startDate endDate) as [stats|] eqn:E.
    - left. split; [reflexivity|]. split.
      + unfold EmailAnalytics.getEmailAnalyticsStats in E.
        destruct (GetEmailAnalytics.select env); try discriminate E; auto.
      + eauto.
    - right. right. split; [reflexivity|]. split; [reflexivity|].
      unfold EmailAnalytics.getEmailAnalyticsStats in E.
      destruct (GetEmailAnalytics.select env); eauto; try discriminate E.
      destruct (List.filter _ _); discriminate E. }
  cbv zeta. unfold GetEmailAnalytics.handler, GetEmailAnalytics.parseQuery.
  destruct (default ∅ queryStringParameters !! "period") as [p|].
  - destruct (bool_decide (p ∈ GetEmailAnalytics.periodEnum)).
    + cbn [GetEmailAnalytics.startDate GetEmailAnalytics.endDate GetEmailAnalytics.period].
      destruct (GetEmailAnalytics.given _); [|apply Hrespond].
      destruct (GetEmailAnalytics.given _); [|apply Hrespond].
      destruct (GetEmailAnalytics.parse _ _); [|right; left; split; [reflexivity | now left]].
      destruct (GetEmailAnalytics.parse _ _); [apply Hrespond|].
      right; left; split; [reflexivity | now left].
    + right. left. split; [reflexivity | now right].
  - cbn [GetEmailAnalytics.startDate GetEmailAnalytics.endDate GetEmailAnalytics.period].
    destruct (GetEmailAnalytics.given _); [|apply Hrespond].
    destruct (GetEmailAnalytics.given _); [|apply Hrespond].
    destruct (GetEmailAnalytics.parse _ _); [|right; left; split; [reflexivity | now left]].
    destruct (GetEmailAnalytics.parse _ _); [apply Hrespond|].
    right; left; split; [reflexivity | now left].
Qed.
